(** * SparqlExpressionEvaluator: a shallow embedding

    This development embeds [lib/util/SparqlExpressionEvaluator.js] (the
    first module of the source file; the text after the separator is an
    earlier revision of the same module) and proves properties of it.

    JavaScript values are modelled by [JsVal]; exceptions by the error
    side of [Result]; the random sources [Math.random] and [UUID.v4] by
    an explicit [World] threaded through evaluation.  The [n3] package's
    [Util] object and the engine's built-ins are collaborators of the
    module, not part of it: definitions take them as the records
    [N3UtilT] and [Host]. *)

From Stdlib Require Import Floats ZArith Ascii String DecimalString List Bool Lia.
From stdpp Require Import gmap strings list.

Set Warnings "-register-all".

Local Open Scope string_scope.
Local Open Scope Z_scope.

(** ** Strings *)

(** The double-quote character (the one-character string literal the
    source concatenates around lexical forms). *)
Definition quot : string :=
  String (Ascii false true false false false true false false) EmptyString.

(** [s[0]] on a string: the first code unit, [undefined] when empty. *)
Definition first_char (s : string) : option ascii :=
  match s with
  | EmptyString => None
  | String c _ => Some c
  end.

(** [s[0] === '?'] *)
Definition starts_with_question_mark (s : string) : bool :=
  match first_char s with
  | Some c => Ascii.eqb c "?"%char
  | None => false
  end.

(** [String.prototype.indexOf(t)] on a string receiver with a string
    argument: the least position at which [t] occurs in [s], or [-1]. *)
Fixpoint indexOf_from (i : Z) (s t : string) : Z :=
  if String.prefix t s then i
  else match s with
       | EmptyString => -1
       | String _ s' => indexOf_from (i + 1) s' t
       end.

Definition indexOf (s t : string) : Z := indexOf_from 0 s t.

Definition strlen (s : string) : Z := Z.of_nat (String.length s).

(** [Array.prototype.indexOf(x)] on an array of strings. *)
Fixpoint array_indexOf_from (i : Z) (l : list string) (x : string) : Z :=
  match l with
  | [] => -1
  | y :: l' => if String.eqb y x then i else array_indexOf_from (i + 1) l' x
  end.

Definition array_indexOf (l : list string) (x : string) : Z :=
  array_indexOf_from 0 l x.

(** The encoding of terms: a simple literal, a literal with a datatype
    and a literal with a language tag.  IRIs are bare text. *)
Definition lit (lexicalForm : string) : string := quot +:+ lexicalForm +:+ quot.

Definition typed (lexicalForm type : string) : string :=
  quot +:+ lexicalForm +:+ quot +:+ "^^" +:+ type.

Definition tagged (lexicalForm language : string) : string :=
  quot +:+ lexicalForm +:+ quot +:+ "@" +:+ language.

(** ** JavaScript primitive values *)

Inductive JsVal : Type :=
| VUndef
| VBool (b : bool)
| VNum (n : float)
| VStr (s : string).

(** [ToBoolean]: truthiness. *)
Definition ToBoolean (v : JsVal) : bool :=
  match v with
  | VUndef => false
  | VBool b => b
  | VNum n => negb (PrimFloat.eqb n PrimFloat.zero) && PrimFloat.eqb n n
  | VStr s => negb (String.eqb s "")
  end.

(** Strict equality [===] on primitives. *)
Definition strict_eq (a b : JsVal) : bool :=
  match a, b with
  | VUndef, VUndef => true
  | VBool x, VBool y => Bool.eqb x y
  | VNum x, VNum y => PrimFloat.eqb x y
  | VStr x, VStr y => String.eqb x y
  | _, _ => false
  end.

(** An integer as a Number (exact below 2^53). *)
Definition float_of_Z (z : Z) : float :=
  if z <? 0 then PrimFloat.opp (PrimFloat.of_uint63 (Uint63.of_Z (- z)))
  else PrimFloat.of_uint63 (Uint63.of_Z z).

(** ** Expressions, as handed over by the parser

    [EOther type] stands for a node of a type for which [evaluators]
    holds nothing.  A type that names a property of [evaluators], own
    ([null], [string], [operation]) or inherited from
    [Object.prototype], finds a value there, which the code calls
    instead of reporting the type; such nodes, which no parser emits,
    are outside what the embedding describes.  The same holds of an
    operator named after an inherited property.  The predicate
    [free_of_inherited_names] below marks the expressions described. *)

Inductive expr : Type :=
| ENull                                       (* null or undefined *)
| EStr (s : string)                           (* typeof expression === 'string' *)
| EOp (operator : string) (args : list expr)  (* { type: 'operation', operator, args } *)
| EOther (type : string).                     (* a node whose type has no evaluator *)

(** ** Exceptions

    One constructor per [throw] site of the module (the message of the
    source is given next to it), plus the engine's own errors. *)

Inductive error : Type :=
| UnsupportedExpressionType (expressionType : string)
    (* 'Unsupported expression type: ' + expressionType *)
| VariableNotBound (expression : string)
    (* 'Cannot evaluate variable ' + expression + ' because it is not bound.' *)
| UnsupportedOperator (operatorName : string)
    (* 'Unsupported operator: ' + operatorName.toUpperCase() + '.' *)
| InvalidNumberOfArguments (operatorName : string) (given expected : nat)
    (* 'Invalid number of arguments for ' + operatorName.toUpperCase() +
       ': ' + given + ' (expected: ' + expected + ').' *)
| BoundExpectsVariable
    (* 'BOUND expects a variable but got: ' + a *)
| NotYetSupported (what : string)
    (* what + ' not yet supported' *)
| RequiresCompatibleArguments (what : string)
    (* what + ' requires compatible arguments' *)
| DatatypeNoValidIRI (datatypeIRI : JsVal)
    (* 'Datatype' + datatypeIRI + ' is no valid IRI' *)
| NotALiteral (literal : JsVal)
    (* thrown by N3Util: literal + ' is not a literal' *)
| IriExpectsLiteralOrIri
    (* 'IRI expects an simple literal, xsd:string or an IRI' *)
| TypeError
| ReferenceError (name : string)
| SyntaxError (pattern : string).

Inductive Result (A : Type) : Type :=
| Ok (a : A)
| Err (e : error).

Arguments Ok {A} a.
Arguments Err {A} e.

Definition bindR {A B} (r : Result A) (k : A -> Result B) : Result B :=
  match r with
  | Ok a => k a
  | Err e => Err e
  end.

Notation "'try' x <- r ; k" := (bindR r (fun x => k))
  (at level 10, x name, r at level 100, k at level 200).

(** Evaluation reads the random sources: a computation takes their
    state [W] and returns it with its outcome.  A thrown exception keeps
    the state reached so far. *)
Definition M (W A : Type) : Type := W -> Result A * W.

Definition ret {W A} (a : A) : M W A := fun w => (Ok a, w).

Definition throw {W A} (e : error) : M W A := fun w => (Err e, w).

Definition lift {W A} (r : Result A) : M W A := fun w => (r, w).

Definition bind {W A B} (m : M W A) (k : A -> M W B) : M W B :=
  fun w =>
    match m w with
    | (Ok a, w') => k a w'
    | (Err e, w') => (Err e, w')
    end.

Notation "'run' x <- m ; k" := (bind m (fun x => k))
  (at level 10, x name, m at level 100, k at level 200).

(** [f] applied to the elements of [l] from left to right, stopping at
    the first exception. *)
Definition mapR {A B} (f : A -> Result B) : list A -> Result (list B) :=
  fix go (l : list A) : Result (list B) :=
    match l with
    | [] => Ok []
    | a :: l' =>
        match f a with
        | Err e => Err e
        | Ok b => match go l' with
                  | Err e => Err e
                  | Ok bs => Ok (b :: bs)
                  end
        end
    end.

(** ** Collaborators *)

(** The [Util] object of the [n3] package.  The three predicates are
    only used for their truthiness, so they return a boolean here; the
    three extractors return strings or throw, and the empty string
    stands for any falsy result (no datatype, no language). *)
Record N3UtilT : Type := {
  isUri : JsVal -> Result bool;
  isLiteral : JsVal -> Result bool;
  isBlank : JsVal -> Result bool;
  getLiteralValue : JsVal -> Result string;
  getLiteralType : JsVal -> Result string;
  getLiteralLanguage : JsVal -> Result string
}.

(** The engine's built-ins used by the module. [World] is the state of
    the random sources. *)
Record Host : Type := {
  World : Type;
  Math_random : World -> float * World;
  UUID_v4 : World -> string * World;
  parseFloat : string -> float;
  StringToNumber : string -> float;     (* ToNumber on a string *)
  NumberToString : float -> string;     (* ToString on a Number *)
  Number_toFixed : float -> string;     (* n.toFixed() *)
  toUpperCase : string -> string;
  toLowerCase : string -> string;
  RegExp_test : string -> string -> Result bool  (* new RegExp(p).test(s) *)
}.

(** ** Module-level constants *)

Definition XSD : string := "http://www.w3.org/2001/XMLSchema#".

(** The [var] statement declares [XSD_BOOLEAN] twice, first as
    [XSD + 'boolean'] and then as [XSD + 'string']; the second
    initialiser is the value every later use reads. *)
Definition XSD_BOOLEAN : string := XSD +:+ "string".

Definition XSD_TRUE : string := quot +:+ "true" +:+ quot +:+ "^^" +:+ XSD_BOOLEAN.

Definition XSD_FALSE : string := quot +:+ "false" +:+ quot +:+ "^^" +:+ XSD_BOOLEAN.

Definition numeric_type_names : list string :=
  ["integer"; "decimal"; "float"; "double"; "nonPositiveInteger";
   "negativeInteger"; "long"; "int"; "short"; "byte"; "nonNegativeInteger";
   "unsignedLong"; "unsignedInt"; "unsignedShort"; "unsignedByte";
   "positiveInteger"].

(** The property key the loop writes: [type.toUpperCase] is the method
    itself, not a call, so the key is the text the engine prints for that
    function (V8's rendering of a native function), the same for every
    element of the array. *)
Definition toUpperCase_function_text : string :=
  "function toUpperCase() { [native code] }".

(** [XSD_NUMERIC[type.toUpperCase] = XSD + type], for each name in turn. *)
Definition XSD_NUMERIC : gmap string string :=
  foldl (fun obj type => <[toUpperCase_function_text := XSD +:+ type]> obj)
        ∅ numeric_type_names.

(** [numeric_types]: what the [map] callback returns. *)
Definition numeric_types : list string :=
  map (fun type => XSD +:+ type) numeric_type_names.

(** [XSD_NUMERIC.INTEGER] *)
Definition XSD_NUMERIC_INTEGER : option string := XSD_NUMERIC !! "INTEGER".

(** Bindings: an object from variable names to terms, or nothing at all
    when the caller passes none. *)
Abbreviation Bindings := (option (gmap string string)).

(** [name in bindings].  For a missing [bindings] used as [this] of a
    sloppy-mode function the receiver is the global object, which has no
    property whose name starts with a question mark. *)
Definition in_bindings (name : string) (bindings : Bindings) : bool :=
  match bindings with
  | Some obj => bool_decide (is_Some (obj !! name))
  | None => false
  end.

(** ** The operator table

    [fn] names the function stored under each key of the [operators]
    object literal. *)

Inductive fn : Type :=
| Fn_plus | Fn_minus | Fn_times | Fn_divide
| Fn_eq | Fn_neq | Fn_lt | Fn_le | Fn_gt | Fn_ge
| Fn_not | Fn_and | Fn_or
| Fn_bound | Fn_if | Fn_coalesce | Fn_exists | Fn_not_exists
| Fn_sameTerm | Fn_in | Fn_not_in
| Fn_isiri | Fn_isblank | Fn_isliteral | Fn_isnumeric
| Fn_str | Fn_lang | Fn_datatype | Fn_iri | Fn_bnode
| Fn_strdt | Fn_strlang | Fn_uuid | Fn_struuid
| Fn_strlen | Fn_substr | Fn_ucase | Fn_lcase
| Fn_strstarts | Fn_strends | Fn_contains | Fn_strbefore | Fn_strafter
| Fn_encode_for_uri | Fn_concat | Fn_langmatches | Fn_regex | Fn_replace
| Fn_abs | Fn_round | Fn_ceil | Fn_floor | Fn_rand
| Fn_now | Fn_year | Fn_month | Fn_day | Fn_hours | Fn_minutes
| Fn_seconds | Fn_timezone | Fn_tz
| Fn_md5 | Fn_sha1 | Fn_sha256 | Fn_sha384 | Fn_sha512
| Fn_xsd (local : string).   (* the function under the key XSD + local *)

(** The local names of the XPath constructor keys (17.5). *)
Definition xsd_constructor_names : list string :=
  ["integer"; "decimal"; "float"; "double"; "nonPositiveInteger";
   "negativeInteger"; "long"; "int"; "short"; "byte"; "nonNegativeInteger";
   "unsignedLong"; "unsignedInt"; "unsignedShort"; "unsignedByte";
   "positiveInteger"; "string"; "boolean"; "dateTime"].

(** The entries of the object literal, in source order.  The entry
    [uri: this.iri] is left out: at module level [this.iri] is
    [undefined], so [operators.uri] is falsy like a missing key.  The
    table holds the object's own properties; the names it inherits from
    [Object.prototype] are not operator names and are not modelled
    (see [Object_prototype_names] and [free_of_inherited_names]). *)
Definition operators_entries : list (string * fn) :=
  [("+", Fn_plus); ("-", Fn_minus); ("*", Fn_times); ("/", Fn_divide);
   ("=", Fn_eq); ("!=", Fn_neq); ("<", Fn_lt); ("<=", Fn_le);
   (">", Fn_gt); (">=", Fn_ge);
   ("!", Fn_not); ("&&", Fn_and); ("||", Fn_or);
   ("bound", Fn_bound); ("if", Fn_if); ("coalesce", Fn_coalesce);
   ("exists", Fn_exists); ("not exists", Fn_not_exists);
   ("sameTerm", Fn_sameTerm); ("in", Fn_in); ("not in", Fn_not_in);
   ("isiri", Fn_isiri); ("isblank", Fn_isblank); ("isliteral", Fn_isliteral);
   ("isnumeric", Fn_isnumeric); ("str", Fn_str); ("lang", Fn_lang);
   ("datatype", Fn_datatype); ("iri", Fn_iri); ("bnode", Fn_bnode);
   ("strdt", Fn_strdt); ("strlang", Fn_strlang); ("uuid", Fn_uuid);
   ("struuid", Fn_struuid);
   ("strlen", Fn_strlen); ("substr", Fn_substr); ("ucase", Fn_ucase);
   ("lcase", Fn_lcase); ("strstarts", Fn_strstarts); ("strends", Fn_strends);
   ("contains", Fn_contains); ("strbefore", Fn_strbefore);
   ("strafter", Fn_strafter); ("encode_for_uri", Fn_encode_for_uri);
   ("concat", Fn_concat); ("langmatches", Fn_langmatches); ("regex", Fn_regex);
   ("replace", Fn_replace);
   ("abs", Fn_abs); ("round", Fn_round); ("ceil", Fn_ceil); ("floor", Fn_floor);
   ("rand", Fn_rand);
   ("now", Fn_now); ("year", Fn_year); ("month", Fn_month); ("day", Fn_day);
   ("hours", Fn_hours); ("minutes", Fn_minutes); ("seconds", Fn_seconds);
   ("timezone", Fn_timezone); ("tz", Fn_tz);
   ("md5", Fn_md5); ("sha1", Fn_sha1); ("sha256", Fn_sha256);
   ("sha384", Fn_sha384); ("sha512", Fn_sha512)]
  ++ map (fun local => (XSD +:+ local, Fn_xsd local)) xsd_constructor_names.

Definition operators : gmap string fn := list_to_map operators_entries.

(** [operator.length]: the number of declared parameters. *)
Definition fn_length (operator : fn) : nat :=
  match operator with
  | Fn_plus | Fn_minus | Fn_times | Fn_divide
  | Fn_eq | Fn_neq | Fn_lt | Fn_le | Fn_gt | Fn_ge => 2
  | Fn_not => 1
  | Fn_and | Fn_or => 2
  | Fn_bound => 1
  | Fn_if => 3
  | Fn_coalesce => 2
  | Fn_exists | Fn_not_exists => 1
  | Fn_sameTerm => 2
  | Fn_in | Fn_not_in => 0
  | Fn_isiri | Fn_isblank | Fn_isliteral | Fn_isnumeric
  | Fn_str | Fn_lang | Fn_datatype | Fn_iri | Fn_bnode => 1
  | Fn_strdt | Fn_strlang => 2
  | Fn_uuid | Fn_struuid => 0
  | Fn_strlen => 1
  | Fn_substr => 3
  | Fn_ucase | Fn_lcase => 1
  | Fn_strstarts | Fn_strends | Fn_contains | Fn_strbefore | Fn_strafter => 2
  | Fn_encode_for_uri => 1
  | Fn_concat => 0
  | Fn_langmatches | Fn_regex => 2
  | Fn_replace => 4
  | Fn_abs | Fn_round | Fn_ceil | Fn_floor => 1
  | Fn_rand => 0
  | Fn_now => 0
  | Fn_year | Fn_month | Fn_day | Fn_hours | Fn_minutes
  | Fn_seconds | Fn_timezone | Fn_tz => 1
  | Fn_md5 | Fn_sha1 | Fn_sha256 | Fn_sha384 | Fn_sha512 => 1
  | Fn_xsd _ => 1
  end.

(** *** Tagging

    Four loops write the properties [type] and [resultType] of the
    functions, named by key; a later write replaces an earlier one. *)

Inductive tag : Type := numeric | boolean.

Definition numeric_argument_names : list string :=
  ["+"; "-"; "*"; "/"; "<"; "<="; ">"; ">=";
   "abs"; "round"; "ceil"; "floor"] ++ numeric_types.

Definition boolean_argument_names : list string := ["!"; "&&"; "||"].

Definition numeric_result_names : list string :=
  ["+"; "-"; "*"; "/"; "<"; "<="; ">"; ">="].

Definition boolean_result_names : list string :=
  ["!"; "&&"; "||"; "="; "<"; "<="; ">"; ">="; "langmatches"; "regex"].

Definition mem (name : string) (names : list string) : bool :=
  existsb (String.eqb name) names.

(** [operators[operatorName].type] after the loops: written by the
    first loop, then the second, then the third. *)
Definition operator_type (operatorName : string) : option tag :=
  if mem operatorName numeric_result_names then Some numeric
  else if mem operatorName boolean_argument_names then Some boolean
  else if mem operatorName numeric_argument_names then Some numeric
  else None.

(** [operators[operatorName].resultType]: written by the third loop,
    then the fourth. *)
Definition operator_resultType (operatorName : string) : option tag :=
  if mem operatorName boolean_result_names then Some boolean
  else if mem operatorName numeric_result_names then Some numeric
  else None.

(** [operators.bound.acceptsExpressions = true] is the only such tag. *)
Definition acceptsExpressions (operatorName : string) : bool :=
  String.eqb operatorName "bound".

(** ** Conversions of the engine *)

Inductive IntOrInf : Type := Fin (z : Z) | PosInf | NegInf.

(** [ToIntegerOrInfinity] on a Number: truncation towards zero. *)
Definition ToIntegerOrInfinity (x : float) : IntOrInf :=
  match Prim2SF x with
  | S754_nan => Fin 0
  | S754_zero _ => Fin 0
  | S754_infinity false => PosInf
  | S754_infinity true => NegInf
  | S754_finite sign m e =>
      let t := Z.shiftl (Zpos m) e in
      Fin (if sign then - t else t)
  end.

(** [String.prototype.substr] once its arguments are integers. *)
Definition substr_int (s : string) (intStart intLength : IntOrInf) : string :=
  let size := strlen s in
  let start :=
    match intStart with
    | NegInf => 0
    | Fin z => if z <? 0 then Z.max (size + z) 0 else Z.min z size
    | PosInf => size
    end in
  let len :=
    match intLength with
    | NegInf => 0
    | Fin z => Z.max 0 (Z.min z size)
    | PosInf => size
    end in
  let stop := Z.min (start + len) size in
  String.substring (Z.to_nat start) (Z.to_nat (stop - start)) s.

(** [Math.floor] and [Math.ceil] on a Number. *)
Definition Math_floor (x : float) : float :=
  match Prim2SF x with
  | S754_finite sign m e =>
      if 0 <=? e then x
      else
        let q := Z.shiftl (Zpos m) e in
        let exact := Z.shiftl q (- e) =? Zpos m in
        if sign then float_of_Z (- (if exact then q else q + 1))
        else float_of_Z q
  | _ => x
  end.

Definition Math_ceil (x : float) : float :=
  match Prim2SF x with
  | S754_finite sign m e =>
      if 0 <=? e then x
      else
        let q := Z.shiftl (Zpos m) e in
        let exact := Z.shiftl q (- e) =? Zpos m in
        if sign then PrimFloat.opp (float_of_Z q)
        else float_of_Z (if exact then q else q + 1)
  | _ => x
  end.

Section Evaluator.

Variable H : Host.
Variable N3Util : N3UtilT.

Definition ToString (v : JsVal) : string :=
  match v with
  | VUndef => "undefined"
  | VBool true => "true"
  | VBool false => "false"
  | VNum n => NumberToString H n
  | VStr s => s
  end.

Definition ToNumber (v : JsVal) : float :=
  match v with
  | VUndef => PrimFloat.nan
  | VBool true => PrimFloat.one
  | VBool false => PrimFloat.zero
  | VNum n => n
  | VStr s => StringToNumber H s
  end.

(** [a + b] *)
Definition js_add (a b : JsVal) : JsVal :=
  match a, b with
  | VStr _, _ | _, VStr _ => VStr (ToString a +:+ ToString b)
  | _, _ => VNum (PrimFloat.add (ToNumber a) (ToNumber b))
  end.

(** [a - b], [a * b], [a / b] *)
Definition js_arith (f : float -> float -> float) (a b : JsVal) : JsVal :=
  VNum (f (ToNumber a) (ToNumber b)).

(** [a < b] and [a <= b]; [a > b] is [js_lt b a], [a >= b] is [js_le b a]. *)
Definition js_lt (a b : JsVal) : bool :=
  match a, b with
  | VStr x, VStr y => String.ltb x y
  | _, _ => PrimFloat.ltb (ToNumber a) (ToNumber b)
  end.

Definition js_le (a b : JsVal) : bool :=
  match a, b with
  | VStr x, VStr y => String.leb x y
  | _, _ => PrimFloat.leb (ToNumber a) (ToNumber b)
  end.

(** The receiver of a string method call: calling [toLowerCase],
    [substr] and the like on a value that is not a string fails. *)
Definition string_receiver (v : JsVal) : Result string :=
  match v with
  | VStr s => Ok s
  | _ => Err TypeError
  end.

(** [v.length] read as an operand of arithmetic. *)
Definition length_of (v : JsVal) : Result (option Z) :=
  match v with
  | VStr s => Ok (Some (strlen s))
  | VUndef => Err TypeError
  | _ => Ok None
  end.

(** [s.substr(start, length)] *)
Definition js_substr (s : string) (start length : JsVal) : string :=
  substr_int s (ToIntegerOrInfinity (ToNumber start))
    (match length with
     | VUndef => PosInf
     | _ => ToIntegerOrInfinity (ToNumber length)
     end).

(** ** Helper functions of the module *)

Definition operators_strdt (lexicalForm datatypeIRI : JsVal) : Result JsVal :=
  try u <- isUri N3Util datatypeIRI;
  if negb u then Err (DatatypeNoValidIRI datatypeIRI)
  else Ok (VStr (quot +:+ ToString lexicalForm +:+ quot +:+ "^^<"
                 +:+ ToString datatypeIRI +:+ ">")).

Definition operators_strlang (lexicalForm langTag : JsVal) : Result JsVal :=
  Ok (VStr (quot +:+ ToString lexicalForm +:+ quot +:+ "@" +:+ ToString langTag)).

Definition constructLiteral (lexicalForm : string) (literal : JsVal) : Result JsVal :=
  try lang <- getLiteralLanguage N3Util literal;
  try datatype <- getLiteralType N3Util literal;
  if negb (String.eqb lang "") then operators_strlang (VStr lexicalForm) (VStr lang)
  else if negb (String.eqb datatype "") then operators_strdt (VStr lexicalForm) (VStr datatype)
  else Ok (VStr (quot +:+ lexicalForm +:+ quot)).

(** [isStringLiteral(str)]: its body reads [a], which is bound nowhere. *)
Definition isStringLiteral (str : JsVal) : Result bool :=
  Err (ReferenceError "a").

Definition compatibleArguments (arg1 arg2 : JsVal) : Result bool :=
  try lit1 <- isLiteral N3Util arg1;
  if negb lit1 then Ok false
  else
    try lit2 <- isLiteral N3Util arg2;
    if negb lit2 then Ok false
    else
      try l1 <- getLiteralLanguage N3Util arg1;
      try l2 <- getLiteralLanguage N3Util arg2;
      let t1 := negb (String.eqb l1 "") in
      let t2 := negb (String.eqb l2 "") in
      Ok ((t1 && (negb t2 || String.eqb l1 l2)) || (negb t1 && negb t2)).

(** [cond ? XSD_TRUE : XSD_FALSE] *)
Definition sentinel (cond : bool) : JsVal :=
  VStr (if cond then XSD_TRUE else XSD_FALSE).

(** ** The operators

    [call operator args] is [operator.apply(null, args)]: the body of
    the function run on evaluated arguments, with the global object as
    [this].  [a], [b], [c] are the first three parameters; a parameter
    beyond the arguments given is [undefined]. *)

Definition call (operator : fn) (args : list JsVal) : M (World H) JsVal :=
  let a := nth 0 args VUndef in
  let b := nth 1 args VUndef in
  let c := nth 2 args VUndef in
  match operator with
  (* 17.4.1 Functional Forms *)
  | Fn_plus => ret (js_add a b)
  | Fn_minus => ret (js_arith PrimFloat.sub a b)
  | Fn_times => ret (js_arith PrimFloat.mul a b)
  | Fn_divide => ret (js_arith PrimFloat.div a b)
  | Fn_eq => ret (VBool (strict_eq a b))
  | Fn_neq => ret (VBool (negb (strict_eq a b)))
  | Fn_lt => ret (VBool (js_lt a b))
  | Fn_le => ret (VBool (js_le a b))
  | Fn_gt => ret (VBool (js_lt b a))
  | Fn_ge => ret (VBool (js_le b a))
  | Fn_not => ret (VBool (negb (ToBoolean a)))
  | Fn_and => ret (if ToBoolean a then b else a)
  | Fn_or => ret (if ToBoolean a then a else b)
  | Fn_bound =>
      (* never reached: bound is applied to expressions, see operators_bound *)
      match a with
      | VUndef => throw TypeError
      | VStr s => if starts_with_question_mark s then ret (sentinel false)
                  else throw BoundExpectsVariable
      | _ => throw BoundExpectsVariable
      end
  | Fn_if =>
      (* evaluators.operation(expression1): expression1 is a primitive, so
         its operator property is undefined, no operator is found, and
         building the message calls toUpperCase on undefined *)
      throw TypeError
  | Fn_coalesce =>
      (* this.bound is not a function on the global object *)
      throw TypeError
  | Fn_exists => throw (NotYetSupported "EXISTS")
  | Fn_not_exists => throw (NotYetSupported "NOT EXISTS")
  | Fn_sameTerm =>
      lift (try blank_a <- isBlank N3Util a;
            if blank_a then Ok (sentinel false)
            else try blank_b <- isBlank N3Util b;
                 if blank_b then Ok (sentinel false)
                 else Ok (sentinel (strict_eq a b)))
  | Fn_in => throw (NotYetSupported "IN")
  | Fn_not_in => throw (NotYetSupported "NOT IN")
  (* 17.4.2 Functions on RDF Terms *)
  | Fn_isiri => lift (try r <- isUri N3Util a; Ok (sentinel r))
  | Fn_isblank => lift (try r <- isBlank N3Util a; Ok (sentinel r))
  | Fn_isliteral => lift (try r <- isLiteral N3Util a; Ok (sentinel r))
  | Fn_isnumeric =>
      lift (try t <- getLiteralType N3Util a;
            Ok (VNum (float_of_Z (array_indexOf numeric_types t))))
  | Fn_str =>
      lift (try lit <- isLiteral N3Util a;
            if lit then try v <- getLiteralValue N3Util a;
                        Ok (VStr (quot +:+ v +:+ quot))
            else Ok (VStr (quot +:+ ToString a +:+ quot)))
  | Fn_lang =>
      lift (try l <- getLiteralLanguage N3Util a;
            Ok (VStr (quot +:+ toLowerCase H l +:+ quot)))
  | Fn_datatype => lift (try t <- getLiteralType N3Util a; Ok (VStr t))
  | Fn_iri =>
      lift (try u <- isUri N3Util a;
            if u then Ok a
            else try s <- isStringLiteral a;
                 if s then try v <- getLiteralValue N3Util a; Ok (VStr v)
                 else Err IriExpectsLiteralOrIri)
  | Fn_bnode => throw (NotYetSupported "BNODE")
  | Fn_strdt => lift (operators_strdt a b)
  | Fn_strlang => lift (operators_strlang a b)
  | Fn_uuid =>
      fun w => let (u, w') := UUID_v4 H w in
               (Ok (VStr ("<urn:uuid:" +:+ u +:+ ">")), w')
  | Fn_struuid =>
      fun w => let (u, w') := UUID_v4 H w in (Ok (VStr u), w')
  (* 17.4.3 String functions *)
  | Fn_strlen =>
      (* the arguments of this.strdt are evaluated before the call is
         attempted, and the second one, XSD_INT, is bound nowhere *)
      lift (try v <- getLiteralValue N3Util a; Err (ReferenceError "XSD_INT"))
  | Fn_substr =>
      lift (try v <- getLiteralValue N3Util a;
            constructLiteral (js_substr v b c) a)
  | Fn_ucase =>
      lift (try v <- getLiteralValue N3Util a;
            constructLiteral (toUpperCase H v) a)
  | Fn_lcase =>
      lift (try v <- getLiteralValue N3Util a;
            constructLiteral (toLowerCase H v) a)
  | Fn_strstarts =>
      lift (try ok <- compatibleArguments a b;
            if negb ok then Err (RequiresCompatibleArguments "STRSTARTS")
            else try x <- getLiteralValue N3Util a;
                 try y <- getLiteralValue N3Util b;
                 Ok (VBool (indexOf x y =? 0)))
  | Fn_strends =>
      lift (try ok <- compatibleArguments a b;
            if negb ok then Err (RequiresCompatibleArguments "STRENDS")
            else try x <- getLiteralValue N3Util a;
                 try y <- getLiteralValue N3Util b;
                 Ok (sentinel (indexOf x y =? strlen x - strlen y)))
  | Fn_contains =>
      lift (try ok <- compatibleArguments a b;
            if negb ok then Err (RequiresCompatibleArguments "CONTAINS")
            else try x <- getLiteralValue N3Util a;
                 try y <- getLiteralValue N3Util b;
                 Ok (sentinel (-1 <? indexOf x y)))
  | Fn_strbefore =>
      lift (try ok <- compatibleArguments a b;
            if negb ok then Err (RequiresCompatibleArguments "CONTAINS")
            else try x <- getLiteralValue N3Util a;
                 try y <- getLiteralValue N3Util b;
                 let index := indexOf x y in
                 try lexicalForm <-
                   (if -1 <? index
                    then try arg1 <- string_receiver a;
                         Ok (substr_int arg1 (Fin (index - 1)) (Fin 1))
                    else Ok "");
                 constructLiteral lexicalForm a)
  | Fn_strafter =>
      lift (try ok <- compatibleArguments a b;
            if negb ok then Err (RequiresCompatibleArguments "CONTAINS")
            else try x <- getLiteralValue N3Util a;
                 try y <- getLiteralValue N3Util b;
                 let index := indexOf x y in
                 try lexicalForm <-
                   (if String.eqb y "" then Ok x
                    else if -1 <? index
                    then try len2 <- length_of b;
                         try len1 <- length_of a;
                         match len2, len1 with
                         | Some n2, Some n1 =>
                             if index + n2 <? n1
                             then try arg1 <- string_receiver a;
                                  Ok (substr_int arg1 (Fin (index + n2)) (Fin 1))
                             else Ok ""
                         | _, _ => Ok ""
                         end
                    else Ok "");
                 constructLiteral lexicalForm a)
  | Fn_encode_for_uri => throw (NotYetSupported "ENCODE_FOR_URI")
  | Fn_concat =>
      (* the arguments object has no forEach method *)
      throw TypeError
  | Fn_langmatches =>
      lift (try x <- string_receiver a;
            try y <- string_receiver b;
            Ok (VBool (String.eqb (toLowerCase H x) (toLowerCase H y))))
  | Fn_regex =>
      lift (try lit <- isLiteral N3Util a;
            try subject <- (if lit then try v <- getLiteralValue N3Util a; Ok (VStr v)
                            else Ok a);
            try pattern <- getLiteralValue N3Util b;
            try r <- RegExp_test H pattern (ToString subject);
            Ok (VBool r))
  | Fn_replace => throw (NotYetSupported "REPLACE")
  (* 17.4.4 Functions on Numerics *)
  | Fn_abs => ret (VNum (PrimFloat.abs (ToNumber a)))
  | Fn_round => ret (VNum (PrimFloat.abs (ToNumber a)))
  | Fn_ceil => ret (VNum (Math_ceil (ToNumber a)))
  | Fn_floor => ret (VNum (Math_floor (ToNumber a)))
  | Fn_rand =>
      fun w => let (r, w') := Math_random H w in (Ok (VNum r), w')
  (* 17.4.5 Functions on Dates and Times, 17.4.6 Hash Functions: empty bodies *)
  | Fn_now | Fn_year | Fn_month | Fn_day | Fn_hours | Fn_minutes
  | Fn_seconds | Fn_timezone | Fn_tz => ret VUndef
  | Fn_md5 | Fn_sha1 | Fn_sha256 | Fn_sha384 | Fn_sha512 => ret VUndef
  (* 17.5 XPath Constructor Functions: empty bodies, double apart *)
  | Fn_xsd local =>
      if String.eqb local "double" then
        match a with
        | VNum n =>
            let fixed := Number_toFixed H n in
            let fixed := if indexOf fixed "." <? 0 then fixed +:+ ".0" else fixed in
            ret (VStr (quot +:+ fixed +:+ quot +:+ "^^http://www.w3.org/2001/XMLSchema#double"))
        | _ => throw TypeError
        end
      else ret VUndef
  end.

(** [operators.bound.apply(bindings, args)]: the one function applied to
    the expressions themselves, with the bindings as [this]. *)
Definition operators_bound (this : Bindings) (args : list expr) : M (World H) JsVal :=
  match nth 0 args ENull with
  | ENull => throw TypeError
  | EStr a =>
      if negb (starts_with_question_mark a) then throw BoundExpectsVariable
      else ret (sentinel (in_bindings a this))
  | _ => throw BoundExpectsVariable
  end.

(** ** The evaluators *)

(** What [SparqlExpressionEvaluator] returns: a function of the bindings. *)
Definition evaluator : Type := Bindings -> M (World H) JsVal.

(** The null operation. *)
Definition noop : evaluator := fun _ => ret VUndef.

(** [evaluators.string]: an IRI or literal evaluates to itself, a
    variable to its value. *)
Definition evaluators_string (expression : string) : evaluator :=
  if negb (starts_with_question_mark expression) then
    fun _ => ret (VStr expression)
  else
    fun bindings =>
      match bindings with
      | Some obj =>
          match obj !! expression with
          | Some value => ret (VStr value)
          | None => throw (VariableNotBound expression)
          end
      | None => throw (VariableNotBound expression)
      end.

(** The [switch (operator.type)] applied to each evaluated argument. *)
Definition convert_argument (type : option tag) (arg : JsVal) : Result JsVal :=
  match type with
  | Some numeric =>
      try v <- getLiteralValue N3Util arg;
      Ok (VNum (parseFloat H v))
  | Some boolean =>
      if strict_eq arg (VStr XSD_FALSE) then Ok (VBool false)
      else
        try lit <- isLiteral N3Util arg;
        if negb lit then Ok (VBool true)
        else try v <- getLiteralValue N3Util arg;
             Ok (VBool (negb (String.eqb v "0")))
  | None => Ok arg
  end.

(** The loop over [argumentExpressions]: each argument is evaluated and
    converted before the next one is evaluated.  The result pairs
    [args] with [origArgs]. *)
Fixpoint evaluate_arguments (type : option tag) (argumentExpressions : list evaluator)
    (bindings : Bindings) : M (World H) (list JsVal * list JsVal) :=
  match argumentExpressions with
  | [] => ret ([], [])
  | argumentExpression :: rest =>
      run arg <- argumentExpression bindings;
      run converted <- lift (convert_argument type arg);
      run others <- evaluate_arguments type rest bindings;
      ret (converted :: fst others, arg :: snd others)
  end.

(** The [switch (operator.resultType)] applied to the result. *)
Definition convert_result (resultType : option tag) (result : JsVal)
    (origArgs : list JsVal) : Result JsVal :=
  match resultType with
  | Some numeric =>
      try t <- getLiteralType N3Util (nth 0 origArgs VUndef);
      let type :=
        if negb (String.eqb t "") then VStr t
        else match XSD_NUMERIC_INTEGER with
             | Some integer => VStr integer
             | None => VUndef
             end in
      Ok (VStr (quot +:+ ToString result +:+ quot +:+ "^^" +:+ ToString type))
  | Some boolean => Ok (sentinel (ToBoolean result))
  | None => Ok result
  end.

(** The function returned for an operation on evaluated arguments. *)
Definition operation_evaluator (operatorName : string) (operator : fn)
    (argumentExpressions : list evaluator) : evaluator :=
  fun bindings =>
    run evaluated <- evaluate_arguments (operator_type operatorName)
                       argumentExpressions bindings;
    run result <- call operator (fst evaluated);
    lift (convert_result (operator_resultType operatorName) result (snd evaluated)).

(** [evaluators.operation]; [compile] stands for the recursive use of
    [SparqlExpressionEvaluator] on the arguments. *)
Definition evaluators_operation (compile : expr -> Result evaluator)
    (operatorName : string) (args : list expr) : Result evaluator :=
  match operators !! operatorName with
  | None => Err (UnsupportedOperator operatorName)
  | Some operator =>
      if negb (Nat.eqb (fn_length operator) (length args)) then
        Err (InvalidNumberOfArguments operatorName (length args) (fn_length operator))
      else if acceptsExpressions operatorName then
        Ok (fun bindings => operators_bound bindings args)
      else
        try argumentExpressions <- mapR compile args;
        Ok (operation_evaluator operatorName operator argumentExpressions)
  end.

Fixpoint SparqlExpressionEvaluator (expression : expr) : Result evaluator :=
  match expression with
  | ENull => Ok noop
  | EStr s => if String.eqb s "" then Ok noop else Ok (evaluators_string s)
  | EOp operatorName args =>
      evaluators_operation SparqlExpressionEvaluator operatorName args
  | EOther expressionType => Err (UnsupportedExpressionType expressionType)
  end.

(** [SparqlExpressionEvaluator.evaluate] *)
Definition evaluate (expression : expr) (bindings : Bindings) : M (World H) JsVal :=
  match SparqlExpressionEvaluator expression with
  | Ok evaluator => evaluator bindings
  | Err e => throw e
  end.

End Evaluator.

(** * Reference collaborators

    Executable models of the collaborators, used to run the evaluator on
    concrete inputs.  No general theorem below depends on them. *)

Module Reference.

(** ** The engine *)

Definition code (c : ascii) : Z := Z.of_N (N_of_ascii c).

Definition digit_value (c : ascii) : option Z :=
  let n := code c in
  if (48 <=? n) && (n <=? 57) then Some (n - 48) else None.

(** Reads decimal digits: the number read so far, how many digits were
    read, and the rest of the string. *)
Fixpoint read_digits (acc : Z) (count : Z) (s : string) : Z * Z * string :=
  match s with
  | String c s' =>
      match digit_value c with
      | Some d => read_digits (10 * acc + d) (count + 1) s'
      | None => (acc, count, s)
      end
  | EmptyString => (acc, count, s)
  end.

(** White space and line terminators in the one-byte range. *)
Definition is_space (c : ascii) : bool :=
  let n := code c in
  ((9 <=? n) && (n <=? 13)) || (n =? 32) || (n =? 160).

Fixpoint trim_left (s : string) : string :=
  match s with
  | String c s' => if is_space c then trim_left s' else s
  | EmptyString => s
  end.

Fixpoint trim_right (s : string) : string :=
  match s with
  | String c s' =>
      match trim_right s' with
      | EmptyString => if is_space c then EmptyString else String c EmptyString
      | rest => String c rest
      end
  | EmptyString => s
  end.

(** The Number nearest to [n / d], ties to even. *)
Definition round_ratio (n d : Z) : float :=
  match n, d with
  | Zpos p, Zpos q =>
      SF2Prim (SFdiv prec emax (S754_finite false p 0) (S754_finite false q 0))
  | _, _ => PrimFloat.zero
  end.

(** The Number nearest to [m * 10^e]. *)
Definition decimal_value (m e : Z) : float :=
  if 0 <=? e then round_ratio (m * 10 ^ e) 1 else round_ratio m (10 ^ (- e)).

Definition signed (negative : bool) (x : float) : float :=
  if negative then PrimFloat.opp x else x.

(** An optional sign. *)
Definition read_sign (s : string) : bool * string :=
  match s with
  | String c s' =>
      if Ascii.eqb c "-" then (true, s')
      else if Ascii.eqb c "+" then (false, s')
      else (false, s)
  | EmptyString => (false, s)
  end.

(** An exponent part, when one is there: its value and the rest. *)
Definition read_exponent (s : string) : Z * string :=
  match s with
  | String c s' =>
      if Ascii.eqb c "e" || Ascii.eqb c "E" then
        let (negative, s'') := read_sign s' in
        match read_digits 0 0 s'' with
        | (e, count, rest) =>
            if 0 <? count then ((if negative then - e else e), rest) else (0, s)
        end
      else (0, s)
  | EmptyString => (0, s)
  end.

(** The longest prefix that is a StrDecimalLiteral: its value and the
    rest of the string, or nothing when no prefix is one. *)
Definition read_decimal_literal (s : string) : option (float * string) :=
  let (negative, s1) := read_sign s in
  if String.prefix "Infinity" s1 then
    Some (signed negative PrimFloat.infinity,
          String.substring 8 (String.length s1 - 8) s1)
  else
    match read_digits 0 0 s1 with
    | (int_part, int_count, s2) =>
        let '(mantissa, frac_count, s3) :=
          match s2 with
          | String c s2' =>
              if Ascii.eqb c "." then read_digits int_part 0 s2'
              else (int_part, 0, s2)
          | EmptyString => (int_part, 0, s2)
          end in
        if int_count + frac_count =? 0 then None
        else
          let (exponent, rest) := read_exponent s3 in
          Some (signed negative (decimal_value mantissa (exponent - frac_count)), rest)
    end.

Definition parseFloat (s : string) : float :=
  match read_decimal_literal (trim_left s) with
  | Some (x, _) => x
  | None => PrimFloat.nan
  end.

(** Digits in a radix up to 16. *)
Definition radix_digit (radix : Z) (c : ascii) : option Z :=
  let n := code c in
  let d := if (48 <=? n) && (n <=? 57) then n - 48
           else if (97 <=? n) && (n <=? 102) then n - 87
           else if (65 <=? n) && (n <=? 70) then n - 55
           else 16 in
  if d <? radix then Some d else None.

Fixpoint read_radix (radix acc : Z) (s : string) : option Z :=
  match s with
  | EmptyString => Some acc
  | String c s' =>
      match radix_digit radix c with
      | Some d => read_radix radix (radix * acc + d) s'
      | None => None
      end
  end.

Definition radix_literal (radix : Z) (digits : string) : float :=
  match digits with
  | EmptyString => PrimFloat.nan
  | _ => match read_radix radix 0 digits with
         | Some n => round_ratio n 1
         | None => PrimFloat.nan
         end
  end.

(** ToNumber applied to a string. *)
Definition StringToNumber (s : string) : float :=
  let t := trim_right (trim_left s) in
  match t with
  | EmptyString => PrimFloat.zero
  | String c0 (String c1 digits) =>
      if Ascii.eqb c0 "0" && (Ascii.eqb c1 "x" || Ascii.eqb c1 "X")
      then radix_literal 16 digits
      else if Ascii.eqb c0 "0" && (Ascii.eqb c1 "o" || Ascii.eqb c1 "O")
      then radix_literal 8 digits
      else if Ascii.eqb c0 "0" && (Ascii.eqb c1 "b" || Ascii.eqb c1 "B")
      then radix_literal 2 digits
      else match read_decimal_literal t with
           | Some (x, EmptyString) => x
           | _ => PrimFloat.nan
           end
  | _ => match read_decimal_literal t with
         | Some (x, EmptyString) => x
         | _ => PrimFloat.nan
         end
  end.

(** The decimal digits of a natural number. *)
Definition digits_of (n : Z) : string := NilZero.string_of_uint (N.to_uint (Z.to_N n)).

Fixpoint zeros (n : nat) : string :=
  match n with
  | O => EmptyString
  | S n' => String "0" (zeros n')
  end.

Fixpoint strip_trailing_zeros (s : string) : string :=
  match s with
  | String c s' =>
      match strip_trailing_zeros s' with
      | EmptyString => if Ascii.eqb c "0" then EmptyString else String c EmptyString
      | rest => String c rest
      end
  | EmptyString => s
  end.

(** A positive finite Number as an exact fraction. *)
Definition fraction_of (m : positive) (e : Z) : Z * Z :=
  if 0 <=? e then (Zpos m * 2 ^ e, 1) else (Zpos m, 2 ^ (- e)).

(** [num / den < 10 ^ n] *)
Definition below_power_of_ten (num den n : Z) : bool :=
  if 0 <=? n then num <? 10 ^ n * den else num * 10 ^ (- n) <? den.

(** The least [n], from [n0] on, with [num / den < 10 ^ n]. *)
Fixpoint decimal_exponent (fuel : nat) (num den n0 : Z) : Z :=
  match fuel with
  | O => n0
  | S fuel' =>
      if below_power_of_ten num den n0 then n0
      else decimal_exponent fuel' num den (n0 + 1)
  end.

(** The shortest digit string [s], with its exponent, such that
    [s * 10 ^ exponent] reads back as [x]: precisions are tried in
    increasing order, and of the two neighbours at one precision the
    nearer to [x] is preferred. *)
Fixpoint shortest_digits (fuel : nat) (x : float) (num den n p : Z) : Z * Z :=
  let scaled_num := if 0 <=? p - n then num * 10 ^ (p - n) else num in
  let scaled_den := if 0 <=? p - n then den else den * 10 ^ (n - p) in
  let lo := scaled_num / scaled_den in
  let hi := lo + 1 in
  let lo_ok := PrimFloat.eqb (decimal_value lo (n - p)) x in
  let hi_ok := PrimFloat.eqb (decimal_value hi (n - p)) x in
  let hi_nearer := (2 * lo + 1) * scaled_den <? 2 * scaled_num in
  match fuel with
  | O => (lo, n - p)
  | S fuel' =>
      if lo_ok && hi_ok then ((if hi_nearer then hi else lo), n - p)
      else if lo_ok then (lo, n - p)
      else if hi_ok then (hi, n - p)
      else shortest_digits fuel' x num den n (p + 1)
  end.

(** The layout of Number::toString for digits [ds] and decimal point
    position [n]. *)
Definition layout (ds : string) (n : Z) : string :=
  let k := strlen ds in
  if (k <=? n) && (n <=? 21) then ds +:+ zeros (Z.to_nat (n - k))
  else if (0 <? n) && (n <=? 21) then
    String.substring 0 (Z.to_nat n) ds +:+ "." +:+
    String.substring (Z.to_nat n) (Z.to_nat (k - n)) ds
  else if (-6 <? n) && (n <=? 0) then "0." +:+ zeros (Z.to_nat (- n)) +:+ ds
  else
    let e := n - 1 in
    let exponent := (if e <? 0 then "-" else "+") +:+ digits_of (Z.abs e) in
    if k =? 1 then ds +:+ "e" +:+ exponent
    else String.substring 0 1 ds +:+ "." +:+
         String.substring 1 (Z.to_nat (k - 1)) ds +:+ "e" +:+ exponent.

(** ToString applied to a Number. *)
Definition NumberToString (x : float) : string :=
  match Prim2SF x with
  | S754_nan => "NaN"
  | S754_zero _ => "0"
  | S754_infinity negative => if negative then "-Infinity" else "Infinity"
  | S754_finite negative m e =>
      let (num, den) := fraction_of m e in
      let n := decimal_exponent 700 num den (-330) in
      let (s, exponent) := shortest_digits 17 (PrimFloat.abs x) num den n 1 in
      let all := digits_of s in
      let point := strlen all + exponent in
      (if negative then "-" else "") +:+ layout (strip_trailing_zeros all) point
  end.

(** [x.toFixed()]: no fraction digits, halves away from zero. *)
Definition Number_toFixed (x : float) : string :=
  match Prim2SF x with
  | S754_finite negative m e =>
      if PrimFloat.leb 1e21 (PrimFloat.abs x) then NumberToString x
      else
        let (num, den) := fraction_of m e in
        (if negative then "-" else "") +:+ digits_of ((2 * num + den) / (2 * den))
  | _ => NumberToString x
  end.

(** Case mapping of the ASCII letters; other code units are kept. *)
Definition upper_char (c : ascii) : ascii :=
  let n := code c in
  if (97 <=? n) && (n <=? 122) then ascii_of_N (Z.to_N (n - 32)) else c.

Definition lower_char (c : ascii) : ascii :=
  let n := code c in
  if (65 <=? n) && (n <=? 90) then ascii_of_N (Z.to_N (n + 32)) else c.

Fixpoint map_chars (f : ascii -> ascii) (s : string) : string :=
  match s with
  | EmptyString => EmptyString
  | String c s' => String (f c) (map_chars f s')
  end.

Definition toUpperCase : string -> string := map_chars upper_char.
Definition toLowerCase : string -> string := map_chars lower_char.

(** Characters with a meaning of their own in a pattern. *)
Definition is_syntax_character (c : ascii) : bool :=
  existsb (Ascii.eqb c)
    ["^"; "$"; "\"; "."; "*"; "+"; "?"; "("; ")"; "["; "]"; "{"; "}"; "|"]%char.

Fixpoint has_syntax_character (s : string) : bool :=
  match s with
  | EmptyString => false
  | String c s' => is_syntax_character c || has_syntax_character s'
  end.

(** [new RegExp(pattern).test(subject)] for a pattern of ordinary
    characters, which matches where it occurs.  The pattern language
    itself is not modelled: any other pattern is reported as the engine
    reports one it cannot compile. *)
Definition RegExp_test (pattern subject : string) : Result bool :=
  if has_syntax_character pattern then Err (SyntaxError pattern)
  else Ok (-1 <? indexOf subject pattern).

(** The random sources: two streams of draws and how far each was read. *)
Record world : Type := {
  random_draws : nat -> float;
  uuid_draws : nat -> string;
  randoms_read : nat;
  uuids_read : nat
}.

Definition Math_random (w : world) : float * world :=
  (random_draws w (randoms_read w),
   {| random_draws := random_draws w; uuid_draws := uuid_draws w;
      randoms_read := S (randoms_read w); uuids_read := uuids_read w |}).

Definition UUID_v4 (w : world) : string * world :=
  (uuid_draws w (uuids_read w),
   {| random_draws := random_draws w; uuid_draws := uuid_draws w;
      randoms_read := randoms_read w; uuids_read := S (uuids_read w) |}).

Definition host : Host :=
  Build_Host world Math_random UUID_v4 parseFloat StringToNumber NumberToString
    Number_toFixed toUpperCase toLowerCase RegExp_test.

(** ** The Util object of n3

    Terms are strings; a literal is a double-quoted lexical form that
    may be followed by [^^] and a datatype IRI or by [@] and a language
    tag.  The lexical form ends at the last double quote of the term. *)

Definition XsdString : string := "http://www.w3.org/2001/XMLSchema#string".
Definition RdfLangString : string :=
  "http://www.w3.org/1999/02/22-rdf-syntax-ns#langString".

Definition is_quot (c : ascii) : bool := String.eqb (String c EmptyString) quot.

(** Splits [s] around its last double quote. *)
Fixpoint split_last_quot (s : string) : option (string * string) :=
  match s with
  | EmptyString => None
  | String c s' =>
      match split_last_quot s' with
      | Some (before, after) => Some (String c before, after)
      | None => if is_quot c then Some (EmptyString, s') else None
      end
  end.

(** The lexical form and what follows it, for a string that starts with
    a double quote and holds a second one. *)
Definition literal_parts (literal : JsVal) : option (string * string) :=
  match literal with
  | VStr (String c rest) => if is_quot c then split_last_quot rest else None
  | _ => None
  end.

Fixpoint has_char (c : ascii) (s : string) : bool :=
  match s with
  | EmptyString => false
  | String d s' => Ascii.eqb c d || has_char c s'
  end.

(** What may follow the lexical form. *)
Inductive suffix : Type :=
| NoSuffix
| TypeSuffix (type : string)
| LanguageSuffix (language : string)
| BadSuffix.

Definition read_suffix (s : string) : suffix :=
  match s with
  | EmptyString => NoSuffix
  | String c1 (String c2 (String c3 rest)) =>
      if Ascii.eqb c1 "^" && Ascii.eqb c2 "^" then TypeSuffix (String c3 rest)
      else if Ascii.eqb c1 "@" && negb (has_char "@" (String c2 (String c3 rest)))
      then LanguageSuffix (String c2 (String c3 rest))
      else BadSuffix
  | String c1 (String c2 EmptyString) =>
      if Ascii.eqb c1 "@" && negb (Ascii.eqb c2 "@")
      then LanguageSuffix (String c2 EmptyString)
      else BadSuffix
  | _ => BadSuffix
  end.

Definition isUri (entity : JsVal) : Result bool :=
  if negb (ToBoolean entity) then Ok false
  else match entity with
       | VStr (String c _) => Ok (negb (is_quot c) && negb (Ascii.eqb c "_"))
       | _ => Ok true
       end.

Definition isLiteral (entity : JsVal) : Result bool :=
  match entity with
  | VStr (String c _) => Ok (is_quot c)
  | _ => Ok false
  end.

Definition isBlank (entity : JsVal) : Result bool :=
  if negb (ToBoolean entity) then Ok false
  else match entity with
       | VStr s => Ok (String.prefix "_:" s)
       | _ => Err TypeError
       end.

Definition getLiteralValue (literal : JsVal) : Result string :=
  match literal_parts literal with
  | Some (value, _) => Ok value
  | None => Err (NotALiteral literal)
  end.

Definition getLiteralType (literal : JsVal) : Result string :=
  match literal_parts literal with
  | Some (_, rest) =>
      match read_suffix rest with
      | NoSuffix => Ok XsdString
      | TypeSuffix type => Ok type
      | LanguageSuffix _ => Ok RdfLangString
      | BadSuffix => Err (NotALiteral literal)
      end
  | None => Err (NotALiteral literal)
  end.

Definition getLiteralLanguage (literal : JsVal) : Result string :=
  match literal_parts literal with
  | Some (_, rest) =>
      match read_suffix rest with
      | NoSuffix | TypeSuffix _ => Ok ""
      | LanguageSuffix language => Ok (toLowerCase language)
      | BadSuffix => Err (NotALiteral literal)
      end
  | None => Err (NotALiteral literal)
  end.

Definition N3Util : N3UtilT :=
  Build_N3UtilT isUri isLiteral isBlank getLiteralValue getLiteralType
    getLiteralLanguage.

(** A state of the random sources: every draw of [Math.random] is one
    half, every UUID the nil UUID. *)
Definition world0 : world := {|
  random_draws := fun _ => 0.5%float;
  uuid_draws := fun _ => "00000000-0000-4000-8000-000000000000";
  randoms_read := 0;
  uuids_read := 0
|}.

(** Another state, with other draws and both streams read further. *)
Definition world1 : world := {|
  random_draws := fun n => if Nat.even n then 0.25%float else 0.75%float;
  uuid_draws := fun _ => "ffffffff-ffff-4fff-bfff-ffffffffffff";
  randoms_read := 3;
  uuids_read := 7
|}.

(** Running an expression with the reference collaborators. *)
Definition eval (expression : expr) (bindings : Bindings) : Result JsVal :=
  fst (evaluate host N3Util expression bindings world0).

End Reference.

(** * Induction on expressions through the argument lists *)

Section ExprInduction.

Variable P : expr -> Prop.
Hypothesis HNull : P ENull.
Hypothesis HStr : forall s, P (EStr s).
Hypothesis HOp : forall operatorName args, Forall P args -> P (EOp operatorName args).
Hypothesis HOther : forall t, P (EOther t).

Fixpoint expr_nested_ind (e : expr) : P e :=
  match e with
  | ENull => HNull
  | EStr s => HStr s
  | EOp operatorName args =>
      HOp operatorName args
        ((fix all (l : list expr) : Forall P l :=
            match l with
            | [] => List.Forall_nil P
            | x :: l' => List.Forall_cons P x l' (expr_nested_ind x) (all l')
            end) args)
  | EOther t => HOther t
  end.

End ExprInduction.

(** Expressions in which no operation is named after one of the three
    operators that read the random sources. *)
Definition reads_random_source (operatorName : string) : bool :=
  mem operatorName ["rand"; "uuid"; "struuid"].

Fixpoint deterministic (e : expr) : bool :=
  match e with
  | EOp operatorName args =>
      negb (reads_random_source operatorName) && forallb deterministic args
  | _ => true
  end.

(** The datatype IRI of integers, as terms spell it. *)
Definition xsd_integer : string := XSD +:+ "integer".

(** The functions that read the random sources. *)
Definition fn_reads_random_source (operator : fn) : bool :=
  match operator with
  | Fn_rand | Fn_uuid | Fn_struuid => true
  | _ => false
  end.

(** A computation that neither reads nor changes the state of the
    random sources: it has one outcome, whatever that state is. *)
Definition stateless {W A} (m : M W A) : Prop :=
  exists r, forall w, m w = (r, w).

(** [compatibleArguments] as the specification words it: both are
    literals, and either both carry no language tag or both carry the
    same language tag.  It is compared with the function of the source
    below. *)
Definition compatible_as_specified (N3Util : N3UtilT) (a b : JsVal) : Prop :=
  isLiteral N3Util a = Ok true /\ isLiteral N3Util b = Ok true /\
  exists l1 l2,
    getLiteralLanguage N3Util a = Ok l1 /\ getLiteralLanguage N3Util b = Ok l2 /\
    ((l1 = "" /\ l2 = "") \/ (l1 <> "" /\ l1 = l2)).

(** The four arithmetic operators with the operation each applies. *)
Definition arithmetic : list (string * fn * (float -> float -> float)) :=
  [("+", Fn_plus, PrimFloat.add); ("-", Fn_minus, PrimFloat.sub);
   ("*", Fn_times, PrimFloat.mul); ("/", Fn_divide, PrimFloat.div)].

(** [occurs_evaluated s e]: the string [s] is a node of [e] that is
    evaluated when [e] is, that is, a node outside the argument of an
    operator that takes its arguments as expressions. *)
Fixpoint occurs_evaluated (s : string) (e : expr) : bool :=
  match e with
  | EStr s' => String.eqb s' s
  | EOp operatorName args =>
      negb (acceptsExpressions operatorName) && existsb (occurs_evaluated s) args
  | _ => false
  end.

(** [substitute obj e]: the expression [e] in which every variable that
    [obj] binds is replaced by its value, except under an operator that
    takes its arguments as expressions. *)
Fixpoint substitute (obj : gmap string string) (e : expr) : expr :=
  match e with
  | EStr s =>
      if starts_with_question_mark s then
        match obj !! s with
        | Some value => EStr value
        | None => e
        end
      else e
  | EOp operatorName args =>
      if acceptsExpressions operatorName then e
      else EOp operatorName (map (substitute obj) args)
  | _ => e
  end.

(** Two compilations that fail alike, or succeed with evaluators that
    agree on the bindings [bindings]. *)
Definition agree {W A : Type} (bindings : Bindings)
    (r' r : Result (Bindings -> M W A)) : Prop :=
  match r', r with
  | Ok ev', Ok ev => forall w, ev' bindings w = ev bindings w
  | Err x', Err x => x' = x
  | _, _ => False
  end.

(** The datatype IRIs of booleans and of strings, as terms spell them. *)
Definition xsd_boolean : string := XSD +:+ "boolean".

Definition xsd_string : string := XSD +:+ "string".

(** The property names every object literal inherits from
    [Object.prototype].  [evaluators[expressionType]] and
    [operators[operatorName]] are plain property reads, so each of these
    names finds an inherited value that is no evaluator and no operator
    of the module. *)
Definition Object_prototype_names : list string :=
  ["constructor"; "__defineGetter__"; "__defineSetter__"; "hasOwnProperty";
   "__lookupGetter__"; "__lookupSetter__"; "isPrototypeOf"; "propertyIsEnumerable";
   "toString"; "valueOf"; "__proto__"; "toLocaleString"].

(** The own keys of the [evaluators] object. *)
Definition evaluators_names : list string := ["null"; "string"; "operation"].

(** [free_of_inherited_names e]: where [e] is compiled, no operator is
    named after a property of [Object.prototype], and every node that is
    neither a string nor an operation has a type, which names no
    property of [evaluators], own or inherited.  On such expressions the
    two tables are the objects of the source; the arguments of an
    operator that takes expressions are not compiled and are left
    free. *)
Fixpoint free_of_inherited_names (e : expr) : bool :=
  match e with
  | ENull | EStr _ => true
  | EOp operatorName args =>
      negb (mem operatorName Object_prototype_names)
      && (acceptsExpressions operatorName || forallb free_of_inherited_names args)
  | EOther expressionType =>
      negb (String.eqb expressionType "")
      && negb (mem expressionType (evaluators_names ++ Object_prototype_names))
  end.

(** * Properties *)

(** ** The table *)

Lemma operators_lookup_entry (operatorName : string) (operator : fn) :
  operators !! operatorName = Some operator ->
  (operatorName, operator) ∈ operators_entries.
Proof.
  unfold operators. apply elem_of_list_to_map_2.
Qed.

(** No key is written twice in the object literal, so the table is the
    object whichever entry would win. *)
Lemma operators_keys_distinct : NoDup (map fst operators_entries).
Proof.
  apply (bool_decide_unpack _). vm_compute. reflexivity.
Qed.

(** ** General facts about [mapR] *)

Lemma mapR_Ok {A B} (f : A -> Result B) (l : list A) (bs : list B) :
  mapR f l = Ok bs -> Forall2 (fun a b => f a = Ok b) l bs.
Proof.
  revert bs. induction l as [|a l IH]; intros bs Hm; simpl in Hm.
  - injection Hm as <-. constructor.
  - destruct (f a) as [b|e] eqn:Hfa; [|discriminate].
    destruct (mapR f l) as [bs'|e] eqn:Hl; [|discriminate].
    injection Hm as <-. constructor; auto.
Qed.

Lemma mapR_Err {A B} (f : A -> Result B) (l : list A) (e : error) :
  mapR f l = Err e -> Exists (fun a => f a = Err e) l.
Proof.
  induction l as [|a l IH]; intros Hm; simpl in Hm; [discriminate|].
  destruct (f a) as [b|e'] eqn:Hfa.
  - destruct (mapR f l) as [bs'|e''] eqn:Hl; [discriminate|].
    injection Hm as ->. apply Exists_cons_tl. auto.
  - injection Hm as ->. apply Exists_cons_hd. exact Hfa.
Qed.

Section Properties.

Variable H : Host.
Variable N3Util : N3UtilT.

(** ** Compilation *)

Lemma compile_operation (operatorName : string) (args : list expr) :
  SparqlExpressionEvaluator H N3Util (EOp operatorName args) =
  evaluators_operation H N3Util (SparqlExpressionEvaluator H N3Util) operatorName args.
Proof. reflexivity. Qed.

(** An arity error always reports two different counts, whichever
    operation of the tree raised it. *)
Lemma arity_error_counts_differ (e : expr) (operatorName : string) (given expected : nat) :
  SparqlExpressionEvaluator H N3Util e =
    Err (InvalidNumberOfArguments operatorName given expected) ->
  given <> expected.
Proof.
  revert operatorName given expected.
  induction e as [| s | name args IH | t] using expr_nested_ind;
    intros operatorName given expected Hc.
  - discriminate.
  - simpl in Hc. destruct (String.eqb s ""); discriminate.
  - rewrite compile_operation in Hc. unfold evaluators_operation in Hc.
    destruct (operators !! name) as [operator|]; [|discriminate].
    destruct (Nat.eqb (fn_length operator) (length args)) eqn:Hlen; simpl in Hc.
    + destruct (acceptsExpressions name); [discriminate|].
      destruct (mapR (SparqlExpressionEvaluator H N3Util) args) as [evs|e'] eqn:Hm;
        simpl in Hc; [discriminate|].
      injection Hc as ->.
      apply mapR_Err in Hm. rewrite Exists_exists in Hm.
      destruct Hm as (a & Hin & Ha).
      rewrite Forall_forall in IH. eapply IH; eauto.
    + injection Hc as _ <- <-.
      apply Nat.eqb_neq in Hlen. congruence.
  - discriminate.
Qed.

(** C7. For an operation whose operator name resolves in the table,
    compilation fails with the arity error of that operation exactly
    when the number of arguments differs from the number of parameters
    the operator's function declares; the failure is the result of
    compiling, so every evaluation fails with it whatever the bindings. *)
Theorem arity_checked_when_compiling
    (operatorName : string) (operator : fn) (args : list expr) :
  operators !! operatorName = Some operator ->
  (SparqlExpressionEvaluator H N3Util (EOp operatorName args) =
     Err (InvalidNumberOfArguments operatorName (length args) (fn_length operator))
   <-> length args <> fn_length operator)
  /\ (length args <> fn_length operator ->
      forall (bindings : Bindings) (w : World H),
        evaluate H N3Util (EOp operatorName args) bindings w =
        (Err (InvalidNumberOfArguments operatorName (length args) (fn_length operator)), w)).
Proof.
  intros Hop.
  assert (Hfail : length args <> fn_length operator ->
            SparqlExpressionEvaluator H N3Util (EOp operatorName args) =
            Err (InvalidNumberOfArguments operatorName (length args) (fn_length operator))).
  { intros Hne. rewrite compile_operation. unfold evaluators_operation.
    rewrite Hop.
    destruct (Nat.eqb (fn_length operator) (length args)) eqn:Hlen; [|reflexivity].
    apply Nat.eqb_eq in Hlen. congruence. }
  split; [split|].
  - intros Hc Heq. apply arity_error_counts_differ in Hc. auto.
  - exact Hfail.
  - intros Hne bindings w. unfold evaluate. rewrite (Hfail Hne). reflexivity.
Qed.

(** ** Evaluation and the random sources *)

Lemma stateless_ret {W A} (a : A) : stateless (ret a : M W A).
Proof. exists (Ok a). reflexivity. Qed.

Lemma stateless_throw {W A} (e : error) : stateless (throw e : M W A).
Proof. exists (Err e). reflexivity. Qed.

Lemma stateless_lift {W A} (r : Result A) : stateless (lift r : M W A).
Proof. exists r. reflexivity. Qed.

Lemma stateless_bind {W A B} (m : M W A) (k : A -> M W B) :
  stateless m -> (forall a, stateless (k a)) -> stateless (bind m k).
Proof.
  intros [r Hr] Hk. destruct r as [a|e].
  - destruct (Hk a) as [r' Hr']. exists r'. intros w.
    unfold bind. rewrite Hr. apply Hr'.
  - exists (Err e). intros w. unfold bind. rewrite Hr. reflexivity.
Qed.

Create HintDb stateless.

#[local] Hint Resolve stateless_ret stateless_throw stateless_lift : stateless.

(** Every function of the table except the three readers runs without
    touching the random sources. *)
Lemma call_stateless (operator : fn) (args : list JsVal) :
  fn_reads_random_source operator = false ->
  stateless (call H N3Util operator args).
Proof.
  intros Hr. destruct operator; try discriminate Hr; unfold call;
    auto with stateless.
  - destruct (nth 0 args VUndef); auto with stateless.
    destruct (starts_with_question_mark s); auto with stateless.
  - destruct (String.eqb local "double"); auto with stateless.
    destruct (nth 0 args VUndef); auto with stateless.
Qed.

(** In the table the three readers are stored under their own names
    only. *)
Lemma readers_by_name (operatorName : string) (operator : fn) :
  operators !! operatorName = Some operator ->
  reads_random_source operatorName = false ->
  fn_reads_random_source operator = false.
Proof.
  intros Hop Hname. apply operators_lookup_entry in Hop.
  assert (Hall : forallb (fun entry =>
                    implb (fn_reads_random_source (snd entry))
                          (reads_random_source (fst entry)))
                  operators_entries = true) by (vm_compute; reflexivity).
  rewrite forallb_forall in Hall.
  apply list_elem_of_In in Hop. specialize (Hall _ Hop). simpl in Hall.
  rewrite Hname in Hall. destruct (fn_reads_random_source operator); auto.
Qed.

Lemma evaluate_arguments_stateless (type : option tag)
    (argumentExpressions : list (evaluator H)) (bindings : Bindings) :
  Forall (fun ev => stateless (ev bindings)) argumentExpressions ->
  stateless (evaluate_arguments H N3Util type argumentExpressions bindings).
Proof.
  induction 1 as [|ev rest Hev Hrest IH]; simpl.
  - apply stateless_ret.
  - apply stateless_bind; [exact Hev|]. intros arg.
    apply stateless_bind; [apply stateless_lift|]. intros converted.
    apply stateless_bind; [exact IH|]. intros others.
    apply stateless_ret.
Qed.

Lemma operators_bound_stateless (bindings : Bindings) (args : list expr) :
  stateless (operators_bound H bindings args).
Proof.
  unfold operators_bound. destruct (nth 0 args ENull); auto with stateless.
  destruct (negb (starts_with_question_mark s)); auto with stateless.
Qed.

Lemma evaluators_string_stateless (s : string) (bindings : Bindings) :
  stateless (evaluators_string H s bindings).
Proof.
  unfold evaluators_string.
  destruct (negb (starts_with_question_mark s)); auto with stateless.
  destruct bindings as [obj|]; auto with stateless.
  destruct (obj !! s); auto with stateless.
Qed.

(** The evaluator compiled from an expression free of the three readers
    is stateless. *)
Lemma compiled_stateless (e : expr) :
  deterministic e = true ->
  forall ev, SparqlExpressionEvaluator H N3Util e = Ok ev ->
  forall bindings, stateless (ev bindings).
Proof.
  induction e as [| s | name args IH | t] using expr_nested_ind;
    intros Hdet ev Hc bindings.
  - injection Hc as <-. apply stateless_ret.
  - simpl in Hc. destruct (String.eqb s ""); injection Hc as <-.
    + apply stateless_ret.
    + apply evaluators_string_stateless.
  - simpl in Hdet. apply andb_true_iff in Hdet as [Hname Hargs].
    apply negb_true_iff in Hname.
    rewrite compile_operation in Hc. unfold evaluators_operation in Hc.
    destruct (operators !! name) as [operator|] eqn:Hop; [|discriminate].
    destruct (negb (Nat.eqb (fn_length operator) (length args))); [discriminate|].
    destruct (acceptsExpressions name).
    + injection Hc as <-. apply operators_bound_stateless.
    + destruct (mapR (SparqlExpressionEvaluator H N3Util) args) as [evs|e'] eqn:Hm;
        simpl in Hc; [|discriminate].
      injection Hc as <-. unfold operation_evaluator.
      apply stateless_bind.
      * apply evaluate_arguments_stateless.
        apply mapR_Ok in Hm. rewrite forallb_forall in Hargs.
        rewrite Forall_forall in IH.
        clear - Hm Hargs IH.
        induction Hm as [|a evA l evl Ha Hl IHl]; constructor.
        -- apply (IH a); [left | apply Hargs; left; reflexivity | exact Ha].
        -- apply IHl.
           ++ intros x Hx. apply IH. right. exact Hx.
           ++ intros x Hx. apply Hargs. right. exact Hx.
      * intros evaluated. apply stateless_bind.
        -- apply call_stateless. eapply readers_by_name; eauto.
        -- intros result. apply stateless_lift.
  - discriminate.
Qed.

(** C9. For an expression whose tree names none of [rand], [uuid] and
    [struuid], invoking its compiled evaluator with the same bindings
    gives the same output whatever the state of the random sources at
    each invocation, and an invocation leaves that state as it was. *)
Theorem compiled_evaluator_deterministic
    (e : expr) (ev : evaluator H) (bindings : Bindings) :
  deterministic e = true ->
  SparqlExpressionEvaluator H N3Util e = Ok ev ->
  forall w1 w2 : World H,
    fst (ev bindings w1) = fst (ev bindings w2) /\ snd (ev bindings w1) = w1.
Proof.
  intros Hdet Hc w1 w2.
  destruct (compiled_stateless e Hdet ev Hc bindings) as [r Hr].
  rewrite !Hr. split; reflexivity.
Qed.

(** ** Operations on evaluated arguments *)

Lemma compile_evaluated_operation (operatorName : string) (operator : fn)
    (args : list expr) (argumentExpressions : list (evaluator H)) :
  operators !! operatorName = Some operator ->
  fn_length operator = length args ->
  acceptsExpressions operatorName = false ->
  mapR (SparqlExpressionEvaluator H N3Util) args = Ok argumentExpressions ->
  SparqlExpressionEvaluator H N3Util (EOp operatorName args) =
  Ok (operation_evaluator H N3Util operatorName operator argumentExpressions).
Proof.
  intros Hop Hlen Hacc Hm. rewrite compile_operation. unfold evaluators_operation.
  rewrite Hop, Hlen, Nat.eqb_refl, Hacc, Hm. reflexivity.
Qed.

(** An operation that returns does so through the conversion of the
    result its table entry is tagged with. *)
Lemma evaluated_operation_result (operatorName : string) (args : list expr)
    (bindings : Bindings) (w w' : World H) (v : JsVal) :
  acceptsExpressions operatorName = false ->
  evaluate H N3Util (EOp operatorName args) bindings w = (Ok v, w') ->
  exists result origArgs,
    convert_result H N3Util (operator_resultType operatorName) result origArgs = Ok v.
Proof.
  intros Hacc He. unfold evaluate in He. rewrite compile_operation in He.
  unfold evaluators_operation in He.
  destruct (operators !! operatorName) as [operator|]; [|discriminate].
  destruct (negb (Nat.eqb (fn_length operator) (length args))); [discriminate|].
  rewrite Hacc in He.
  destruct (mapR (SparqlExpressionEvaluator H N3Util) args) as [evs|e']; simpl in He;
    [|discriminate].
  unfold operation_evaluator, bind in He.
  destruct (evaluate_arguments H N3Util (operator_type operatorName) evs bindings w)
    as [[evaluated|e1] w1]; [|discriminate].
  destruct (call H N3Util operator (fst evaluated) w1) as [[result|e2] w2]; [|discriminate].
  unfold lift in He. injection He as He _. eauto.
Qed.

(** An operation that returns has called the function stored under its
    name, and the function has returned. *)
Lemma evaluated_operation_call (operatorName : string) (args : list expr)
    (bindings : Bindings) (w w' : World H) (v : JsVal) :
  acceptsExpressions operatorName = false ->
  evaluate H N3Util (EOp operatorName args) bindings w = (Ok v, w') ->
  exists operator evaluated w1 w2 result,
    operators !! operatorName = Some operator
    /\ call H N3Util operator evaluated w1 = (Ok result, w2).
Proof.
  intros Hacc He. unfold evaluate in He. rewrite compile_operation in He.
  unfold evaluators_operation in He.
  destruct (operators !! operatorName) as [operator|]; [|discriminate].
  destruct (negb (Nat.eqb (fn_length operator) (length args))); [discriminate|].
  rewrite Hacc in He.
  destruct (mapR (SparqlExpressionEvaluator H N3Util) args) as [evs|e']; simpl in He;
    [|discriminate].
  unfold operation_evaluator, bind in He.
  destruct (evaluate_arguments H N3Util (operator_type operatorName) evs bindings w)
    as [[evaluated|e1] w1]; [|discriminate].
  destruct (call H N3Util operator (fst evaluated) w1) as [[result|e2] w2] eqn:Hcall;
    [|discriminate].
  exists operator, (fst evaluated), w1, w2, result. split; [reflexivity | exact Hcall].
Qed.

(** Every operator tagged with a boolean result returns one of the two
    constants [XSD_TRUE] and [XSD_FALSE] whenever it returns. *)
Lemma boolean_result_is_sentinel (operatorName : string) (args : list expr)
    (bindings : Bindings) (w w' : World H) (v : JsVal) :
  operator_resultType operatorName = Some boolean ->
  evaluate H N3Util (EOp operatorName args) bindings w = (Ok v, w') ->
  v = VStr XSD_TRUE \/ v = VStr XSD_FALSE.
Proof.
  intros Htag He.
  assert (Hacc : acceptsExpressions operatorName = false).
  { unfold acceptsExpressions. destruct (String.eqb operatorName "bound") eqn:Hb; [|reflexivity].
    apply String.eqb_eq in Hb. subst. discriminate Htag. }
  destruct (evaluated_operation_result _ _ _ _ _ _ Hacc He) as (result & origArgs & Hr).
  rewrite Htag in Hr. simpl in Hr. injection Hr as <-.
  unfold sentinel. destruct (ToBoolean result); auto.
Qed.

(** C1 (the code departs from it). [!=] is in none of the tagging lists:
    its arguments are compared as they are and the boolean the function
    returns is the output, which is neither of the two literals.  The
    two constants the other comparisons return are themselves not the
    literals of datatype [xsd:boolean]: their datatype is the one
    [XSD_BOOLEAN] was last assigned, [xsd:string]. *)
Theorem not_equal_returns_a_boolean (bindings : Bindings) (w : World H) :
  evaluate H N3Util (EOp "!=" [EStr "a"; EStr "b"]) bindings w = (Ok (VBool true), w)
  /\ operator_resultType "!=" = None
  /\ VBool true <> VStr XSD_TRUE /\ VBool true <> VStr XSD_FALSE
  /\ XSD_TRUE = typed "true" (XSD +:+ "string")
  /\ XSD_FALSE = typed "false" (XSD +:+ "string")
  /\ XSD_TRUE <> typed "true" (XSD +:+ "boolean")
  /\ XSD_FALSE <> typed "false" (XSD +:+ "boolean").
Proof.
  split; [vm_compute; reflexivity|].
  split; [reflexivity|].
  split; [discriminate|].
  split; [discriminate|].
  split; [reflexivity|].
  split; [reflexivity|].
  split; vm_compute; discriminate.
Qed.

(** C2 (the code departs from it). The hash functions, the date and
    time functions and the constructors other than [xsd:double] have
    empty bodies: the operation returns [undefined] and raises nothing. *)
Theorem empty_stub_returns_undefined (bindings : Bindings) (w : World H) :
  evaluate H N3Util (EOp "md5" [EStr "abc"]) bindings w = (Ok VUndef, w)
  /\ evaluate H N3Util (EOp "year" [EStr "abc"]) bindings w = (Ok VUndef, w)
  /\ evaluate H N3Util (EOp (XSD +:+ "string") [EStr "abc"]) bindings w = (Ok VUndef, w)
  /\ evaluate H N3Util (EOp "now" []) bindings w = (Ok VUndef, w).
Proof.
  repeat split; vm_compute; reflexivity.
Qed.

(** C8 (the code departs from it). [concat] declares no parameter, so
    an operation that gives it two arguments is refused when compiled. *)
Theorem concat_of_two_arguments_is_refused (bindings : Bindings) (w : World H) :
  evaluate H N3Util (EOp "concat" [EStr (lit "foo"); EStr (lit "bar")]) bindings w =
  (Err (InvalidNumberOfArguments "concat" 2 0), w).
Proof.
  vm_compute. reflexivity.
Qed.

(** With no argument at all the operation compiles, and its body fails
    on the call of [arguments.forEach]. *)
Lemma concat_of_no_argument_fails (bindings : Bindings) (w : World H) :
  evaluate H N3Util (EOp "concat" []) bindings w = (Err TypeError, w).
Proof.
  vm_compute. reflexivity.
Qed.

(** Every function with an empty body returns [undefined] on any
    arguments. *)
Lemma empty_body_returns_undefined (operator : fn) (args : list JsVal) (w : World H) :
  operator ∈ [Fn_now; Fn_year; Fn_month; Fn_day; Fn_hours; Fn_minutes; Fn_seconds;
              Fn_timezone; Fn_tz; Fn_md5; Fn_sha1; Fn_sha256; Fn_sha384; Fn_sha512]
  \/ (exists local, operator = Fn_xsd local /\ local <> "double") ->
  call H N3Util operator args w = (Ok VUndef, w).
Proof.
  intros [Hin | (local & -> & Hne)].
  - repeat (apply elem_of_cons in Hin as [-> | Hin]; [reflexivity|]).
    inversion Hin.
  - unfold call. apply String.eqb_neq in Hne. rewrite Hne. reflexivity.
Qed.

(** The seven stubs with a body raise their error whenever they are
    called. *)
Lemma explicit_stub_raises (args : list JsVal) (w : World H) :
  call H N3Util Fn_exists args w = (Err (NotYetSupported "EXISTS"), w)
  /\ call H N3Util Fn_not_exists args w = (Err (NotYetSupported "NOT EXISTS"), w)
  /\ call H N3Util Fn_in args w = (Err (NotYetSupported "IN"), w)
  /\ call H N3Util Fn_not_in args w = (Err (NotYetSupported "NOT IN"), w)
  /\ call H N3Util Fn_bnode args w = (Err (NotYetSupported "BNODE"), w)
  /\ call H N3Util Fn_encode_for_uri args w = (Err (NotYetSupported "ENCODE_FOR_URI"), w)
  /\ call H N3Util Fn_replace args w = (Err (NotYetSupported "REPLACE"), w).
Proof. repeat split. Qed.

(** An operation named after one of these seven never returns a value,
    whatever its arguments and the bindings. *)
Lemma explicit_stub_never_returns (operatorName : string) (args : list expr)
    (bindings : Bindings) (w w' : World H) (v : JsVal) :
  operatorName ∈ ["exists"; "not exists"; "in"; "not in"; "bnode";
                  "encode_for_uri"; "replace"] ->
  evaluate H N3Util (EOp operatorName args) bindings w <> (Ok v, w').
Proof.
  intros Hin He.
  assert (Hacc : acceptsExpressions operatorName = false).
  { repeat (apply elem_of_cons in Hin as [-> | Hin]; [reflexivity|]). inversion Hin. }
  destruct (evaluated_operation_call _ _ _ _ _ _ Hacc He)
    as (operator & evaluated & w1 & w2 & result & Hop & Hcall).
  repeat (apply elem_of_cons in Hin as [-> | Hin];
          [vm_compute in Hop; injection Hop as <-; discriminate Hcall|]).
  inversion Hin.
Qed.

(** ** BOUND *)

Lemma compile_bound (a : expr) :
  SparqlExpressionEvaluator H N3Util (EOp "bound" [a]) =
  Ok (fun bindings => operators_bound H bindings [a]).
Proof.
  rewrite compile_operation. unfold evaluators_operation.
  replace (operators !! "bound") with (Some Fn_bound) by (vm_compute; reflexivity).
  reflexivity.
Qed.

(** In terms of the two constants of the module: [BOUND] applied to a
    name that begins with a question mark returns [XSD_TRUE] when the
    bindings have an entry for the name and [XSD_FALSE] when they have
    none, raising nothing; applied to a
    string that does not begin with a question mark, or to an operation,
    it raises the error that says it expects a variable.  The argument
    is taken as written: it is neither compiled nor evaluated. *)
Theorem bound_tests_the_bindings
    (a : string) (obj : gmap string string) (w : World H) :
  (starts_with_question_mark a = true ->
   is_Some (obj !! a) ->
   evaluate H N3Util (EOp "bound" [EStr a]) (Some obj) w = (Ok (VStr XSD_TRUE), w))
  /\ (starts_with_question_mark a = true ->
      obj !! a = None ->
      evaluate H N3Util (EOp "bound" [EStr a]) (Some obj) w = (Ok (VStr XSD_FALSE), w))
  /\ (starts_with_question_mark a = false ->
      evaluate H N3Util (EOp "bound" [EStr a]) (Some obj) w = (Err BoundExpectsVariable, w))
  /\ (forall (operatorName : string) (args : list expr),
      evaluate H N3Util (EOp "bound" [EOp operatorName args]) (Some obj) w =
      (Err BoundExpectsVariable, w)).
Proof.
  unfold evaluate. split; [|split; [|split]].
  - intros Hq Hin. rewrite compile_bound. unfold operators_bound. simpl.
    rewrite Hq. simpl. unfold sentinel, in_bindings.
    rewrite bool_decide_eq_true_2 by exact Hin. reflexivity.
  - intros Hq Hnone. rewrite compile_bound. unfold operators_bound. simpl.
    rewrite Hq. simpl. unfold sentinel, in_bindings.
    rewrite bool_decide_eq_false_2; [reflexivity|].
    rewrite Hnone. intros [x Hx]. discriminate.
  - intros Hq. rewrite compile_bound. unfold operators_bound. simpl.
    rewrite Hq. reflexivity.
  - intros operatorName args. rewrite compile_bound. reflexivity.
Qed.

(** ** Equality *)

(** In terms of the two constants of the module: [=] is in neither
    list of argument conversions, so its two
    arguments reach the function as evaluated; when they evaluate to the
    terms [t1] and [t2] the operation returns [XSD_TRUE] if the two
    encodings are the same string and [XSD_FALSE] otherwise. *)
Theorem equality_compares_term_encodings
    (e1 e2 : expr) (ev1 ev2 : evaluator H) (bindings : Bindings)
    (w w1 w2 : World H) (t1 t2 : string) :
  SparqlExpressionEvaluator H N3Util e1 = Ok ev1 ->
  SparqlExpressionEvaluator H N3Util e2 = Ok ev2 ->
  ev1 bindings w = (Ok (VStr t1), w1) ->
  ev2 bindings w1 = (Ok (VStr t2), w2) ->
  operator_type "=" = None
  /\ evaluate H N3Util (EOp "=" [e1; e2]) bindings w =
     (Ok (VStr (if String.eqb t1 t2 then XSD_TRUE else XSD_FALSE)), w2)
  /\ (t1 <> t2 ->
      evaluate H N3Util (EOp "=" [e1; e2]) bindings w = (Ok (VStr XSD_FALSE), w2)).
Proof.
  intros Hc1 Hc2 Hv1 Hv2.
  assert (Heval : evaluate H N3Util (EOp "=" [e1; e2]) bindings w =
                  (Ok (VStr (if String.eqb t1 t2 then XSD_TRUE else XSD_FALSE)), w2)).
  { unfold evaluate.
    rewrite (compile_evaluated_operation "=" Fn_eq [e1; e2] [ev1; ev2]).
    - unfold operation_evaluator.
      replace (operator_type "=") with (@None tag) by reflexivity.
      replace (operator_resultType "=") with (Some boolean) by reflexivity.
      unfold bind, evaluate_arguments, bind. rewrite Hv1. simpl. rewrite Hv2. simpl.
      destruct (String.eqb t1 t2); reflexivity.
    - vm_compute; reflexivity.
    - reflexivity.
    - reflexivity.
    - simpl. rewrite Hc1, Hc2. reflexivity. }
  split; [reflexivity|]. split; [exact Heval|].
  intros Hne. rewrite Heval.
  destruct (String.eqb t1 t2) eqn:Heq; [|reflexivity].
  apply String.eqb_eq in Heq. contradiction.
Qed.

(** ** Conversion of arguments to booleans *)

(** In terms of the constant [XSD_FALSE] of the module: the conversion
    applied to each argument of [!], [&&] and [||] maps a term to a
    boolean; the boolean is [false] exactly when the term is [XSD_FALSE]
    or is a literal whose lexical value is the one-character string 0,
    and so it is [true] for every other term,
    a term that is not a literal among them.  The hypothesis says that
    the term is one the collaborator classifies, and whose lexical value
    it extracts when it is a literal. *)
Theorem boolean_conversion_of_a_term (t : string) (lit : bool) :
  isLiteral N3Util (VStr t) = Ok lit ->
  (lit = true -> exists v, getLiteralValue N3Util (VStr t) = Ok v) ->
  operator_type "!" = Some boolean
  /\ operator_type "&&" = Some boolean
  /\ operator_type "||" = Some boolean
  /\ exists b : bool,
       convert_argument H N3Util (Some boolean) (VStr t) = Ok (VBool b)
       /\ (b = false <->
           (t = XSD_FALSE \/
            (isLiteral N3Util (VStr t) = Ok true /\
             getLiteralValue N3Util (VStr t) = Ok "0")))
       /\ (lit = false -> t <> XSD_FALSE -> b = true).
Proof.
  intros Hlit Hval. repeat (split; [reflexivity|]).
  unfold convert_argument. simpl strict_eq.
  destruct (String.eqb t XSD_FALSE) eqn:Heq.
  - apply String.eqb_eq in Heq. exists false. split; [reflexivity|]. split.
    + split; auto.
    + intros _ Hne. contradiction.
  - apply String.eqb_neq in Heq. rewrite Hlit. simpl. destruct lit; simpl.
    + destruct (Hval eq_refl) as [v Hv]. rewrite Hv. simpl.
      exists (negb (String.eqb v "0")). split; [reflexivity|]. split.
      * split.
        -- intros Hb. apply negb_false_iff in Hb. apply String.eqb_eq in Hb.
           subst v. right. split; [reflexivity | reflexivity].
        -- intros [Ht | [_ Hz]]; [contradiction|].
           injection Hz as ->. reflexivity.
      * discriminate.
    + exists true. split; [reflexivity|]. split.
      * split; [discriminate|].
        intros [Ht | [Hl _]]; [contradiction | discriminate].
      * reflexivity.
Qed.

(** ** Argument compatibility *)

(** C5, amended. [compatibleArguments] returns [true] exactly when both
    arguments are literals and either the second carries no language
    tag or both carry the same one; otherwise it returns [false], and
    then each of the five string functions raises its error on
    incompatible arguments. *)
Theorem compatible_arguments_rule
    (a b : JsVal) (lit1 lit2 : bool) (l1 l2 : string) (w : World H) :
  isLiteral N3Util a = Ok lit1 ->
  isLiteral N3Util b = Ok lit2 ->
  (lit1 = true -> lit2 = true ->
   getLiteralLanguage N3Util a = Ok l1 /\ getLiteralLanguage N3Util b = Ok l2) ->
  (compatibleArguments N3Util a b = Ok true <->
   lit1 = true /\ lit2 = true /\ (l2 = "" \/ l1 = l2))
  /\ (compatibleArguments N3Util a b = Ok true \/
      compatibleArguments N3Util a b = Ok false)
  /\ (compatibleArguments N3Util a b = Ok false ->
      call H N3Util Fn_strstarts [a; b] w = (Err (RequiresCompatibleArguments "STRSTARTS"), w)
      /\ call H N3Util Fn_strends [a; b] w = (Err (RequiresCompatibleArguments "STRENDS"), w)
      /\ call H N3Util Fn_contains [a; b] w = (Err (RequiresCompatibleArguments "CONTAINS"), w)
      /\ call H N3Util Fn_strbefore [a; b] w = (Err (RequiresCompatibleArguments "CONTAINS"), w)
      /\ call H N3Util Fn_strafter [a; b] w = (Err (RequiresCompatibleArguments "CONTAINS"), w)).
Proof.
  intros Hlit1 Hlit2 Hlang.
  assert (Hvalue : compatibleArguments N3Util a b =
                   Ok (lit1 && lit2 && (String.eqb l2 "" || String.eqb l1 l2))).
  { unfold compatibleArguments. rewrite Hlit1. simpl.
    destruct lit1; simpl; [|reflexivity].
    rewrite Hlit2. simpl. destruct lit2; simpl; [|reflexivity].
    destruct (Hlang eq_refl eq_refl) as [-> ->]. simpl.
    destruct (String.eqb l1 "") eqn:E1, (String.eqb l2 "") eqn:E2; simpl;
      rewrite ?orb_false_r; try reflexivity.
    apply String.eqb_eq in E1. subst l1.
    rewrite String.eqb_sym, E2. reflexivity. }
  split; [|split].
  - rewrite Hvalue. split.
    + intros Hc. injection Hc as Hc.
      apply andb_true_iff in Hc as [Hc Hl]. apply andb_true_iff in Hc as [-> ->].
      repeat split. apply orb_true_iff in Hl as [Hl|Hl]; apply String.eqb_eq in Hl; auto.
    + intros (-> & -> & Hl). simpl. f_equal.
      destruct Hl as [-> | ->]; [reflexivity|].
      rewrite String.eqb_refl. apply orb_true_r.
  - rewrite Hvalue.
    destruct (lit1 && lit2 && (String.eqb l2 "" || String.eqb l1 l2)); auto.
  - intros Hc. unfold call. simpl nth. rewrite Hc. repeat split.
Qed.

(** ** Arithmetic *)

(** What the four arithmetic operations return on two terms: the
    printed result of the floating-point operation on the parsed lexical
    values, followed by the datatype the collaborator reports for the
    first term, or by the text of [undefined] when it reports none. *)
Lemma arithmetic_result
    (operatorName : string) (operator : fn) (f : float -> float -> float)
    (e1 e2 : expr) (ev1 ev2 : evaluator H) (bindings : Bindings)
    (w w1 w2 : World H) (t1 t2 v1 v2 type : string) :
  (operatorName, operator, f) ∈ arithmetic ->
  SparqlExpressionEvaluator H N3Util e1 = Ok ev1 ->
  SparqlExpressionEvaluator H N3Util e2 = Ok ev2 ->
  ev1 bindings w = (Ok (VStr t1), w1) ->
  ev2 bindings w1 = (Ok (VStr t2), w2) ->
  getLiteralValue N3Util (VStr t1) = Ok v1 ->
  getLiteralValue N3Util (VStr t2) = Ok v2 ->
  getLiteralType N3Util (VStr t1) = Ok type ->
  evaluate H N3Util (EOp operatorName [e1; e2]) bindings w =
  (Ok (VStr (quot +:+ NumberToString H (f (parseFloat H v1) (parseFloat H v2))
             +:+ quot +:+ "^^" +:+ (if String.eqb type "" then "undefined" else type))),
   w2).
Proof.
  intros Hin Hc1 Hc2 Hv1 Hv2 Hl1 Hl2 Ht.
  unfold evaluate.
  assert (Hop : operators !! operatorName = Some operator /\
                fn_length operator = 2%nat /\
                acceptsExpressions operatorName = false /\
                operator_type operatorName = Some numeric /\
                operator_resultType operatorName = Some numeric /\
                forall x y, call H N3Util operator [VNum x; VNum y] w2 =
                            (Ok (VNum (f x y)), w2)).
  { unfold arithmetic in Hin.
    repeat (apply elem_of_cons in Hin as [Hin|Hin];
            [injection Hin as -> -> ->; repeat split; vm_compute; reflexivity|]).
    inversion Hin. }
  destruct Hop as (Hlook & Hlen & Hacc & Htype & Hres & Hcall).
  rewrite (compile_evaluated_operation operatorName operator [e1; e2] [ev1; ev2]
             Hlook Hlen Hacc).
  - unfold operation_evaluator. rewrite Htype, Hres.
    unfold bind, evaluate_arguments, bind. rewrite Hv1.
    unfold lift, convert_argument. rewrite Hl1. simpl bindR. cbv iota beta.
    rewrite Hv2. rewrite Hl2. simpl bindR. cbv iota beta. unfold ret. simpl fst.
    rewrite Hcall. simpl snd. unfold convert_result. simpl nth. rewrite Ht.
    simpl bindR. replace XSD_NUMERIC_INTEGER with (@None string) by (vm_compute; reflexivity).
    destruct (String.eqb type ""); reflexivity.
  - simpl. rewrite Hc1, Hc2. reflexivity.
Qed.

End Properties.

(** C7 at the operation [+] given one argument. *)
Lemma arity_checked_when_compiling_witness :
  operators !! "+" = Some Fn_plus /\
  SparqlExpressionEvaluator Reference.host Reference.N3Util (EOp "+" [EStr "a"]) =
    Err (InvalidNumberOfArguments "+" 1 2).
Proof.
  assert (Hop : operators !! "+" = Some Fn_plus) by (vm_compute; reflexivity).
  split; [exact Hop|].
  apply (arity_checked_when_compiling Reference.host Reference.N3Util
           "+" Fn_plus [EStr "a"] Hop).
  simpl. lia.
Defined.

(** ** The properties at concrete inputs *)

(** C3 (the code departs from it). The sum of the two simple literals 2
    and 3 is tagged with the datatype the collaborator reports for the
    first of them, [xsd:string], not with [xsd:integer]; and the
    constant the code falls back on when no datatype is reported,
    [XSD_NUMERIC.INTEGER], was never defined.  On two integers the sum
    is the integer the claim gives. *)
Theorem sum_of_simple_literals_is_not_an_integer :
  Reference.eval (EOp "+" [EStr (lit "2"); EStr (lit "3")]) None =
    Ok (VStr (typed "5" Reference.XsdString))
  /\ XSD_NUMERIC_INTEGER = None
  /\ Reference.eval (EOp "+" [EStr (typed "2" xsd_integer); EStr (typed "3" xsd_integer)])
       None = Ok (VStr (typed "5" xsd_integer)).
Proof.
  repeat split; vm_compute; reflexivity.
Qed.

(** Were the datatype of the first term reported as absent, the sum
    would be tagged with the text of [undefined]. *)
Lemma sum_without_reported_datatype
    (H : Host) (N3Util : N3UtilT) (t1 t2 v1 v2 : string)
    (bindings : Bindings) (w : World H) :
  starts_with_question_mark t1 = false -> t1 <> "" ->
  starts_with_question_mark t2 = false -> t2 <> "" ->
  getLiteralValue N3Util (VStr t1) = Ok v1 ->
  getLiteralValue N3Util (VStr t2) = Ok v2 ->
  getLiteralType N3Util (VStr t1) = Ok "" ->
  evaluate H N3Util (EOp "+" [EStr t1; EStr t2]) bindings w =
  (Ok (VStr (quot +:+ NumberToString H (PrimFloat.add (parseFloat H v1) (parseFloat H v2))
             +:+ quot +:+ "^^undefined")), w).
Proof.
  intros Hq1 Hn1 Hq2 Hn2 Hv1 Hv2 Ht.
  apply String.eqb_neq in Hn1, Hn2.
  apply (arithmetic_result H N3Util "+" Fn_plus PrimFloat.add
           (EStr t1) (EStr t2) (evaluators_string H t1) (evaluators_string H t2)
           bindings w w w t1 t2 v1 v2 ""); auto.
  - left.
  - simpl. rewrite Hn1. reflexivity.
  - simpl. rewrite Hn2. reflexivity.
  - unfold evaluators_string. rewrite Hq1. reflexivity.
  - unfold evaluators_string. rewrite Hq2. reflexivity.
Qed.

(** The conversion at an IRI: it is converted to [true]. *)
Lemma boolean_conversion_of_a_term_witness :
  isLiteral Reference.N3Util (VStr "http://example.org/a") = Ok false
  /\ convert_argument Reference.host Reference.N3Util (Some boolean)
       (VStr "http://example.org/a") = Ok (VBool true).
Proof.
  assert (Hlit : isLiteral Reference.N3Util (VStr "http://example.org/a") = Ok false)
    by reflexivity.
  split; [exact Hlit|].
  destruct (boolean_conversion_of_a_term Reference.host Reference.N3Util
              "http://example.org/a" false Hlit)
    as (_ & _ & _ & b & Hconv & _ & Htrue).
  - discriminate.
  - rewrite Hconv, Htrue; [reflexivity | reflexivity | ].
    vm_compute. discriminate.
Defined.

(** C5 as first stated fails: a first argument with a language tag and
    a second one with none are compatible for the code. *)
Lemma tagged_then_untagged_is_compatible :
  ~ (compatibleArguments Reference.N3Util
       (VStr (tagged "hello" "en")) (VStr (lit "he")) = Ok true
     <-> compatible_as_specified Reference.N3Util
           (VStr (tagged "hello" "en")) (VStr (lit "he"))).
Proof.
  intros [Hto _].
  assert (Hc : compatibleArguments Reference.N3Util
                 (VStr (tagged "hello" "en")) (VStr (lit "he")) = Ok true)
    by (vm_compute; reflexivity).
  destruct (Hto Hc) as (_ & _ & l1 & l2 & H1 & H2 & Hcases).
  vm_compute in H1, H2. injection H1 as <-. injection H2 as <-.
  destruct Hcases as [[Habs _] | [_ Habs]]; discriminate Habs.
Qed.

(** C5, amended, at [STRSTARTS] of a literal tagged [en] and one tagged
    [fr]. *)
Lemma compatible_arguments_rule_witness :
  compatibleArguments Reference.N3Util
    (VStr (tagged "hello" "en")) (VStr (tagged "he" "fr")) = Ok false
  /\ call Reference.host Reference.N3Util Fn_strstarts
       [VStr (tagged "hello" "en"); VStr (tagged "he" "fr")] Reference.world0 =
     (Err (RequiresCompatibleArguments "STRSTARTS"), Reference.world0).
Proof.
  assert (Hc : compatibleArguments Reference.N3Util
                 (VStr (tagged "hello" "en")) (VStr (tagged "he" "fr")) = Ok false)
    by (vm_compute; reflexivity).
  split; [exact Hc|].
  apply (compatible_arguments_rule Reference.host Reference.N3Util
           (VStr (tagged "hello" "en")) (VStr (tagged "he" "fr"))
           true true "en" "fr" Reference.world0).
  - reflexivity.
  - reflexivity.
  - intros _ _. split; vm_compute; reflexivity.
  - exact Hc.
Defined.

(** The example of [STRSTARTS] on two literals tagged [en]: the
    function's own boolean is the output. *)
Example strstarts_same_language :
  Reference.eval (EOp "strstarts" [EStr (tagged "hello" "en"); EStr (tagged "he" "en")])
    None = Ok (VBool true).
Proof. vm_compute. reflexivity. Qed.

(** [BOUND] at a variable with an entry in the bindings. *)
Lemma bound_tests_the_bindings_witness :
  starts_with_question_mark "?x" = true
  /\ evaluate Reference.host Reference.N3Util (EOp "bound" [EStr "?x"])
       (Some (<["?x" := "http://example.org/a"]> ∅)) Reference.world0 =
     (Ok (VStr XSD_TRUE), Reference.world0).
Proof.
  split; [reflexivity|].
  apply (bound_tests_the_bindings Reference.host Reference.N3Util "?x"
           (<["?x" := "http://example.org/a"]> ∅) Reference.world0).
  - reflexivity.
  - exists "http://example.org/a". vm_compute. reflexivity.
Defined.

(** C9 at a comparison of two integers, from two states of the random
    sources. *)
Lemma compiled_evaluator_deterministic_witness :
  deterministic (EOp "<" [EStr (typed "3" xsd_integer); EStr (typed "4" xsd_integer)]) = true
  /\ fst (operation_evaluator Reference.host Reference.N3Util "<" Fn_lt
            [evaluators_string Reference.host (typed "3" xsd_integer);
             evaluators_string Reference.host (typed "4" xsd_integer)]
            None Reference.world0) =
     fst (operation_evaluator Reference.host Reference.N3Util "<" Fn_lt
            [evaluators_string Reference.host (typed "3" xsd_integer);
             evaluators_string Reference.host (typed "4" xsd_integer)]
            None Reference.world1).
Proof.
  assert (Hdet : deterministic
            (EOp "<" [EStr (typed "3" xsd_integer); EStr (typed "4" xsd_integer)]) = true)
    by (vm_compute; reflexivity).
  split; [exact Hdet|].
  apply (compiled_evaluator_deterministic Reference.host Reference.N3Util
           (EOp "<" [EStr (typed "3" xsd_integer); EStr (typed "4" xsd_integer)])
           _ None Hdet).
  apply compile_evaluated_operation.
  - vm_compute. reflexivity.
  - reflexivity.
  - reflexivity.
  - reflexivity.
Defined.

(** [=] at the integers written 1 and 01. *)
Lemma equality_compares_term_encodings_witness :
  evaluate Reference.host Reference.N3Util
    (EOp "=" [EStr (typed "1" xsd_integer); EStr (typed "01" xsd_integer)])
    None Reference.world0 =
  (Ok (VStr XSD_FALSE), Reference.world0).
Proof.
  apply (equality_compares_term_encodings Reference.host Reference.N3Util
           (EStr (typed "1" xsd_integer)) (EStr (typed "01" xsd_integer))
           (evaluators_string Reference.host (typed "1" xsd_integer))
           (evaluators_string Reference.host (typed "01" xsd_integer))
           None Reference.world0 Reference.world0 Reference.world0
           (typed "1" xsd_integer) (typed "01" xsd_integer)).
  - reflexivity.
  - reflexivity.
  - reflexivity.
  - reflexivity.
  - vm_compute. discriminate.
Defined.

(** The simple literal 1 and the integer 1 are different encodings. *)
Example equality_of_simple_and_typed_literal :
  Reference.eval (EOp "=" [EStr (lit "1"); EStr (typed "1" xsd_integer)]) None =
  Ok (VStr XSD_FALSE).
Proof. vm_compute. reflexivity. Qed.

(** The comparison of the integers 3 and 4 returns [XSD_TRUE], whose
    datatype is the one [XSD_BOOLEAN] was last assigned. *)
Example less_than_on_integers :
  Reference.eval (EOp "<" [EStr (typed "3" xsd_integer); EStr (typed "4" xsd_integer)])
    None = Ok (VStr XSD_TRUE)
  /\ XSD_TRUE = typed "true" (XSD +:+ "string")
  /\ XSD_TRUE <> typed "true" (XSD +:+ "boolean").
Proof.
  split; [|split].
  - vm_compute. reflexivity.
  - reflexivity.
  - vm_compute. discriminate.
Qed.

(** The literal false of datatype [xsd:boolean] is not [XSD_FALSE], and
    negating it gives [XSD_FALSE]. *)
Example negation_of_boolean_false :
  Reference.eval (EOp "!" [EStr (typed "false" (XSD +:+ "boolean"))]) None =
  Ok (VStr XSD_FALSE).
Proof. vm_compute. reflexivity. Qed.

(** * Further properties of the evaluator *)

Section FurtherProperties.

Variable H : Host.
Variable N3Util : N3UtilT.

(** ** Running an operation on evaluated arguments *)

(** An operation of one argument: the argument is evaluated and
    converted, the function is called, its result is converted. *)
Lemma run_unary (operatorName : string) (operator : fn) (ev1 : evaluator H)
    (bindings : Bindings) (w w1 w2 : World H) (v1 c1 : JsVal) (r : Result JsVal) :
  ev1 bindings w = (Ok v1, w1) ->
  convert_argument H N3Util (operator_type operatorName) v1 = Ok c1 ->
  call H N3Util operator [c1] w1 = (r, w2) ->
  operation_evaluator H N3Util operatorName operator [ev1] bindings w =
  (bindR r (fun result =>
     convert_result H N3Util (operator_resultType operatorName) result [v1]), w2).
Proof.
  intros Hv1 Hc1 Hcall. unfold operation_evaluator, bind, evaluate_arguments, bind.
  rewrite Hv1. unfold lift. rewrite Hc1. unfold ret. simpl fst. simpl snd.
  rewrite Hcall. destruct r; reflexivity.
Qed.

(** The same for two arguments, evaluated from left to right. *)
Lemma run_binary (operatorName : string) (operator : fn) (ev1 ev2 : evaluator H)
    (bindings : Bindings) (w w1 w2 w3 : World H) (v1 v2 c1 c2 : JsVal)
    (r : Result JsVal) :
  ev1 bindings w = (Ok v1, w1) ->
  convert_argument H N3Util (operator_type operatorName) v1 = Ok c1 ->
  ev2 bindings w1 = (Ok v2, w2) ->
  convert_argument H N3Util (operator_type operatorName) v2 = Ok c2 ->
  call H N3Util operator [c1; c2] w2 = (r, w3) ->
  operation_evaluator H N3Util operatorName operator [ev1; ev2] bindings w =
  (bindR r (fun result =>
     convert_result H N3Util (operator_resultType operatorName) result [v1; v2]), w3).
Proof.
  intros Hv1 Hc1 Hv2 Hc2 Hcall.
  unfold operation_evaluator, bind, evaluate_arguments, bind.
  rewrite Hv1. unfold lift. rewrite Hc1. rewrite Hv2. rewrite Hc2.
  unfold ret. simpl fst. simpl snd. rewrite Hcall. destruct r; reflexivity.
Qed.

Lemma compile_unary (operatorName : string) (operator : fn) (e1 : expr)
    (ev1 : evaluator H) :
  operators !! operatorName = Some operator ->
  fn_length operator = 1%nat ->
  acceptsExpressions operatorName = false ->
  SparqlExpressionEvaluator H N3Util e1 = Ok ev1 ->
  SparqlExpressionEvaluator H N3Util (EOp operatorName [e1]) =
  Ok (operation_evaluator H N3Util operatorName operator [ev1]).
Proof.
  intros Hop Hlen Hacc Hc1. apply compile_evaluated_operation; auto.
  simpl. rewrite Hc1. reflexivity.
Qed.

Lemma compile_binary (operatorName : string) (operator : fn) (e1 e2 : expr)
    (ev1 ev2 : evaluator H) :
  operators !! operatorName = Some operator ->
  fn_length operator = 2%nat ->
  acceptsExpressions operatorName = false ->
  SparqlExpressionEvaluator H N3Util e1 = Ok ev1 ->
  SparqlExpressionEvaluator H N3Util e2 = Ok ev2 ->
  SparqlExpressionEvaluator H N3Util (EOp operatorName [e1; e2]) =
  Ok (operation_evaluator H N3Util operatorName operator [ev1; ev2]).
Proof.
  intros Hop Hlen Hacc Hc1 Hc2. apply compile_evaluated_operation; auto.
  simpl. rewrite Hc1, Hc2. reflexivity.
Qed.

(** ** What compilation can report *)

(** X1. On an expression free of the names inherited from
    [Object.prototype], compilation fails in three ways only: on a node
    whose type names no property of [evaluators], on an operator name
    that is no property of [operators], and on a number of arguments
    other than the one the operator declares.  An unbound variable or an
    argument an operator cannot use is never found when compiling. *)
Theorem compile_errors_are_static (e : expr) (x : error) :
  free_of_inherited_names e = true ->
  SparqlExpressionEvaluator H N3Util e = Err x ->
  (exists expressionType,
     x = UnsupportedExpressionType expressionType
     /\ expressionType <> ""
     /\ mem expressionType (evaluators_names ++ Object_prototype_names) = false)
  \/ (exists operatorName,
        x = UnsupportedOperator operatorName
        /\ operators !! operatorName = None
        /\ mem operatorName Object_prototype_names = false)
  \/ (exists operatorName operator given,
        x = InvalidNumberOfArguments operatorName given (fn_length operator)
        /\ operators !! operatorName = Some operator
        /\ given <> fn_length operator).
Proof.
  revert x. induction e as [| s | name args IH | t] using expr_nested_ind;
    intros x Hfree Hc.
  - discriminate.
  - simpl in Hc. destruct (String.eqb s ""); discriminate.
  - cbn [free_of_inherited_names] in Hfree.
    apply andb_true_iff in Hfree as [Hname Hargs]. apply negb_true_iff in Hname.
    rewrite compile_operation in Hc. unfold evaluators_operation in Hc.
    destruct (operators !! name) as [operator|] eqn:Hop.
    + destruct (Nat.eqb (fn_length operator) (length args)) eqn:Hlen; simpl in Hc.
      * destruct (acceptsExpressions name); [discriminate|].
        simpl in Hargs. rewrite forallb_forall in Hargs.
        destruct (mapR (SparqlExpressionEvaluator H N3Util) args) as [evs|e'] eqn:Hm;
          simpl in Hc; [discriminate|].
        injection Hc as ->. apply mapR_Err in Hm. rewrite Exists_exists in Hm.
        destruct Hm as (a & Hin & Ha). rewrite Forall_forall in IH.
        apply (IH a Hin x); [|exact Ha].
        apply Hargs. apply list_elem_of_In. exact Hin.
      * injection Hc as <-. right. right. exists name, operator, (length args).
        apply Nat.eqb_neq in Hlen. repeat split; auto.
    + injection Hc as <-. right. left. exists name. auto.
  - cbn [free_of_inherited_names] in Hfree.
    apply andb_true_iff in Hfree as [Hne Hnames].
    apply negb_true_iff in Hne, Hnames. apply String.eqb_neq in Hne.
    injection Hc as <-. left. exists t. auto.
Qed.

(** ** The logical operators *)

(** The conversion to a boolean never yields anything but a boolean. *)
Lemma boolean_conversion_is_boolean (v c : JsVal) :
  convert_argument H N3Util (Some boolean) v = Ok c -> exists b, c = VBool b.
Proof.
  unfold convert_argument.
  destruct (strict_eq v (VStr XSD_FALSE)); [intros [= <-]; eauto|].
  destruct (isLiteral N3Util v) as [lit|]; simpl; [|discriminate].
  destruct lit; simpl; [|intros [= <-]; eauto].
  destruct (getLiteralValue N3Util v); simpl; [|discriminate].
  intros [= <-]. eauto.
Qed.

(** X2. The conjunction and the disjunction of two arguments that
    convert to the booleans [b1] and [b2] are [XSD_TRUE] or [XSD_FALSE]
    according to the truth table of the connective, and the negation of
    the first is the constant for [negb b1]. *)
Theorem logical_operators_follow_truth_tables
    (e1 e2 : expr) (ev1 ev2 : evaluator H) (bindings : Bindings)
    (w w1 w2 : World H) (v1 v2 : JsVal) (b1 b2 : bool) :
  SparqlExpressionEvaluator H N3Util e1 = Ok ev1 ->
  SparqlExpressionEvaluator H N3Util e2 = Ok ev2 ->
  ev1 bindings w = (Ok v1, w1) ->
  ev2 bindings w1 = (Ok v2, w2) ->
  convert_argument H N3Util (Some boolean) v1 = Ok (VBool b1) ->
  convert_argument H N3Util (Some boolean) v2 = Ok (VBool b2) ->
  evaluate H N3Util (EOp "&&" [e1; e2]) bindings w = (Ok (sentinel (b1 && b2)), w2)
  /\ evaluate H N3Util (EOp "||" [e1; e2]) bindings w = (Ok (sentinel (b1 || b2)), w2)
  /\ evaluate H N3Util (EOp "!" [e1]) bindings w = (Ok (sentinel (negb b1)), w1).
Proof.
  intros Hc1 Hc2 Hv1 Hv2 Hb1 Hb2. unfold evaluate. split; [|split].
  - rewrite (compile_binary "&&" Fn_and e1 e2 ev1 ev2 ltac:(vm_compute; reflexivity)
               eq_refl eq_refl Hc1 Hc2).
    rewrite (run_binary "&&" Fn_and ev1 ev2 bindings w w1 w2 w2 v1 v2
               (VBool b1) (VBool b2) (Ok (if b1 then VBool b2 else VBool b1))
               Hv1 Hb1 Hv2 Hb2 eq_refl).
    simpl. destruct b1, b2; reflexivity.
  - rewrite (compile_binary "||" Fn_or e1 e2 ev1 ev2 ltac:(vm_compute; reflexivity)
               eq_refl eq_refl Hc1 Hc2).
    rewrite (run_binary "||" Fn_or ev1 ev2 bindings w w1 w2 w2 v1 v2
               (VBool b1) (VBool b2) (Ok (if b1 then VBool b1 else VBool b2))
               Hv1 Hb1 Hv2 Hb2 eq_refl).
    simpl. destruct b1, b2; reflexivity.
  - rewrite (compile_unary "!" Fn_not e1 ev1 ltac:(vm_compute; reflexivity)
               eq_refl eq_refl Hc1).
    rewrite (run_unary "!" Fn_not ev1 bindings w w1 w1 v1 (VBool b1)
               (Ok (VBool (negb b1))) Hv1 Hb1 eq_refl).
    simpl. destruct b1; reflexivity.
Qed.

(** X3. Neither connective stops at its first argument: when the
    second argument raises an exception the operation raises it, also
    when the first argument alone decides the outcome. *)
Theorem logical_operators_evaluate_both_arguments
    (e1 e2 : expr) (ev1 ev2 : evaluator H) (bindings : Bindings)
    (w w1 w2 : World H) (v1 c1 : JsVal) (x : error) :
  SparqlExpressionEvaluator H N3Util e1 = Ok ev1 ->
  SparqlExpressionEvaluator H N3Util e2 = Ok ev2 ->
  ev1 bindings w = (Ok v1, w1) ->
  convert_argument H N3Util (Some boolean) v1 = Ok c1 ->
  ev2 bindings w1 = (Err x, w2) ->
  evaluate H N3Util (EOp "&&" [e1; e2]) bindings w = (Err x, w2)
  /\ evaluate H N3Util (EOp "||" [e1; e2]) bindings w = (Err x, w2).
Proof.
  intros Hc1 Hc2 Hv1 Hb1 Hv2. unfold evaluate. split.
  - rewrite (compile_binary "&&" Fn_and e1 e2 ev1 ev2 ltac:(vm_compute; reflexivity)
               eq_refl eq_refl Hc1 Hc2).
    unfold operation_evaluator, bind, evaluate_arguments, bind.
    rewrite Hv1. unfold lift.
    replace (operator_type "&&") with (Some boolean) by reflexivity.
    rewrite Hb1, Hv2. reflexivity.
  - rewrite (compile_binary "||" Fn_or e1 e2 ev1 ev2 ltac:(vm_compute; reflexivity)
               eq_refl eq_refl Hc1 Hc2).
    unfold operation_evaluator, bind, evaluate_arguments, bind.
    rewrite Hv1. unfold lift.
    replace (operator_type "||") with (Some boolean) by reflexivity.
    rewrite Hb1, Hv2. reflexivity.
Qed.

(** ** The numeric comparisons *)

(** X4. The four order comparisons compare the numbers parsed from the
    lexical values of their two arguments; the datatypes play no part. *)
Theorem comparisons_are_numeric
    (e1 e2 : expr) (ev1 ev2 : evaluator H) (bindings : Bindings)
    (w w1 w2 : World H) (v1 v2 : JsVal) (x1 x2 : string) :
  SparqlExpressionEvaluator H N3Util e1 = Ok ev1 ->
  SparqlExpressionEvaluator H N3Util e2 = Ok ev2 ->
  ev1 bindings w = (Ok v1, w1) ->
  ev2 bindings w1 = (Ok v2, w2) ->
  getLiteralValue N3Util v1 = Ok x1 ->
  getLiteralValue N3Util v2 = Ok x2 ->
  evaluate H N3Util (EOp "<" [e1; e2]) bindings w =
    (Ok (sentinel (PrimFloat.ltb (parseFloat H x1) (parseFloat H x2))), w2)
  /\ evaluate H N3Util (EOp "<=" [e1; e2]) bindings w =
    (Ok (sentinel (PrimFloat.leb (parseFloat H x1) (parseFloat H x2))), w2)
  /\ evaluate H N3Util (EOp ">" [e1; e2]) bindings w =
    (Ok (sentinel (PrimFloat.ltb (parseFloat H x2) (parseFloat H x1))), w2)
  /\ evaluate H N3Util (EOp ">=" [e1; e2]) bindings w =
    (Ok (sentinel (PrimFloat.leb (parseFloat H x2) (parseFloat H x1))), w2).
Proof.
  intros Hc1 Hc2 Hv1 Hv2 Hx1 Hx2.
  assert (Hcv1 : forall name, operator_type name = Some numeric ->
            convert_argument H N3Util (operator_type name) v1 =
            Ok (VNum (parseFloat H x1))).
  { intros name ->. simpl. rewrite Hx1. reflexivity. }
  assert (Hcv2 : forall name, operator_type name = Some numeric ->
            convert_argument H N3Util (operator_type name) v2 =
            Ok (VNum (parseFloat H x2))).
  { intros name ->. simpl. rewrite Hx2. reflexivity. }
  unfold evaluate. split; [|split; [|split]].
  - rewrite (compile_binary "<" Fn_lt e1 e2 ev1 ev2 ltac:(vm_compute; reflexivity)
               eq_refl eq_refl Hc1 Hc2).
    rewrite (run_binary "<" Fn_lt ev1 ev2 bindings w w1 w2 w2 v1 v2 _ _
               (Ok (VBool (PrimFloat.ltb (parseFloat H x1) (parseFloat H x2))))
               Hv1 (Hcv1 "<" eq_refl) Hv2 (Hcv2 "<" eq_refl) eq_refl).
    simpl. reflexivity.
  - rewrite (compile_binary "<=" Fn_le e1 e2 ev1 ev2 ltac:(vm_compute; reflexivity)
               eq_refl eq_refl Hc1 Hc2).
    rewrite (run_binary "<=" Fn_le ev1 ev2 bindings w w1 w2 w2 v1 v2 _ _
               (Ok (VBool (PrimFloat.leb (parseFloat H x1) (parseFloat H x2))))
               Hv1 (Hcv1 "<=" eq_refl) Hv2 (Hcv2 "<=" eq_refl) eq_refl).
    simpl. reflexivity.
  - rewrite (compile_binary ">" Fn_gt e1 e2 ev1 ev2 ltac:(vm_compute; reflexivity)
               eq_refl eq_refl Hc1 Hc2).
    rewrite (run_binary ">" Fn_gt ev1 ev2 bindings w w1 w2 w2 v1 v2 _ _
               (Ok (VBool (PrimFloat.ltb (parseFloat H x2) (parseFloat H x1))))
               Hv1 (Hcv1 ">" eq_refl) Hv2 (Hcv2 ">" eq_refl) eq_refl).
    simpl. reflexivity.
  - rewrite (compile_binary ">=" Fn_ge e1 e2 ev1 ev2 ltac:(vm_compute; reflexivity)
               eq_refl eq_refl Hc1 Hc2).
    rewrite (run_binary ">=" Fn_ge ev1 ev2 bindings w w1 w2 w2 v1 v2 _ _
               (Ok (VBool (PrimFloat.leb (parseFloat H x2) (parseFloat H x1))))
               Hv1 (Hcv1 ">=" eq_refl) Hv2 (Hcv2 ">=" eq_refl) eq_refl).
    simpl. reflexivity.
Qed.

(** A comparison with the Number that is not a number is false. *)
Lemma comparison_with_nan (x y : float) :
  x = PrimFloat.nan \/ y = PrimFloat.nan ->
  PrimFloat.ltb x y = false /\ PrimFloat.leb x y = false.
Proof.
  rewrite ltb_spec, leb_spec. unfold SFltb, SFleb.
  intros [-> | ->].
  - replace (Prim2SF PrimFloat.nan) with S754_nan by reflexivity. split; reflexivity.
  - replace (Prim2SF PrimFloat.nan) with S754_nan by reflexivity.
    destruct (Prim2SF x) as [s | s | | s m e]; split; reflexivity.
Qed.

(** X5. When the lexical value of either argument does not parse as a
    number, each of the four order comparisons returns [XSD_FALSE]: such
    an argument is neither below, nor above, nor equal to the other. *)
Theorem comparison_with_unparsable_is_false
    (e1 e2 : expr) (ev1 ev2 : evaluator H) (bindings : Bindings)
    (w w1 w2 : World H) (v1 v2 : JsVal) (x1 x2 : string) (operatorName : string) :
  SparqlExpressionEvaluator H N3Util e1 = Ok ev1 ->
  SparqlExpressionEvaluator H N3Util e2 = Ok ev2 ->
  ev1 bindings w = (Ok v1, w1) ->
  ev2 bindings w1 = (Ok v2, w2) ->
  getLiteralValue N3Util v1 = Ok x1 ->
  getLiteralValue N3Util v2 = Ok x2 ->
  parseFloat H x1 = PrimFloat.nan \/ parseFloat H x2 = PrimFloat.nan ->
  operatorName ∈ ["<"; "<="; ">"; ">="] ->
  evaluate H N3Util (EOp operatorName [e1; e2]) bindings w = (Ok (VStr XSD_FALSE), w2).
Proof.
  intros Hc1 Hc2 Hv1 Hv2 Hx1 Hx2 Hnan Hin.
  destruct (comparison_with_nan _ _ Hnan) as [Hlt Hle].
  assert (Hnan' : parseFloat H x2 = PrimFloat.nan \/ parseFloat H x1 = PrimFloat.nan)
    by tauto.
  destruct (comparison_with_nan _ _ Hnan') as [Hgt Hge].
  assert (Hcv1 : convert_argument H N3Util (Some numeric) v1 = Ok (VNum (parseFloat H x1))).
  { simpl. rewrite Hx1. reflexivity. }
  assert (Hcv2 : convert_argument H N3Util (Some numeric) v2 = Ok (VNum (parseFloat H x2))).
  { simpl. rewrite Hx2. reflexivity. }
  unfold evaluate.
  repeat (apply elem_of_cons in Hin as [-> | Hin]).
  - rewrite (compile_binary "<" Fn_lt e1 e2 ev1 ev2 ltac:(vm_compute; reflexivity)
               eq_refl eq_refl Hc1 Hc2).
    rewrite (run_binary "<" Fn_lt ev1 ev2 bindings w w1 w2 w2 v1 v2 _ _
               (Ok (VBool (PrimFloat.ltb (parseFloat H x1) (parseFloat H x2))))
               Hv1 Hcv1 Hv2 Hcv2 eq_refl).
    simpl. rewrite Hlt. reflexivity.
  - rewrite (compile_binary "<=" Fn_le e1 e2 ev1 ev2 ltac:(vm_compute; reflexivity)
               eq_refl eq_refl Hc1 Hc2).
    rewrite (run_binary "<=" Fn_le ev1 ev2 bindings w w1 w2 w2 v1 v2 _ _
               (Ok (VBool (PrimFloat.leb (parseFloat H x1) (parseFloat H x2))))
               Hv1 Hcv1 Hv2 Hcv2 eq_refl).
    simpl. rewrite Hle. reflexivity.
  - rewrite (compile_binary ">" Fn_gt e1 e2 ev1 ev2 ltac:(vm_compute; reflexivity)
               eq_refl eq_refl Hc1 Hc2).
    rewrite (run_binary ">" Fn_gt ev1 ev2 bindings w w1 w2 w2 v1 v2 _ _
               (Ok (VBool (PrimFloat.ltb (parseFloat H x2) (parseFloat H x1))))
               Hv1 Hcv1 Hv2 Hcv2 eq_refl).
    simpl. rewrite Hgt. reflexivity.
  - rewrite (compile_binary ">=" Fn_ge e1 e2 ev1 ev2 ltac:(vm_compute; reflexivity)
               eq_refl eq_refl Hc1 Hc2).
    rewrite (run_binary ">=" Fn_ge ev1 ev2 bindings w w1 w2 w2 v1 v2 _ _
               (Ok (VBool (PrimFloat.leb (parseFloat H x2) (parseFloat H x1))))
               Hv1 Hcv1 Hv2 Hcv2 eq_refl).
    simpl. rewrite Hge. reflexivity.
  - inversion Hin.
Qed.

(** ** Searching a string *)

Lemma strlen_String (c : ascii) (s : string) : strlen (String c s) = strlen s + 1.
Proof. unfold strlen. simpl String.length. lia. Qed.

Lemma strlen_nonneg (s : string) : 0 <= strlen s.
Proof. unfold strlen. lia. Qed.

Lemma append_String (c : ascii) (s t : string) :
  String c s +:+ t = String c (s +:+ t).
Proof. reflexivity. Qed.

Lemma append_empty_l (t : string) : "" +:+ t = t.
Proof. reflexivity. Qed.

Lemma append_empty_r (s : string) : s +:+ "" = s.
Proof. induction s as [|c s IH]; [reflexivity|]. rewrite append_String, IH. reflexivity. Qed.

Lemma strlen_append (s t : string) : strlen (s +:+ t) = strlen s + strlen t.
Proof.
  induction s as [|c s IH].
  - rewrite append_empty_l. change (strlen "") with 0. lia.
  - rewrite append_String, !strlen_String, IH. lia.
Qed.

(** [String.prefix t s]: [s] starts with [t]. *)
Lemma prefix_append (t s : string) :
  String.prefix t s = true <-> exists r, s = t +:+ r.
Proof.
  revert t. induction s as [|c s IH]; intros [|d t]; simpl.
  - split; eauto.
  - split; [discriminate | intros [r Hr]; discriminate].
  - split; eauto.
  - destruct (ascii_dec d c) as [->|Hne].
    + rewrite IH. split; intros [r Hr]; exists r; rewrite append_String in *; congruence.
    + split; [discriminate | intros [r Hr]; rewrite append_String in Hr; congruence].
Qed.

Lemma indexOf_from_equation (i : Z) (s t : string) :
  indexOf_from i s t =
  if String.prefix t s then i
  else match s with
       | EmptyString => -1
       | String _ s' => indexOf_from (i + 1) s' t
       end.
Proof. destruct s; reflexivity. Qed.

(** [indexOf] returns the position of the first occurrence, or [-1]
    when there is none. *)
Lemma indexOf_from_spec (s t : string) (i : Z) :
  0 <= i ->
  (exists p r, s = p +:+ t +:+ r /\ indexOf_from i s t = i + strlen p
               /\ forall p' r', s = p' +:+ t +:+ r' -> strlen p <= strlen p')
  \/ (indexOf_from i s t = -1 /\ forall p r, s <> p +:+ t +:+ r).
Proof.
  revert i. induction s as [|c s IH]; intros i Hi; rewrite indexOf_from_equation;
    destruct (String.prefix t _) eqn:Hp.
  - left. apply prefix_append in Hp as [r Hr]. exists "", r. rewrite append_empty_l.
    split; [exact Hr|]. split; [change (strlen "") with 0; lia|].
    intros p' r' _. apply strlen_nonneg.
  - right. split; [reflexivity|]. intros p r Hs.
    assert (Hp' : String.prefix t "" = true).
    { apply prefix_append. destruct p; [|discriminate]. rewrite append_empty_l in Hs. eauto. }
    congruence.
  - left. apply prefix_append in Hp as [r Hr]. exists "", r. rewrite append_empty_l.
    split; [exact Hr|]. split; [change (strlen "") with 0; lia|].
    intros p' r' _. apply strlen_nonneg.
  - assert (Hno : forall r, String c s <> t +:+ r).
    { intros r Hr. assert (String.prefix t (String c s) = true) by (apply prefix_append; eauto).
      congruence. }
    destruct (IH (i + 1) ltac:(lia)) as [(p & r & Hs & Hidx & Hmin) | [Hidx Hnone]].
    + left. exists (String c p), r. rewrite append_String, Hidx, strlen_String.
      split; [congruence|]. split; [lia|].
      intros [|c' p'] r' Hs'.
      * exfalso. apply (Hno r'). rewrite append_empty_l in Hs'. exact Hs'.
      * rewrite append_String in Hs'. injection Hs' as _ Hs'.
        specialize (Hmin p' r' Hs'). rewrite strlen_String. lia.
    + right. split; [exact Hidx|]. intros [|c' p] r Hs.
      * apply (Hno r). rewrite append_empty_l in Hs. exact Hs.
      * rewrite append_String in Hs. injection Hs as _ Hs. apply (Hnone p r). exact Hs.
Qed.

Lemma indexOf_found_iff (s t : string) :
  (-1 <? indexOf s t) = true <-> exists p r, s = p +:+ t +:+ r.
Proof.
  unfold indexOf. rewrite Z.ltb_lt.
  destruct (indexOf_from_spec s t 0 ltac:(lia)) as [(p & r & Hs & Hidx & _) | [Hidx Hnone]].
  - pose proof (strlen_nonneg p). split; [eauto | lia].
  - split; [lia | intros (p & r & Hs); destruct (Hnone p r Hs)].
Qed.

Lemma indexOf_zero_iff (s t : string) :
  (indexOf s t =? 0) = String.prefix t s.
Proof.
  unfold indexOf. rewrite indexOf_from_equation.
  destruct (String.prefix t s) eqn:Hp; [reflexivity|].
  destruct s as [|c s]; [reflexivity|].
  destruct (indexOf_from_spec s t (0 + 1) ltac:(lia)) as [(p & r & _ & Hidx & _) | [Hidx _]].
  - pose proof (strlen_nonneg p). apply Z.eqb_neq. lia.
  - rewrite Hidx. reflexivity.
Qed.

(** ** The string tests *)

(** What the three tests do once their arguments are found compatible. *)
Lemma string_test_call (v1 v2 : JsVal) (x y : string) (w : World H) :
  compatibleArguments N3Util v1 v2 = Ok true ->
  getLiteralValue N3Util v1 = Ok x ->
  getLiteralValue N3Util v2 = Ok y ->
  call H N3Util Fn_strstarts [v1; v2] w = (Ok (VBool (indexOf x y =? 0)), w)
  /\ call H N3Util Fn_strends [v1; v2] w =
     (Ok (sentinel (indexOf x y =? strlen x - strlen y)), w)
  /\ call H N3Util Fn_contains [v1; v2] w = (Ok (sentinel (-1 <? indexOf x y)), w).
Proof.
  intros Hc Hx Hy. unfold call, lift. simpl nth. rewrite Hc. simpl bindR.
  rewrite Hx, Hy. simpl bindR. auto.
Qed.

(** X6. [contains] on two compatible literals returns [XSD_TRUE] exactly
    when the lexical value of the second occurs somewhere in the lexical
    value of the first, and [XSD_FALSE] otherwise. *)
Theorem contains_tests_occurrence
    (e1 e2 : expr) (ev1 ev2 : evaluator H) (bindings : Bindings)
    (w w1 w2 : World H) (v1 v2 : JsVal) (x y : string) :
  SparqlExpressionEvaluator H N3Util e1 = Ok ev1 ->
  SparqlExpressionEvaluator H N3Util e2 = Ok ev2 ->
  ev1 bindings w = (Ok v1, w1) ->
  ev2 bindings w1 = (Ok v2, w2) ->
  compatibleArguments N3Util v1 v2 = Ok true ->
  getLiteralValue N3Util v1 = Ok x ->
  getLiteralValue N3Util v2 = Ok y ->
  exists found : bool,
    evaluate H N3Util (EOp "contains" [e1; e2]) bindings w = (Ok (sentinel found), w2)
    /\ (found = true <-> exists p r, x = p +:+ y +:+ r).
Proof.
  intros Hc1 Hc2 Hv1 Hv2 Hc Hx Hy.
  destruct (string_test_call v1 v2 x y w2 Hc Hx Hy) as (_ & _ & Hcall).
  exists (-1 <? indexOf x y). split; [|apply indexOf_found_iff].
  unfold evaluate.
  rewrite (compile_binary "contains" Fn_contains e1 e2 ev1 ev2
             ltac:(vm_compute; reflexivity) eq_refl eq_refl Hc1 Hc2).
  rewrite (run_binary "contains" Fn_contains ev1 ev2 bindings w w1 w2 w2 v1 v2 v1 v2 _
             Hv1 eq_refl Hv2 eq_refl Hcall).
  reflexivity.
Qed.

(** X7. [strstarts] on two compatible literals returns the JavaScript
    boolean that tells whether the lexical value of the first starts with
    that of the second: a boolean, not one of the two constants, for the
    operator is in no list of boolean results. *)
Theorem strstarts_tests_prefix
    (e1 e2 : expr) (ev1 ev2 : evaluator H) (bindings : Bindings)
    (w w1 w2 : World H) (v1 v2 : JsVal) (x y : string) :
  SparqlExpressionEvaluator H N3Util e1 = Ok ev1 ->
  SparqlExpressionEvaluator H N3Util e2 = Ok ev2 ->
  ev1 bindings w = (Ok v1, w1) ->
  ev2 bindings w1 = (Ok v2, w2) ->
  compatibleArguments N3Util v1 v2 = Ok true ->
  getLiteralValue N3Util v1 = Ok x ->
  getLiteralValue N3Util v2 = Ok y ->
  exists starts : bool,
    evaluate H N3Util (EOp "strstarts" [e1; e2]) bindings w = (Ok (VBool starts), w2)
    /\ (starts = true <-> exists r, x = y +:+ r).
Proof.
  intros Hc1 Hc2 Hv1 Hv2 Hc Hx Hy.
  destruct (string_test_call v1 v2 x y w2 Hc Hx Hy) as (Hcall & _ & _).
  exists (String.prefix y x). split; [|apply prefix_append].
  rewrite indexOf_zero_iff in Hcall.
  unfold evaluate.
  rewrite (compile_binary "strstarts" Fn_strstarts e1 e2 ev1 ev2
             ltac:(vm_compute; reflexivity) eq_refl eq_refl Hc1 Hc2).
  rewrite (run_binary "strstarts" Fn_strstarts ev1 ev2 bindings w w1 w2 w2 v1 v2 v1 v2 _
             Hv1 eq_refl Hv2 eq_refl Hcall).
  reflexivity.
Qed.

(** X8. [strends] compares the position of the first occurrence with the
    difference of the lengths.  It returns [XSD_TRUE] in two cases only:
    the first occurrence of the second lexical value in the first is at
    its very end; or there is no occurrence and the second value is
    exactly one character longer than the first.  A value that ends the
    first one but also occurs earlier in it gives [XSD_FALSE]. *)
Theorem strends_compares_first_occurrence
    (e1 e2 : expr) (ev1 ev2 : evaluator H) (bindings : Bindings)
    (w w1 w2 : World H) (v1 v2 : JsVal) (x y : string) :
  SparqlExpressionEvaluator H N3Util e1 = Ok ev1 ->
  SparqlExpressionEvaluator H N3Util e2 = Ok ev2 ->
  ev1 bindings w = (Ok v1, w1) ->
  ev2 bindings w1 = (Ok v2, w2) ->
  compatibleArguments N3Util v1 v2 = Ok true ->
  getLiteralValue N3Util v1 = Ok x ->
  getLiteralValue N3Util v2 = Ok y ->
  exists ends : bool,
    evaluate H N3Util (EOp "strends" [e1; e2]) bindings w = (Ok (sentinel ends), w2)
    /\ (ends = true <->
        (exists p, x = p +:+ y
                   /\ forall p' r', x = p' +:+ y +:+ r' -> strlen p <= strlen p')
        \/ ((forall p r, x <> p +:+ y +:+ r) /\ strlen y = strlen x + 1)).
Proof.
  intros Hc1 Hc2 Hv1 Hv2 Hc Hx Hy.
  destruct (string_test_call v1 v2 x y w2 Hc Hx Hy) as (_ & Hcall & _).
  exists (indexOf x y =? strlen x - strlen y). split.
  - unfold evaluate.
    rewrite (compile_binary "strends" Fn_strends e1 e2 ev1 ev2
               ltac:(vm_compute; reflexivity) eq_refl eq_refl Hc1 Hc2).
    rewrite (run_binary "strends" Fn_strends ev1 ev2 bindings w w1 w2 w2 v1 v2 v1 v2 _
               Hv1 eq_refl Hv2 eq_refl Hcall).
    reflexivity.
  - rewrite Z.eqb_eq. unfold indexOf.
    destruct (indexOf_from_spec x y 0 ltac:(lia)) as [(p & r & Hs & Hidx & Hmin) | [Hidx Hnone]].
    + rewrite Hidx. split.
      * intros Hlen. left. exists p.
        assert (Hr : r = "").
        { assert (Hl : strlen x = strlen p + strlen y + strlen r)
            by (rewrite Hs, !strlen_append; lia).
          destruct r as [|c r]; [reflexivity|]. rewrite strlen_String in Hl.
          pose proof (strlen_nonneg r). lia. }
        subst r. split; [|exact Hmin].
        rewrite Hs, append_empty_r. reflexivity.
      * intros [(p0 & Hp0 & Hmin0) | [Hnone _]].
        -- assert (Hle : strlen p0 <= strlen p).
           { apply (Hmin0 p r). exact Hs. }
           assert (Hge : strlen p <= strlen p0).
           { apply (Hmin p0 ""). rewrite append_empty_r. exact Hp0. }
           rewrite Hp0, strlen_append. lia.
        -- destruct (Hnone p r Hs).
    + rewrite Hidx. split.
      * intros Hlen. right. split; [exact Hnone | lia].
      * intros [(p0 & Hp0 & _) | [_ Hlen]]; [|lia].
        exfalso. apply (Hnone p0 ""). rewrite append_empty_r. exact Hp0.
Qed.

(** ** Functions on numerics *)

(** X9. [round] does not round: on a term whose lexical value parses to
    the number [n] it returns the absolute value of [n], as [abs] does,
    and it returns it as a JavaScript number, for neither operator is
    tagged with a numeric result. *)
Theorem round_returns_the_absolute_value
    (e1 : expr) (ev1 : evaluator H) (bindings : Bindings)
    (w w1 : World H) (v1 : JsVal) (x : string) :
  SparqlExpressionEvaluator H N3Util e1 = Ok ev1 ->
  ev1 bindings w = (Ok v1, w1) ->
  getLiteralValue N3Util v1 = Ok x ->
  evaluate H N3Util (EOp "round" [e1]) bindings w =
    (Ok (VNum (PrimFloat.abs (parseFloat H x))), w1)
  /\ evaluate H N3Util (EOp "abs" [e1]) bindings w =
     evaluate H N3Util (EOp "round" [e1]) bindings w.
Proof.
  intros Hc1 Hv1 Hx.
  assert (Hcv : convert_argument H N3Util (Some numeric) v1 = Ok (VNum (parseFloat H x))).
  { simpl. rewrite Hx. reflexivity. }
  unfold evaluate.
  rewrite (compile_unary "round" Fn_round e1 ev1 ltac:(vm_compute; reflexivity)
             eq_refl eq_refl Hc1).
  rewrite (compile_unary "abs" Fn_abs e1 ev1 ltac:(vm_compute; reflexivity)
             eq_refl eq_refl Hc1).
  rewrite (run_unary "round" Fn_round ev1 bindings w w1 w1 v1 _
             (Ok (VNum (PrimFloat.abs (parseFloat H x)))) Hv1 Hcv eq_refl).
  rewrite (run_unary "abs" Fn_abs ev1 bindings w w1 w1 v1 _
             (Ok (VNum (PrimFloat.abs (parseFloat H x)))) Hv1 Hcv eq_refl).
  split; reflexivity.
Qed.

(** ** Operators whose result is not converted *)

(** X10. The negation of an inequality is [XSD_FALSE] whether or not the
    two terms differ.  [!=] hands its JavaScript boolean over as it is;
    the conversion of the argument of [!] finds a value that is neither
    [XSD_FALSE] nor a literal, and takes it for true. *)
Theorem negated_inequality_is_always_false
    (e1 e2 : expr) (ev1 ev2 : evaluator H) (bindings : Bindings)
    (w w1 w2 : World H) (v1 v2 : JsVal) :
  (forall b, isLiteral N3Util (VBool b) = Ok false) ->
  SparqlExpressionEvaluator H N3Util e1 = Ok ev1 ->
  SparqlExpressionEvaluator H N3Util e2 = Ok ev2 ->
  ev1 bindings w = (Ok v1, w1) ->
  ev2 bindings w1 = (Ok v2, w2) ->
  evaluate H N3Util (EOp "!" [EOp "!=" [e1; e2]]) bindings w = (Ok (VStr XSD_FALSE), w2).
Proof.
  intros Hlit Hc1 Hc2 Hv1 Hv2.
  pose proof (compile_binary "!=" Fn_neq e1 e2 ev1 ev2 ltac:(vm_compute; reflexivity)
                eq_refl eq_refl Hc1 Hc2) as Hinner.
  assert (Hrun : operation_evaluator H N3Util "!=" Fn_neq [ev1; ev2] bindings w =
                 (Ok (VBool (negb (strict_eq v1 v2))), w2)).
  { rewrite (run_binary "!=" Fn_neq ev1 ev2 bindings w w1 w2 w2 v1 v2 v1 v2
               (Ok (VBool (negb (strict_eq v1 v2)))) Hv1 eq_refl Hv2 eq_refl eq_refl).
    reflexivity. }
  assert (Hcv : convert_argument H N3Util (operator_type "!")
                  (VBool (negb (strict_eq v1 v2))) = Ok (VBool true)).
  { change (operator_type "!") with (Some boolean). unfold convert_argument.
    simpl strict_eq. cbv iota. rewrite Hlit. reflexivity. }
  unfold evaluate.
  rewrite (compile_unary "!" Fn_not _ _ ltac:(vm_compute; reflexivity)
             eq_refl eq_refl Hinner).
  rewrite (run_unary "!" Fn_not _ bindings w w2 w2 _ _ (Ok (VBool false)) Hrun Hcv eq_refl).
  reflexivity.
Qed.

(** ** sameTerm *)

(** X11. [sameTerm] on two terms returns [XSD_TRUE] exactly when neither
    is a blank node and the two are the same string; in particular a
    blank node is not the same term as itself. *)
Theorem same_term_excludes_blank_nodes
    (e1 e2 : expr) (ev1 ev2 : evaluator H) (bindings : Bindings)
    (w w1 w2 : World H) (t1 t2 : string) (blank1 blank2 : bool) :
  SparqlExpressionEvaluator H N3Util e1 = Ok ev1 ->
  SparqlExpressionEvaluator H N3Util e2 = Ok ev2 ->
  ev1 bindings w = (Ok (VStr t1), w1) ->
  ev2 bindings w1 = (Ok (VStr t2), w2) ->
  isBlank N3Util (VStr t1) = Ok blank1 ->
  isBlank N3Util (VStr t2) = Ok blank2 ->
  exists same : bool,
    evaluate H N3Util (EOp "sameTerm" [e1; e2]) bindings w = (Ok (sentinel same), w2)
    /\ (same = true <-> blank1 = false /\ blank2 = false /\ t1 = t2).
Proof.
  intros Hc1 Hc2 Hv1 Hv2 Hb1 Hb2.
  exists (negb blank1 && negb blank2 && String.eqb t1 t2). split.
  - unfold evaluate.
    rewrite (compile_binary "sameTerm" Fn_sameTerm e1 e2 ev1 ev2
               ltac:(vm_compute; reflexivity) eq_refl eq_refl Hc1 Hc2).
    rewrite (run_binary "sameTerm" Fn_sameTerm ev1 ev2 bindings w w1 w2 w2 _ _ _ _
               (Ok (sentinel (negb blank1 && negb blank2 && String.eqb t1 t2)))
               Hv1 eq_refl Hv2 eq_refl).
    + reflexivity.
    + unfold call, lift. simpl nth. rewrite Hb1. simpl bindR.
      destruct blank1; [reflexivity|]. rewrite Hb2. simpl bindR.
      destruct blank2; reflexivity.
  - rewrite !andb_true_iff, !negb_true_iff, String.eqb_eq. tauto.
Qed.

(** ** Operators that cannot succeed *)


(** ** Strict evaluation *)

(** When the loop over the arguments completes, every argument has
    returned a value. *)
Lemma evaluate_arguments_returned (type : option tag) (evs : list (evaluator H))
    (bindings : Bindings) (w w1 : World H) (r : list JsVal * list JsVal) :
  evaluate_arguments H N3Util type evs bindings w = (Ok r, w1) ->
  Forall (fun ev => exists w0 v0 w0', ev bindings w0 = (Ok v0, w0')) evs.
Proof.
  revert w r w1. induction evs as [|ev evs IH]; intros w r w1 He; constructor;
    cbn [evaluate_arguments] in He; unfold bind in He;
    destruct (ev bindings w) as [[v|x] w0] eqn:Hev; try discriminate.
  - eauto.
  - unfold lift in He. destruct (convert_argument H N3Util type v); [|discriminate].
    destruct (evaluate_arguments H N3Util type evs bindings w0) as [[r'|x] w2] eqn:Hrest;
      [|discriminate].
    eapply IH. exact Hrest.
Qed.

(** X13. Evaluation is strict: an expression in which an unbound
    variable occurs, elsewhere than under [bound], never returns a
    value.  No operator of the table recovers from the error of an
    argument, neither [coalesce] nor [if] nor the logical connectives. *)
Theorem unbound_variable_never_yields_value
    (s : string) (e : expr) (bindings : Bindings) (w w' : World H) (v : JsVal) :
  starts_with_question_mark s = true ->
  in_bindings s bindings = false ->
  occurs_evaluated s e = true ->
  evaluate H N3Util e bindings w <> (Ok v, w').
Proof.
  intros Hq Hunbound. revert w w' v.
  induction e as [| s0 | name args IH | t] using expr_nested_ind; intros w w' v Hocc He.
  - discriminate.
  - simpl in Hocc. apply String.eqb_eq in Hocc. subst s0.
    unfold evaluate in He. simpl in He.
    destruct (String.eqb s "") eqn:Hempty.
    + apply String.eqb_eq in Hempty. subst s. discriminate.
    + unfold evaluators_string in He. rewrite Hq in He. simpl in He.
      destruct bindings as [obj|]; [|discriminate].
      simpl in Hunbound. destruct (obj !! s) eqn:Hlook; [|discriminate].
      apply bool_decide_eq_false in Hunbound. apply Hunbound. eauto.
  - simpl in Hocc. apply andb_true_iff in Hocc as [Hacc Hex].
    apply negb_true_iff in Hacc. apply existsb_exists in Hex as (a & Hin & Ha).
    unfold evaluate in He. rewrite compile_operation in He.
    unfold evaluators_operation in He.
    destruct (operators !! name) as [operator|]; [|discriminate].
    destruct (negb (Nat.eqb (fn_length operator) (length args))); [discriminate|].
    rewrite Hacc in He.
    destruct (mapR (SparqlExpressionEvaluator H N3Util) args) as [evs|x] eqn:Hm;
      simpl in He; [|discriminate].
    unfold operation_evaluator, bind in He.
    destruct (evaluate_arguments H N3Util (operator_type name) evs bindings w)
      as [[evaluated|x] w1] eqn:Hargs; [|discriminate].
    apply evaluate_arguments_returned in Hargs. apply mapR_Ok in Hm.
    clear He. induction Hm as [|a0 ev0 l evl Ha0 Hl IHl]; [destruct Hin|].
    apply List.Forall_cons_iff in IH as [IHa IHrest].
    apply List.Forall_cons_iff in Hargs as [(w0 & v0 & w0' & Hev0) Hrest].
    destruct Hin as [-> | Hin].
    + apply (IHa w0 w0' v0 Ha). unfold evaluate. rewrite Ha0. exact Hev0.
    + apply IHl; assumption.
  - discriminate.
Qed.

(** ** Variables and their values *)

(** Argument evaluators that agree give the same arguments. *)
Lemma evaluate_arguments_agree (type : option tag) (evs' evs : list (evaluator H))
    (bindings : Bindings) :
  Forall2 (fun ev' ev => forall w, ev' bindings w = ev bindings w) evs' evs ->
  forall w, evaluate_arguments H N3Util type evs' bindings w =
            evaluate_arguments H N3Util type evs bindings w.
Proof.
  induction 1 as [|ev' ev l' l Hev Hl IH]; intros w; [reflexivity|].
  cbn [evaluate_arguments]. unfold bind. rewrite Hev.
  destruct (ev bindings w) as [[v|x] w0]; [|reflexivity].
  destruct (lift (convert_argument H N3Util type v) w0) as [[c|x] w1]; [|reflexivity].
  rewrite IH. reflexivity.
Qed.

Lemma agree_refl (bindings : Bindings) (r : Result (evaluator H)) : agree bindings r r.
Proof. destruct r; simpl; auto. Qed.

(** Compiling the substituted expression agrees with compiling the
    expression, on the bindings substituted. *)
Lemma substitute_compile (obj : gmap string string) (e : expr) :
  (forall name value, obj !! name = Some value ->
     value <> "" /\ starts_with_question_mark value = false) ->
  agree (Some obj) (SparqlExpressionEvaluator H N3Util (substitute obj e))
                   (SparqlExpressionEvaluator H N3Util e).
Proof.
  intros Hterms.
  induction e as [| s | name args IH | t] using expr_nested_ind;
    try apply agree_refl.
  - cbn [substitute]. destruct (starts_with_question_mark s) eqn:Hq; [|apply agree_refl].
    destruct (obj !! s) as [value|] eqn:Hlook; [|apply agree_refl].
    destruct (Hterms s value Hlook) as [Hne Hnq].
    simpl. apply String.eqb_neq in Hne. rewrite Hne.
    destruct (String.eqb s "") eqn:Hempty.
    { apply String.eqb_eq in Hempty. subst s. discriminate. }
    simpl. intros w. unfold evaluators_string. rewrite Hq, Hnq. simpl.
    rewrite Hlook. reflexivity.
  - cbn [substitute]. destruct (acceptsExpressions name) eqn:Hacc; [apply agree_refl|].
    rewrite !compile_operation. unfold evaluators_operation.
    destruct (operators !! name) as [operator|]; [|reflexivity].
    rewrite length_map.
    destruct (negb (Nat.eqb (fn_length operator) (length args))); [reflexivity|].
    rewrite Hacc.
    assert (Hargs :
      match mapR (SparqlExpressionEvaluator H N3Util) (map (substitute obj) args),
            mapR (SparqlExpressionEvaluator H N3Util) args with
      | Ok evs', Ok evs =>
          Forall2 (fun ev' ev => forall w, ev' (Some obj) w = ev (Some obj) w) evs' evs
      | Err x', Err x => x' = x
      | _, _ => False
      end).
    { clear - IH. induction IH as [|a l Ha Hl IHl]; simpl; [constructor|].
      unfold agree in Ha.
      destruct (SparqlExpressionEvaluator H N3Util (substitute obj a)) as [ev'|x'],
               (SparqlExpressionEvaluator H N3Util a) as [ev|x]; try contradiction;
        [|exact Ha].
      destruct (mapR (SparqlExpressionEvaluator H N3Util) (map (substitute obj) l))
        as [evs'|y'],
        (mapR (SparqlExpressionEvaluator H N3Util) l) as [evs|y]; try contradiction;
        [constructor; assumption | exact IHl]. }
    destruct (mapR (SparqlExpressionEvaluator H N3Util) (map (substitute obj) args))
      as [evs'|x'],
      (mapR (SparqlExpressionEvaluator H N3Util) args) as [evs|x]; try contradiction;
      simpl; [|exact Hargs].
    intros w. unfold operation_evaluator, bind.
    rewrite (evaluate_arguments_agree _ evs' evs (Some obj) Hargs). reflexivity.
Qed.

(** X14. A variable stands for its value: when the bindings map
    variables to terms (strings that are neither empty nor variables),
    evaluating an expression gives what evaluating it with each bound
    variable replaced by its value gives, the same value or the same
    error, and leaves the same state.  Arguments of [bound] are not
    replaced. *)
Theorem bound_variables_stand_for_their_values
    (obj : gmap string string) (e : expr) (w : World H) :
  (forall name value, obj !! name = Some value ->
     value <> "" /\ starts_with_question_mark value = false) ->
  evaluate H N3Util (substitute obj e) (Some obj) w =
  evaluate H N3Util e (Some obj) w.
Proof.
  intros Hterms. pose proof (substitute_compile obj e Hterms) as Hagree.
  unfold evaluate, agree in *.
  destruct (SparqlExpressionEvaluator H N3Util (substitute obj e)) as [ev'|x'],
           (SparqlExpressionEvaluator H N3Util e) as [ev|x]; try contradiction.
  - apply Hagree.
  - rewrite Hagree. reflexivity.
Qed.

(** ** Operations of three arguments *)

Lemma run_ternary (operatorName : string) (operator : fn) (ev1 ev2 ev3 : evaluator H)
    (bindings : Bindings) (w w1 w2 w3 w4 : World H) (v1 v2 v3 c1 c2 c3 : JsVal)
    (r : Result JsVal) :
  ev1 bindings w = (Ok v1, w1) ->
  convert_argument H N3Util (operator_type operatorName) v1 = Ok c1 ->
  ev2 bindings w1 = (Ok v2, w2) ->
  convert_argument H N3Util (operator_type operatorName) v2 = Ok c2 ->
  ev3 bindings w2 = (Ok v3, w3) ->
  convert_argument H N3Util (operator_type operatorName) v3 = Ok c3 ->
  call H N3Util operator [c1; c2; c3] w3 = (r, w4) ->
  operation_evaluator H N3Util operatorName operator [ev1; ev2; ev3] bindings w =
  (bindR r (fun result =>
     convert_result H N3Util (operator_resultType operatorName) result [v1; v2; v3]), w4).
Proof.
  intros Hv1 Hc1 Hv2 Hc2 Hv3 Hc3 Hcall.
  unfold operation_evaluator, bind, evaluate_arguments, bind.
  rewrite Hv1. unfold lift. rewrite Hc1. rewrite Hv2. rewrite Hc2. rewrite Hv3. rewrite Hc3.
  unfold ret. simpl fst. simpl snd. rewrite Hcall. destruct r; reflexivity.
Qed.

Lemma compile_ternary (operatorName : string) (operator : fn) (e1 e2 e3 : expr)
    (ev1 ev2 ev3 : evaluator H) :
  operators !! operatorName = Some operator ->
  fn_length operator = 3%nat ->
  acceptsExpressions operatorName = false ->
  SparqlExpressionEvaluator H N3Util e1 = Ok ev1 ->
  SparqlExpressionEvaluator H N3Util e2 = Ok ev2 ->
  SparqlExpressionEvaluator H N3Util e3 = Ok ev3 ->
  SparqlExpressionEvaluator H N3Util (EOp operatorName [e1; e2; e3]) =
  Ok (operation_evaluator H N3Util operatorName operator [ev1; ev2; ev3]).
Proof.
  intros Hop Hlen Hacc Hc1 Hc2 Hc3. apply compile_evaluated_operation; auto.
  simpl. rewrite Hc1, Hc2, Hc3. reflexivity.
Qed.

(** ** Substrings *)



(** [substr(NaN, NaN)] is empty. *)
Lemma substr_int_zero (s : string) : substr_int s (Fin 0) (Fin 0) = "".
Proof.
  unfold substr_int. pose proof (strlen_nonneg s) as Hs.
  replace (if 0 <? 0 then Z.max (strlen s + 0) 0 else Z.min 0 (strlen s)) with 0
    by (simpl; lia).
  replace (Z.max 0 (Z.min 0 (strlen s))) with 0 by lia.
  replace (Z.min (0 + 0) (strlen s) - 0) with 0 by lia.
  destruct s; reflexivity.
Qed.


(** X16. [substr] is in no list of numeric arguments: its positions
    reach [String.prototype.substr] as encoded terms.  When neither
    converts to a number, as is the case of every literal, whose
    encoding starts with a quote, the substring taken is empty whatever
    the first lexical value is. *)
Theorem substr_at_literal_positions_is_empty
    (e1 e2 e3 : expr) (ev1 ev2 ev3 : evaluator H) (bindings : Bindings)
    (w w1 w2 w3 : World H) (v1 : JsVal) (t2 t3 x : string) :
  SparqlExpressionEvaluator H N3Util e1 = Ok ev1 ->
  SparqlExpressionEvaluator H N3Util e2 = Ok ev2 ->
  SparqlExpressionEvaluator H N3Util e3 = Ok ev3 ->
  ev1 bindings w = (Ok v1, w1) ->
  ev2 bindings w1 = (Ok (VStr t2), w2) ->
  ev3 bindings w2 = (Ok (VStr t3), w3) ->
  getLiteralValue N3Util v1 = Ok x ->
  StringToNumber H t2 = PrimFloat.nan ->
  StringToNumber H t3 = PrimFloat.nan ->
  evaluate H N3Util (EOp "substr" [e1; e2; e3]) bindings w =
  (constructLiteral H N3Util "" v1, w3).
Proof.
  intros Hc1 Hc2 Hc3 Hv1 Hv2 Hv3 Hx Hn2 Hn3.
  unfold evaluate.
  rewrite (compile_ternary "substr" Fn_substr e1 e2 e3 ev1 ev2 ev3
             ltac:(vm_compute; reflexivity) eq_refl eq_refl Hc1 Hc2 Hc3).
  rewrite (run_ternary "substr" Fn_substr ev1 ev2 ev3 bindings w w1 w2 w3 w3 _ _ _ _ _ _
             (constructLiteral H N3Util "" v1) Hv1 eq_refl Hv2 eq_refl Hv3 eq_refl).
  - destruct (constructLiteral H N3Util "" v1); reflexivity.
  - unfold call, lift. simpl nth. rewrite Hx. simpl bindR.
    unfold js_substr. simpl ToNumber. rewrite Hn2, Hn3.
    replace (ToIntegerOrInfinity PrimFloat.nan) with (Fin 0) by reflexivity.
    rewrite substr_int_zero. reflexivity.
Qed.

(** ** Functions on terms *)

(** X17. [iri] returns its argument when the collaborator classifies it
    as an IRI and fails on every other term: the test for a string
    literal reads a name that is bound nowhere, so no literal is ever
    turned into an IRI. *)
Theorem iri_accepts_only_iris
    (e1 : expr) (ev1 : evaluator H) (bindings : Bindings)
    (w w1 : World H) (v1 : JsVal) (uri : bool) :
  SparqlExpressionEvaluator H N3Util e1 = Ok ev1 ->
  ev1 bindings w = (Ok v1, w1) ->
  isUri N3Util v1 = Ok uri ->
  evaluate H N3Util (EOp "iri" [e1]) bindings w =
  (if uri then Ok v1 else Err (ReferenceError "a"), w1).
Proof.
  intros Hc1 Hv1 Hu.
  unfold evaluate.
  rewrite (compile_unary "iri" Fn_iri e1 ev1 ltac:(vm_compute; reflexivity)
             eq_refl eq_refl Hc1).
  rewrite (run_unary "iri" Fn_iri ev1 bindings w w1 w1 v1 v1
             (if uri then Ok v1 else Err (ReferenceError "a")) Hv1 eq_refl).
  - destruct uri; reflexivity.
  - unfold call, lift. simpl nth. rewrite Hu. destruct uri; reflexivity.
Qed.

(** X18. [uri] is not an operator.  Its entry in the table is
    [this.iri], read while the table is being built, which is
    [undefined]: an operation named [uri] is refused as unsupported,
    whatever its arguments. *)
Theorem uri_is_not_an_operator (args : list expr) (bindings : Bindings) (w : World H) :
  operators !! "uri" = None
  /\ evaluate H N3Util (EOp "uri" args) bindings w = (Err (UnsupportedOperator "uri"), w).
Proof.
  assert (Hop : operators !! "uri" = None) by (vm_compute; reflexivity).
  split; [exact Hop|].
  unfold evaluate. rewrite compile_operation. unfold evaluators_operation.
  rewrite Hop. reflexivity.
Qed.

(** [Array.prototype.indexOf] returns the first position at which the
    element is found, or [-1] when it is nowhere in the array. *)
Lemma array_indexOf_from_spec (l : list string) (x : string) (i : Z) :
  0 <= i ->
  (array_indexOf_from i l x = -1 /\ ~ In x l)
  \/ (i <= array_indexOf_from i l x < i + Z.of_nat (length l)
      /\ nth_error l (Z.to_nat (array_indexOf_from i l x - i)) = Some x
      /\ forall j, (j < Z.to_nat (array_indexOf_from i l x - i))%nat ->
                   nth_error l j <> Some x).
Proof.
  revert i. induction l as [|y l IH]; intros i Hi; cbn [array_indexOf_from].
  - left. auto.
  - destruct (String.eqb y x) eqn:Hyx.
    + right. apply String.eqb_eq in Hyx. subst y.
      replace (i - i) with 0 by lia. cbn [length]. split; [lia|].
      split; [reflexivity|]. intros j Hj. simpl in Hj. lia.
    + apply String.eqb_neq in Hyx.
      destruct (IH (i + 1) ltac:(lia)) as [[Hidx Hnot] | (Hidx & Hnth & Hfirst)].
      * left. split; [exact Hidx|]. intros [Heq | Hin]; auto.
      * right. cbn [length].
        replace (Z.to_nat (array_indexOf_from (i + 1) l x - i))
          with (S (Z.to_nat (array_indexOf_from (i + 1) l x - (i + 1)))) by lia.
        split; [lia|]. split; [exact Hnth|].
        intros [|j] Hj; simpl.
        -- congruence.
        -- apply Hfirst. lia.
Qed.

(** X19. [isnumeric] returns a JavaScript number, never one of the two
    constants: the position of the datatype of its argument in the
    array of the sixteen numeric datatypes, counted from [0] (so [0]
    for [xsd:integer] and [15] for [xsd:positiveInteger]), or [-1] when
    the datatype is not one of them. *)
Theorem isnumeric_returns_a_position
    (e1 : expr) (ev1 : evaluator H) (bindings : Bindings)
    (w w1 : World H) (v1 : JsVal) (type : string) :
  SparqlExpressionEvaluator H N3Util e1 = Ok ev1 ->
  ev1 bindings w = (Ok v1, w1) ->
  getLiteralType N3Util v1 = Ok type ->
  exists position : Z,
    evaluate H N3Util (EOp "isnumeric" [e1]) bindings w =
      (Ok (VNum (float_of_Z position)), w1)
    /\ ((position = -1 /\ ~ In type numeric_types)
        \/ (0 <= position < 16
            /\ nth_error numeric_types (Z.to_nat position) = Some type
            /\ forall j, (j < Z.to_nat position)%nat ->
                         nth_error numeric_types j <> Some type))
    /\ nth_error numeric_types 0 = Some (XSD +:+ "integer")
    /\ nth_error numeric_types 15 = Some (XSD +:+ "positiveInteger").
Proof.
  intros Hc1 Hv1 Ht.
  exists (array_indexOf numeric_types type). split; [|split; [|split; reflexivity]].
  - unfold evaluate.
    rewrite (compile_unary "isnumeric" Fn_isnumeric e1 ev1 ltac:(vm_compute; reflexivity)
               eq_refl eq_refl Hc1).
    rewrite (run_unary "isnumeric" Fn_isnumeric ev1 bindings w w1 w1 v1 v1
               (Ok (VNum (float_of_Z (array_indexOf numeric_types type)))) Hv1 eq_refl).
    + reflexivity.
    + unfold call, lift. simpl nth. rewrite Ht. reflexivity.
  - unfold array_indexOf.
    destruct (array_indexOf_from_spec numeric_types type 0 ltac:(lia))
      as [Hn | (Hr & Hnth & Hfirst)]; [left; exact Hn | right].
    rewrite Z.sub_0_r in Hnth, Hfirst.
    split; [|split; [exact Hnth | exact Hfirst]].
    change (Z.of_nat (length numeric_types)) with 16 in Hr. lia.
Qed.

(** ** The constructor of doubles *)

(** X20. The constructor [xsd:double] parses the lexical value of its
    argument, prints the number with [toFixed()], that is with no
    fraction digit, and appends [.0] when the text has no decimal point:
    the lexical form of the literal it returns always holds a decimal
    point, and the literal carries the datatype [xsd:double]. *)
Theorem xsd_double_has_a_decimal_point
    (e1 : expr) (ev1 : evaluator H) (bindings : Bindings)
    (w w1 : World H) (v1 : JsVal) (x : string) :
  SparqlExpressionEvaluator H N3Util e1 = Ok ev1 ->
  ev1 bindings w = (Ok v1, w1) ->
  getLiteralValue N3Util v1 = Ok x ->
  exists lexicalForm,
    evaluate H N3Util (EOp (XSD +:+ "double") [e1]) bindings w =
      (Ok (VStr (typed lexicalForm (XSD +:+ "double"))), w1)
    /\ (lexicalForm = Number_toFixed H (parseFloat H x)
        \/ lexicalForm = Number_toFixed H (parseFloat H x) +:+ ".0")
    /\ exists p r, lexicalForm = p +:+ "." +:+ r.
Proof.
  intros Hc1 Hv1 Hx.
  set (fixed := Number_toFixed H (parseFloat H x)).
  exists (if indexOf fixed "." <? 0 then fixed +:+ ".0" else fixed).
  split; [|split].
  - assert (Htype : operator_type (XSD +:+ "double") = Some numeric)
      by (vm_compute; reflexivity).
    assert (Hres : operator_resultType (XSD +:+ "double") = None)
      by (vm_compute; reflexivity).
    assert (Hcv : convert_argument H N3Util (operator_type (XSD +:+ "double")) v1 =
                  Ok (VNum (parseFloat H x))).
    { rewrite Htype. simpl. rewrite Hx. reflexivity. }
    unfold evaluate.
    rewrite (compile_unary (XSD +:+ "double") (Fn_xsd "double") e1 ev1
               ltac:(vm_compute; reflexivity) eq_refl ltac:(vm_compute; reflexivity) Hc1).
    rewrite (run_unary (XSD +:+ "double") (Fn_xsd "double") ev1 bindings w w1 w1 v1 _
               (Ok (VStr (typed (if indexOf fixed "." <? 0 then fixed +:+ ".0" else fixed)
                                (XSD +:+ "double"))))
               Hv1 Hcv eq_refl).
    rewrite Hres. reflexivity.
  - destruct (indexOf fixed "." <? 0); auto.
  - destruct (indexOf fixed "." <? 0) eqn:Hneg.
    + exists fixed, "0". reflexivity.
    + apply indexOf_found_iff. apply Z.ltb_ge in Hneg. apply Z.ltb_lt. lia.
Qed.

(** ** Case conversion *)

(** X21. [ucase] and [lcase] keep the language tag: on a literal with
    lexical value [x] and language tag [language] they return the
    literal made of the converted value and the same tag. *)
Theorem case_conversion_keeps_the_language_tag
    (e1 : expr) (ev1 : evaluator H) (bindings : Bindings)
    (w w1 : World H) (v1 : JsVal) (x language type : string) :
  SparqlExpressionEvaluator H N3Util e1 = Ok ev1 ->
  ev1 bindings w = (Ok v1, w1) ->
  getLiteralValue N3Util v1 = Ok x ->
  getLiteralLanguage N3Util v1 = Ok language ->
  getLiteralType N3Util v1 = Ok type ->
  language <> "" ->
  evaluate H N3Util (EOp "ucase" [e1]) bindings w =
    (Ok (VStr (tagged (toUpperCase H x) language)), w1)
  /\ evaluate H N3Util (EOp "lcase" [e1]) bindings w =
     (Ok (VStr (tagged (toLowerCase H x) language)), w1).
Proof.
  intros Hc1 Hv1 Hx Hl Ht Hne.
  assert (Hcons : forall lexicalForm,
            constructLiteral H N3Util lexicalForm v1 = Ok (VStr (tagged lexicalForm language))).
  { intros lexicalForm. unfold constructLiteral. rewrite Hl, Ht. simpl bindR.
    apply String.eqb_neq in Hne. rewrite Hne. reflexivity. }
  unfold evaluate. split.
  - rewrite (compile_unary "ucase" Fn_ucase e1 ev1 ltac:(vm_compute; reflexivity)
               eq_refl eq_refl Hc1).
    rewrite (run_unary "ucase" Fn_ucase ev1 bindings w w1 w1 v1 v1
               (Ok (VStr (tagged (toUpperCase H x) language))) Hv1 eq_refl).
    + reflexivity.
    + unfold call, lift. simpl nth. rewrite Hx. simpl bindR. rewrite Hcons. reflexivity.
  - rewrite (compile_unary "lcase" Fn_lcase e1 ev1 ltac:(vm_compute; reflexivity)
               eq_refl eq_refl Hc1).
    rewrite (run_unary "lcase" Fn_lcase ev1 bindings w w1 w1 v1 v1
               (Ok (VStr (tagged (toLowerCase H x) language))) Hv1 eq_refl).
    + reflexivity.
    + unfold call, lift. simpl nth. rewrite Hx. simpl bindR. rewrite Hcons. reflexivity.
Qed.

(** ** The tagging loops *)

(** X22. Every name the five tagging statements write to is a key of
    the operator table, so that none of them writes a property of
    [undefined] when the module is loaded. *)
Theorem tagged_operators_are_in_the_table :
  Forall (fun operatorName => is_Some (operators !! operatorName))
    (numeric_argument_names ++ boolean_argument_names ++ numeric_result_names
     ++ boolean_result_names ++ ["bound"]).
Proof.
  apply (bool_decide_unpack _). vm_compute. reflexivity.
Qed.

(** ** Operators that return the constants themselves *)

(** X23. Besides the operators tagged with a boolean result, the tests
    [isiri], [isblank], [isliteral], [sameTerm], [strends], [contains]
    and [bound] return one of the two constants [XSD_TRUE] and
    [XSD_FALSE] whenever they return. *)
Theorem truth_valued_operators_return_constants
    (operatorName : string) (args : list expr)
    (bindings : Bindings) (w w' : World H) (v : JsVal) :
  operatorName ∈ (boolean_result_names
                  ++ ["isiri"; "isblank"; "isliteral"; "sameTerm"; "strends";
                      "contains"; "bound"])%list ->
  evaluate H N3Util (EOp operatorName args) bindings w = (Ok v, w') ->
  v = VStr XSD_TRUE \/ v = VStr XSD_FALSE.
Proof.
  intros Hin He. apply elem_of_app in Hin as [Hin | Hin].
  - apply (boolean_result_is_sentinel H N3Util operatorName args bindings w w' v);
      [|exact He].
    unfold boolean_result_names in Hin.
    repeat (apply elem_of_cons in Hin as [-> | Hin]; [reflexivity|]). inversion Hin.
  - assert (Hsent : forall b, sentinel b = VStr XSD_TRUE \/ sentinel b = VStr XSD_FALSE)
      by (intros [|]; auto).
    assert (Hcases : operatorName = "bound" \/
                     operatorName ∈ ["isiri"; "isblank"; "isliteral"; "sameTerm";
                                     "strends"; "contains"]).
    { repeat (apply elem_of_cons in Hin as [-> | Hin];
              [right; apply (bool_decide_unpack _); vm_compute; reflexivity|]).
      apply elem_of_cons in Hin as [-> | Hin]; [left; reflexivity | inversion Hin]. }
    destruct Hcases as [-> | Hin'].
    + unfold evaluate in He. rewrite compile_operation in He.
      unfold evaluators_operation in He.
      replace (operators !! "bound") with (Some Fn_bound) in He by (vm_compute; reflexivity).
      destruct (negb (Nat.eqb (fn_length Fn_bound) (length args))); [discriminate|].
      change (acceptsExpressions "bound") with true in He. cbv iota in He.
      unfold operators_bound in He.
      destruct (nth 0 args ENull) as [| s | |]; try discriminate.
      destruct (negb (starts_with_question_mark s)); [discriminate|].
      injection He as <- _. apply Hsent.
    + assert (Hacc : acceptsExpressions operatorName = false).
      { repeat (apply elem_of_cons in Hin' as [-> | Hin']; [reflexivity|]). inversion Hin'. }
      assert (Hres : operator_resultType operatorName = None).
      { repeat (apply elem_of_cons in Hin' as [-> | Hin']; [reflexivity|]). inversion Hin'. }
      unfold evaluate in He. rewrite compile_operation in He.
      unfold evaluators_operation in He.
      destruct (operators !! operatorName) as [operator|] eqn:Hop; [|discriminate].
      destruct (negb (Nat.eqb (fn_length operator) (length args))); [discriminate|].
      rewrite Hacc in He.
      destruct (mapR (SparqlExpressionEvaluator H N3Util) args) as [evs|x]; simpl in He;
        [|discriminate].
      unfold operation_evaluator, bind in He. rewrite Hres in He.
      destruct (evaluate_arguments H N3Util (operator_type operatorName) evs bindings w)
        as [[evaluated|x] w1]; [|discriminate].
      destruct (call H N3Util operator (fst evaluated) w1) as [[result|x] w2] eqn:Hcall;
        [|discriminate].
      unfold lift in He. simpl in He. injection He as <- _.
      set (a := nth 0 (fst evaluated) VUndef) in *.
      set (b := nth 1 (fst evaluated) VUndef) in *.
      repeat (apply elem_of_cons in Hin' as [-> | Hin'];
              [vm_compute in Hop; injection Hop as <-;
               unfold call, lift in Hcall; fold a in Hcall; fold b in Hcall|]);
        [| | | | | |inversion Hin'].
      * destruct (isUri N3Util a); simpl in Hcall; [|discriminate].
        injection Hcall as <- _. apply Hsent.
      * destruct (isBlank N3Util a); simpl in Hcall; [|discriminate].
        injection Hcall as <- _. apply Hsent.
      * destruct (isLiteral N3Util a); simpl in Hcall; [|discriminate].
        injection Hcall as <- _. apply Hsent.
      * destruct (isBlank N3Util a) as [[|]|]; simpl in Hcall; try discriminate.
        -- injection Hcall as <- _. apply Hsent.
        -- destruct (isBlank N3Util b) as [[|]|]; simpl in Hcall; try discriminate;
             injection Hcall as <- _; apply Hsent.
      * destruct (compatibleArguments N3Util a b) as [[|]|]; simpl in Hcall;
          try discriminate.
        destruct (getLiteralValue N3Util a); simpl in Hcall; [|discriminate].
        destruct (getLiteralValue N3Util b); simpl in Hcall; [|discriminate].
        injection Hcall as <- _. apply Hsent.
      * destruct (compatibleArguments N3Util a b) as [[|]|]; simpl in Hcall;
          try discriminate.
        destruct (getLiteralValue N3Util a); simpl in Hcall; [|discriminate].
        destruct (getLiteralValue N3Util b); simpl in Hcall; [|discriminate].
        injection Hcall as <- _. apply Hsent.
Qed.

(** ** The two constants and the boolean literals

    The constants [XSD_TRUE] and [XSD_FALSE] are built from the second
    value given to [XSD_BOOLEAN]: they are the literals of datatype
    [xsd:string], not the boolean literals [typed "true" xsd_boolean]
    and [typed "false" xsd_boolean]. *)

Lemma constants_are_string_typed :
  XSD_TRUE = typed "true" xsd_string /\ XSD_FALSE = typed "false" xsd_string
  /\ typed "true" xsd_string <> typed "true" xsd_boolean
  /\ typed "false" xsd_string <> typed "false" xsd_boolean.
Proof.
  split; [reflexivity|]. split; [reflexivity|].
  split; intros Heq; vm_compute in Heq; discriminate Heq.
Qed.

(** A constant term evaluates to itself. *)
Lemma constant_term (t : string) (bindings : Bindings) (w : World H) :
  t <> "" -> starts_with_question_mark t = false ->
  SparqlExpressionEvaluator H N3Util (EStr t) = Ok (evaluators_string H t)
  /\ evaluators_string H t bindings w = (Ok (VStr t), w).
Proof.
  intros Hne Hq. apply String.eqb_neq in Hne. split.
  - simpl. rewrite Hne. reflexivity.
  - unfold evaluators_string. rewrite Hq. reflexivity.
Qed.

(** C4 (the code departs from it).  The boolean literal
    [typed "false" xsd_boolean] is not the constant the conversion
    compares its argument with, and its lexical value is not the
    one-character string 0: the conversion applied to the arguments of
    [!], [&&] and [||] maps it to [true].  Its negation is the constant
    for false, and its conjunction and its disjunction with itself are
    the constant for true.  Conversely the literal
    [typed "false" xsd_string], which is not the boolean literal and
    whose lexical value is not 0 either, is mapped to [false]: its
    negation is the constant for true.  The hypotheses say that the
    collaborator takes the boolean literal for a literal of lexical
    value [false]. *)
Theorem false_literal_converts_to_true (bindings : Bindings) (w : World H) :
  isLiteral N3Util (VStr (typed "false" xsd_boolean)) = Ok true ->
  getLiteralValue N3Util (VStr (typed "false" xsd_boolean)) = Ok "false" ->
  convert_argument H N3Util (operator_type "!") (VStr (typed "false" xsd_boolean)) =
    Ok (VBool true)
  /\ evaluate H N3Util (EOp "!" [EStr (typed "false" xsd_boolean)]) bindings w =
     (Ok (VStr (typed "false" xsd_string)), w)
  /\ evaluate H N3Util
       (EOp "&&" [EStr (typed "false" xsd_boolean); EStr (typed "false" xsd_boolean)])
       bindings w =
     (Ok (VStr (typed "true" xsd_string)), w)
  /\ evaluate H N3Util
       (EOp "||" [EStr (typed "false" xsd_boolean); EStr (typed "false" xsd_boolean)])
       bindings w =
     (Ok (VStr (typed "true" xsd_string)), w)
  /\ evaluate H N3Util (EOp "!" [EStr (typed "false" xsd_string)]) bindings w =
     (Ok (VStr (typed "true" xsd_string)), w)
  /\ typed "false" xsd_string <> typed "false" xsd_boolean.
Proof.
  intros Hlit Hval.
  set (t := typed "false" xsd_boolean) in *.
  assert (Hcv : forall operatorName,
            operator_type operatorName = Some boolean ->
            convert_argument H N3Util (operator_type operatorName) (VStr t) =
            Ok (VBool true)).
  { intros operatorName ->. unfold convert_argument.
    replace (strict_eq (VStr t) (VStr XSD_FALSE)) with false by (vm_compute; reflexivity).
    rewrite Hlit. simpl bindR. cbv iota. simpl negb. cbv iota.
    rewrite Hval. reflexivity. }
  destruct (constant_term t bindings w ltac:(discriminate) eq_refl) as [Hc Hv].
  destruct (constant_term (typed "false" xsd_string) bindings w ltac:(discriminate) eq_refl)
    as [Hc' Hv'].
  split; [apply Hcv; reflexivity|].
  unfold evaluate. split; [|split; [|split; [|split]]].
  - rewrite (compile_unary "!" Fn_not _ _ ltac:(vm_compute; reflexivity)
               eq_refl eq_refl Hc).
    rewrite (run_unary "!" Fn_not _ bindings w w w _ _ (Ok (VBool false))
               Hv (Hcv "!" eq_refl) eq_refl).
    reflexivity.
  - rewrite (compile_binary "&&" Fn_and _ _ _ _ ltac:(vm_compute; reflexivity)
               eq_refl eq_refl Hc Hc).
    rewrite (run_binary "&&" Fn_and _ _ bindings w w w w _ _ _ _ (Ok (VBool true))
               Hv (Hcv "&&" eq_refl) Hv (Hcv "&&" eq_refl) eq_refl).
    reflexivity.
  - rewrite (compile_binary "||" Fn_or _ _ _ _ ltac:(vm_compute; reflexivity)
               eq_refl eq_refl Hc Hc).
    rewrite (run_binary "||" Fn_or _ _ bindings w w w w _ _ _ _ (Ok (VBool true))
               Hv (Hcv "||" eq_refl) Hv (Hcv "||" eq_refl) eq_refl).
    reflexivity.
  - rewrite (compile_unary "!" Fn_not _ _ ltac:(vm_compute; reflexivity)
               eq_refl eq_refl Hc').
    rewrite (run_unary "!" Fn_not _ bindings w w w _ (VBool false) (Ok (VBool true))
               Hv' eq_refl eq_refl).
    reflexivity.
  - apply constants_are_string_typed.
Qed.

(** C6 (the code departs from it).  [BOUND] applied to a variable
    raises nothing and answers by the bindings, but what it returns is
    the literal [true] or [false] of datatype [xsd:string], which is not
    the boolean literal of the same lexical value. *)
Theorem bound_returns_string_typed_literals
    (x : string) (bindings : Bindings) (w : World H) :
  starts_with_question_mark x = true ->
  evaluate H N3Util (EOp "bound" [EStr x]) bindings w =
    (Ok (VStr (typed (if in_bindings x bindings then "true" else "false") xsd_string)), w)
  /\ typed "true" xsd_string <> typed "true" xsd_boolean
  /\ typed "false" xsd_string <> typed "false" xsd_boolean.
Proof.
  intros Hq. split; [|apply constants_are_string_typed].
  unfold evaluate. rewrite compile_bound. unfold operators_bound. simpl.
  rewrite Hq. simpl. unfold ret, sentinel.
  destruct (in_bindings x bindings); reflexivity.
Qed.

(** C10 (the code departs from it).  [=] compares the two evaluated
    terms as strings, so literals that denote the same value under
    different encodings are found different; but what it returns for
    different terms is the literal [false] of datatype [xsd:string],
    which is not the boolean literal [typed "false" xsd_boolean], and
    for equal terms the literal [true] of the same datatype. *)
Theorem equality_returns_string_typed_literals
    (e1 e2 : expr) (ev1 ev2 : evaluator H) (bindings : Bindings)
    (w w1 w2 : World H) (t1 t2 : string) :
  SparqlExpressionEvaluator H N3Util e1 = Ok ev1 ->
  SparqlExpressionEvaluator H N3Util e2 = Ok ev2 ->
  ev1 bindings w = (Ok (VStr t1), w1) ->
  ev2 bindings w1 = (Ok (VStr t2), w2) ->
  evaluate H N3Util (EOp "=" [e1; e2]) bindings w =
    (Ok (VStr (typed (if String.eqb t1 t2 then "true" else "false") xsd_string)), w2)
  /\ (t1 <> t2 ->
      evaluate H N3Util (EOp "=" [e1; e2]) bindings w =
      (Ok (VStr (typed "false" xsd_string)), w2))
  /\ typed "false" xsd_string <> typed "false" xsd_boolean.
Proof.
  intros Hc1 Hc2 Hv1 Hv2.
  assert (Heval : evaluate H N3Util (EOp "=" [e1; e2]) bindings w =
            (Ok (VStr (typed (if String.eqb t1 t2 then "true" else "false") xsd_string)),
             w2)).
  { unfold evaluate.
    rewrite (compile_binary "=" Fn_eq e1 e2 ev1 ev2 ltac:(vm_compute; reflexivity)
               eq_refl eq_refl Hc1 Hc2).
    rewrite (run_binary "=" Fn_eq ev1 ev2 bindings w w1 w2 w2 _ _ _ _
               (Ok (VBool (String.eqb t1 t2))) Hv1 eq_refl Hv2 eq_refl eq_refl).
    destruct (String.eqb t1 t2); reflexivity. }
  split; [exact Heval|]. split; [|apply constants_are_string_typed].
  intros Hne. rewrite Heval. apply String.eqb_neq in Hne. rewrite Hne. reflexivity.
Qed.

End FurtherProperties.

(** X1 at an operation whose operator is not in the table. *)
Lemma compile_errors_are_static_witness :
  free_of_inherited_names (EOp "xor" []) = true
  /\ SparqlExpressionEvaluator Reference.host Reference.N3Util (EOp "xor" []) =
     Err (UnsupportedOperator "xor")
  /\ ((exists expressionType,
         UnsupportedOperator "xor" = UnsupportedExpressionType expressionType
         /\ expressionType <> ""
         /\ mem expressionType (evaluators_names ++ Object_prototype_names) = false)
      \/ (exists operatorName,
            UnsupportedOperator "xor" = UnsupportedOperator operatorName
            /\ operators !! operatorName = None
            /\ mem operatorName Object_prototype_names = false)
      \/ (exists operatorName operator given,
            UnsupportedOperator "xor" =
              InvalidNumberOfArguments operatorName given (fn_length operator)
            /\ operators !! operatorName = Some operator
            /\ given <> fn_length operator)).
Proof.
  assert (Hfree : free_of_inherited_names (EOp "xor" []) = true) by reflexivity.
  assert (Hc : SparqlExpressionEvaluator Reference.host Reference.N3Util (EOp "xor" []) =
               Err (UnsupportedOperator "xor")) by (vm_compute; reflexivity).
  split; [exact Hfree|]. split; [exact Hc|].
  exact (compile_errors_are_static Reference.host Reference.N3Util _ _ Hfree Hc).
Defined.

(** X2 at the literals 1 and 0: the first converts to [true], the
    second to [false]. *)
Lemma logical_operators_follow_truth_tables_witness :
  evaluate Reference.host Reference.N3Util (EOp "&&" [EStr (lit "1"); EStr (lit "0")])
    None Reference.world0 = (Ok (VStr XSD_FALSE), Reference.world0)
  /\ evaluate Reference.host Reference.N3Util (EOp "||" [EStr (lit "1"); EStr (lit "0")])
       None Reference.world0 = (Ok (VStr XSD_TRUE), Reference.world0)
  /\ evaluate Reference.host Reference.N3Util (EOp "!" [EStr (lit "1")])
       None Reference.world0 = (Ok (VStr XSD_FALSE), Reference.world0).
Proof.
  apply (logical_operators_follow_truth_tables Reference.host Reference.N3Util
           (EStr (lit "1")) (EStr (lit "0"))
           (evaluators_string Reference.host (lit "1"))
           (evaluators_string Reference.host (lit "0"))
           None Reference.world0 Reference.world0 Reference.world0
           (VStr (lit "1")) (VStr (lit "0")) true false);
    reflexivity.
Defined.

(** X3 at a conjunction whose first argument converts to [false] and
    whose second is a variable without a binding. *)
Lemma logical_operators_evaluate_both_arguments_witness :
  evaluate Reference.host Reference.N3Util (EOp "&&" [EStr (lit "0"); EStr "?x"])
    (Some ∅) Reference.world0 = (Err (VariableNotBound "?x"), Reference.world0)
  /\ evaluate Reference.host Reference.N3Util (EOp "||" [EStr (lit "0"); EStr "?x"])
       (Some ∅) Reference.world0 = (Err (VariableNotBound "?x"), Reference.world0).
Proof.
  apply (logical_operators_evaluate_both_arguments Reference.host Reference.N3Util
           (EStr (lit "0")) (EStr "?x")
           (evaluators_string Reference.host (lit "0"))
           (evaluators_string Reference.host "?x")
           (Some ∅) Reference.world0 Reference.world0 Reference.world0
           (VStr (lit "0")) (VBool false));
    reflexivity.
Defined.

(** X4 at the string 10 and the integer 9: ten is not below nine. *)
Lemma comparisons_are_numeric_witness :
  evaluate Reference.host Reference.N3Util
    (EOp "<" [EStr (lit "10"); EStr (typed "9" xsd_integer)]) None Reference.world0 =
  (Ok (VStr XSD_FALSE), Reference.world0).
Proof.
  apply (comparisons_are_numeric Reference.host Reference.N3Util
           (EStr (lit "10")) (EStr (typed "9" xsd_integer))
           (evaluators_string Reference.host (lit "10"))
           (evaluators_string Reference.host (typed "9" xsd_integer))
           None Reference.world0 Reference.world0 Reference.world0
           (VStr (lit "10")) (VStr (typed "9" xsd_integer)) "10" "9");
    reflexivity.
Defined.

(** X5 at two words: neither is below the other. *)
Lemma comparison_with_unparsable_is_false_witness :
  evaluate Reference.host Reference.N3Util
    (EOp "<" [EStr (lit "apple"); EStr (lit "pear")]) None Reference.world0 =
  (Ok (VStr XSD_FALSE), Reference.world0).
Proof.
  apply (comparison_with_unparsable_is_false Reference.host Reference.N3Util
           (EStr (lit "apple")) (EStr (lit "pear"))
           (evaluators_string Reference.host (lit "apple"))
           (evaluators_string Reference.host (lit "pear"))
           None Reference.world0 Reference.world0 Reference.world0
           (VStr (lit "apple")) (VStr (lit "pear")) "apple" "pear" "<");
    try reflexivity.
  - left. reflexivity.
  - left.
Defined.

(** X6 on two simple literals. *)
Lemma contains_tests_occurrence_witness :
  exists found : bool,
    evaluate Reference.host Reference.N3Util
      (EOp "contains" [EStr (lit "foobar"); EStr (lit "oba")]) None Reference.world0 =
    (Ok (sentinel found), Reference.world0)
    /\ (found = true <-> exists p r, "foobar" = p +:+ "oba" +:+ r).
Proof.
  apply (contains_tests_occurrence Reference.host Reference.N3Util
           (EStr (lit "foobar")) (EStr (lit "oba"))
           (evaluators_string Reference.host (lit "foobar"))
           (evaluators_string Reference.host (lit "oba"))
           None Reference.world0 Reference.world0 Reference.world0
           (VStr (lit "foobar")) (VStr (lit "oba")) "foobar" "oba");
    reflexivity.
Defined.

(** X7 on two literals with the same language tag. *)
Lemma strstarts_tests_prefix_witness :
  exists starts : bool,
    evaluate Reference.host Reference.N3Util
      (EOp "strstarts" [EStr (tagged "hello" "en"); EStr (tagged "he" "en")])
      None Reference.world0 =
    (Ok (VBool starts), Reference.world0)
    /\ (starts = true <-> exists r, "hello" = "he" +:+ r).
Proof.
  apply (strstarts_tests_prefix Reference.host Reference.N3Util
           (EStr (tagged "hello" "en")) (EStr (tagged "he" "en"))
           (evaluators_string Reference.host (tagged "hello" "en"))
           (evaluators_string Reference.host (tagged "he" "en"))
           None Reference.world0 Reference.world0 Reference.world0
           (VStr (tagged "hello" "en")) (VStr (tagged "he" "en")) "hello" "he");
    reflexivity.
Defined.

(** X8 on a value that ends the first one and also occurs earlier in it. *)
Lemma strends_compares_first_occurrence_witness :
  exists ends : bool,
    evaluate Reference.host Reference.N3Util
      (EOp "strends" [EStr (lit "abab"); EStr (lit "ab")]) None Reference.world0 =
    (Ok (sentinel ends), Reference.world0)
    /\ (ends = true <->
        (exists p, "abab" = p +:+ "ab"
                   /\ forall p' r', "abab" = p' +:+ "ab" +:+ r' -> strlen p <= strlen p')
        \/ ((forall p r, "abab" <> p +:+ "ab" +:+ r) /\ strlen "ab" = strlen "abab" + 1)).
Proof.
  apply (strends_compares_first_occurrence Reference.host Reference.N3Util
           (EStr (lit "abab")) (EStr (lit "ab"))
           (evaluators_string Reference.host (lit "abab"))
           (evaluators_string Reference.host (lit "ab"))
           None Reference.world0 Reference.world0 Reference.world0
           (VStr (lit "abab")) (VStr (lit "ab")) "abab" "ab");
    reflexivity.
Defined.

(** X9 on a negative number with a fraction. *)
Lemma round_returns_the_absolute_value_witness :
  evaluate Reference.host Reference.N3Util (EOp "round" [EStr (lit "-2.5")])
    None Reference.world0 =
    (Ok (VNum (PrimFloat.abs (parseFloat Reference.host "-2.5"))), Reference.world0)
  /\ evaluate Reference.host Reference.N3Util (EOp "abs" [EStr (lit "-2.5")])
       None Reference.world0 =
     evaluate Reference.host Reference.N3Util (EOp "round" [EStr (lit "-2.5")])
       None Reference.world0.
Proof.
  apply (round_returns_the_absolute_value Reference.host Reference.N3Util
           (EStr (lit "-2.5")) (evaluators_string Reference.host (lit "-2.5"))
           None Reference.world0 Reference.world0 (VStr (lit "-2.5")) "-2.5");
    reflexivity.
Defined.

(** X10 on two different terms. *)
Lemma negated_inequality_is_always_false_witness :
  evaluate Reference.host Reference.N3Util
    (EOp "!" [EOp "!=" [EStr (lit "a"); EStr (lit "b")]]) None Reference.world0 =
  (Ok (VStr XSD_FALSE), Reference.world0).
Proof.
  apply (negated_inequality_is_always_false Reference.host Reference.N3Util
           (EStr (lit "a")) (EStr (lit "b"))
           (evaluators_string Reference.host (lit "a"))
           (evaluators_string Reference.host (lit "b"))
           None Reference.world0 Reference.world0 Reference.world0
           (VStr (lit "a")) (VStr (lit "b")));
    reflexivity.
Defined.

(** X11 on a blank node compared with itself. *)
Lemma same_term_excludes_blank_nodes_witness :
  exists same : bool,
    evaluate Reference.host Reference.N3Util
      (EOp "sameTerm" [EStr "_:b1"; EStr "_:b1"]) None Reference.world0 =
    (Ok (sentinel same), Reference.world0)
    /\ (same = true <-> true = false /\ true = false /\ "_:b1" = "_:b1").
Proof.
  apply (same_term_excludes_blank_nodes Reference.host Reference.N3Util
           (EStr "_:b1") (EStr "_:b1")
           (evaluators_string Reference.host "_:b1")
           (evaluators_string Reference.host "_:b1")
           None Reference.world0 Reference.world0 Reference.world0
           "_:b1" "_:b1" true true);
    reflexivity.
Defined.


(** X13 at a disjunction whose first argument is true. *)
Lemma unbound_variable_never_yields_value_witness :
  evaluate Reference.host Reference.N3Util
    (EOp "||" [EStr (lit "1"); EOp "!" [EStr "?x"]]) (Some ∅) Reference.world0 <>
  (Ok (VStr XSD_TRUE), Reference.world0).
Proof.
  apply (unbound_variable_never_yields_value Reference.host Reference.N3Util "?x"
           (EOp "||" [EStr (lit "1"); EOp "!" [EStr "?x"]]) (Some ∅)
           Reference.world0 Reference.world0 (VStr XSD_TRUE));
    reflexivity.
Defined.

(** X14 at a comparison of a variable with a constant. *)
Lemma bound_variables_stand_for_their_values_witness :
  evaluate Reference.host Reference.N3Util
    (substitute {["?x" := typed "3" xsd_integer]}
       (EOp "<" [EStr "?x"; EStr (typed "4" xsd_integer)]))
    (Some {["?x" := typed "3" xsd_integer]}) Reference.world0 =
  evaluate Reference.host Reference.N3Util
    (EOp "<" [EStr "?x"; EStr (typed "4" xsd_integer)])
    (Some {["?x" := typed "3" xsd_integer]}) Reference.world0.
Proof.
  apply (bound_variables_stand_for_their_values Reference.host Reference.N3Util
           {["?x" := typed "3" xsd_integer]}
           (EOp "<" [EStr "?x"; EStr (typed "4" xsd_integer)]) Reference.world0).
  intros name value Hlook. apply lookup_singleton_Some in Hlook as [_ <-].
  split; [discriminate | reflexivity].
Defined.


(** X16 at positions given as integer literals. *)
Lemma substr_at_literal_positions_is_empty_witness :
  evaluate Reference.host Reference.N3Util
    (EOp "substr" [EStr (tagged "hello" "en"); EStr (typed "2" xsd_integer);
                   EStr (typed "3" xsd_integer)])
    None Reference.world0 =
  (constructLiteral Reference.host Reference.N3Util "" (VStr (tagged "hello" "en")), Reference.world0).
Proof.
  apply (substr_at_literal_positions_is_empty Reference.host Reference.N3Util
           (EStr (tagged "hello" "en")) (EStr (typed "2" xsd_integer))
           (EStr (typed "3" xsd_integer))
           (evaluators_string Reference.host (tagged "hello" "en"))
           (evaluators_string Reference.host (typed "2" xsd_integer))
           (evaluators_string Reference.host (typed "3" xsd_integer))
           None Reference.world0 Reference.world0 Reference.world0 Reference.world0
           (VStr (tagged "hello" "en")) (typed "2" xsd_integer) (typed "3" xsd_integer)
           "hello");
    reflexivity.
Defined.

(** X17 at a simple literal, which is refused. *)
Lemma iri_accepts_only_iris_witness :
  evaluate Reference.host Reference.N3Util
    (EOp "iri" [EStr (lit "http://example.org/a")]) None Reference.world0 =
  (Err (ReferenceError "a"), Reference.world0).
Proof.
  apply (iri_accepts_only_iris Reference.host Reference.N3Util
           (EStr (lit "http://example.org/a"))
           (evaluators_string Reference.host (lit "http://example.org/a"))
           None Reference.world0 Reference.world0
           (VStr (lit "http://example.org/a")) false);
    reflexivity.
Defined.

(** X19 at a positive integer, whose datatype is the last of the array. *)
Lemma isnumeric_returns_a_position_witness :
  exists position : Z,
    evaluate Reference.host Reference.N3Util
      (EOp "isnumeric" [EStr (typed "7" (XSD +:+ "positiveInteger"))])
      None Reference.world0 =
      (Ok (VNum (float_of_Z position)), Reference.world0)
    /\ ((position = -1 /\ ~ In (XSD +:+ "positiveInteger") numeric_types)
        \/ (0 <= position < 16
            /\ nth_error numeric_types (Z.to_nat position) =
               Some (XSD +:+ "positiveInteger")
            /\ forall j, (j < Z.to_nat position)%nat ->
                         nth_error numeric_types j <> Some (XSD +:+ "positiveInteger")))
    /\ nth_error numeric_types 0 = Some (XSD +:+ "integer")
    /\ nth_error numeric_types 15 = Some (XSD +:+ "positiveInteger").
Proof.
  apply (isnumeric_returns_a_position Reference.host Reference.N3Util
           (EStr (typed "7" (XSD +:+ "positiveInteger")))
           (evaluators_string Reference.host (typed "7" (XSD +:+ "positiveInteger")))
           None Reference.world0 Reference.world0
           (VStr (typed "7" (XSD +:+ "positiveInteger"))) (XSD +:+ "positiveInteger"));
    reflexivity.
Defined.

(** X20 at a number with a fraction. *)
Lemma xsd_double_has_a_decimal_point_witness :
  exists lexicalForm,
    evaluate Reference.host Reference.N3Util
      (EOp (XSD +:+ "double") [EStr (lit "3.7")]) None Reference.world0 =
      (Ok (VStr (typed lexicalForm (XSD +:+ "double"))), Reference.world0)
    /\ (lexicalForm = Number_toFixed Reference.host (parseFloat Reference.host "3.7")
        \/ lexicalForm =
           Number_toFixed Reference.host (parseFloat Reference.host "3.7") +:+ ".0")
    /\ exists p r, lexicalForm = p +:+ "." +:+ r.
Proof.
  apply (xsd_double_has_a_decimal_point Reference.host Reference.N3Util
           (EStr (lit "3.7")) (evaluators_string Reference.host (lit "3.7"))
           None Reference.world0 Reference.world0 (VStr (lit "3.7")) "3.7");
    reflexivity.
Defined.

(** X21 at an English word. *)
Lemma case_conversion_keeps_the_language_tag_witness :
  evaluate Reference.host Reference.N3Util (EOp "ucase" [EStr (tagged "chat" "fr")])
    None Reference.world0 =
    (Ok (VStr (tagged (toUpperCase Reference.host "chat") "fr")), Reference.world0)
  /\ evaluate Reference.host Reference.N3Util (EOp "lcase" [EStr (tagged "chat" "fr")])
       None Reference.world0 =
     (Ok (VStr (tagged (toLowerCase Reference.host "chat") "fr")), Reference.world0).
Proof.
  apply (case_conversion_keeps_the_language_tag Reference.host Reference.N3Util
           (EStr (tagged "chat" "fr")) (evaluators_string Reference.host (tagged "chat" "fr"))
           None Reference.world0 Reference.world0 (VStr (tagged "chat" "fr"))
           "chat" "fr" Reference.RdfLangString);
    try reflexivity.
  discriminate.
Defined.

(** X23 at the test for a literal. *)
Lemma truth_valued_operators_return_constants_witness :
  VStr XSD_TRUE = VStr XSD_TRUE \/ VStr XSD_TRUE = VStr XSD_FALSE.
Proof.
  apply (truth_valued_operators_return_constants Reference.host Reference.N3Util
           "isliteral" [EStr (lit "a")] None Reference.world0 Reference.world0
           (VStr XSD_TRUE)).
  - apply (bool_decide_unpack _). vm_compute. reflexivity.
  - reflexivity.
Defined.

(** C4 with the collaborator of reference. *)
Lemma false_literal_converts_to_true_witness :
  convert_argument Reference.host Reference.N3Util (operator_type "!")
    (VStr (typed "false" xsd_boolean)) = Ok (VBool true)
  /\ evaluate Reference.host Reference.N3Util
       (EOp "!" [EStr (typed "false" xsd_boolean)]) None Reference.world0 =
     (Ok (VStr (typed "false" xsd_string)), Reference.world0)
  /\ evaluate Reference.host Reference.N3Util
       (EOp "&&" [EStr (typed "false" xsd_boolean); EStr (typed "false" xsd_boolean)])
       None Reference.world0 =
     (Ok (VStr (typed "true" xsd_string)), Reference.world0)
  /\ evaluate Reference.host Reference.N3Util
       (EOp "||" [EStr (typed "false" xsd_boolean); EStr (typed "false" xsd_boolean)])
       None Reference.world0 =
     (Ok (VStr (typed "true" xsd_string)), Reference.world0)
  /\ evaluate Reference.host Reference.N3Util
       (EOp "!" [EStr (typed "false" xsd_string)]) None Reference.world0 =
     (Ok (VStr (typed "true" xsd_string)), Reference.world0)
  /\ typed "false" xsd_string <> typed "false" xsd_boolean.
Proof.
  apply (false_literal_converts_to_true Reference.host Reference.N3Util
           None Reference.world0);
    reflexivity.
Defined.

(** C6 at a variable with an entry in the bindings. *)
Lemma bound_returns_string_typed_literals_witness :
  evaluate Reference.host Reference.N3Util (EOp "bound" [EStr "?x"])
    (Some {["?x" := lit "a"]}) Reference.world0 =
    (Ok (VStr (typed (if in_bindings "?x" (Some {["?x" := lit "a"]})
                      then "true" else "false") xsd_string)),
     Reference.world0)
  /\ typed "true" xsd_string <> typed "true" xsd_boolean
  /\ typed "false" xsd_string <> typed "false" xsd_boolean.
Proof.
  apply (bound_returns_string_typed_literals Reference.host Reference.N3Util "?x"
           (Some {["?x" := lit "a"]}) Reference.world0).
  reflexivity.
Defined.

(** C10 at the simple literal 1 and the integer 1. *)
Lemma equality_returns_string_typed_literals_witness :
  evaluate Reference.host Reference.N3Util
    (EOp "=" [EStr (lit "1"); EStr (typed "1" xsd_integer)]) None Reference.world0 =
    (Ok (VStr (typed (if String.eqb (lit "1") (typed "1" xsd_integer)
                      then "true" else "false") xsd_string)),
     Reference.world0)
  /\ (lit "1" <> typed "1" xsd_integer ->
      evaluate Reference.host Reference.N3Util
        (EOp "=" [EStr (lit "1"); EStr (typed "1" xsd_integer)]) None Reference.world0 =
      (Ok (VStr (typed "false" xsd_string)), Reference.world0))
  /\ typed "false" xsd_string <> typed "false" xsd_boolean.
Proof.
  apply (equality_returns_string_typed_literals Reference.host Reference.N3Util
           (EStr (lit "1")) (EStr (typed "1" xsd_integer))
           (evaluators_string Reference.host (lit "1"))
           (evaluators_string Reference.host (typed "1" xsd_integer))
           None Reference.world0 Reference.world0 Reference.world0
           (lit "1") (typed "1" xsd_integer));
    reflexivity.
Defined.
